(** * AR treasure hunt volunteer application: authoring workflow, API routes
      and team store adapter

    A shallow embedding of the TypeScript sources

      - [config.ts]                               (module [Config])
      - [pages/api/validate-and-upload-image.ts]  (module [ValidateEndpoint])
      - [pages/api/update-web-config.ts]          (module [UpdateWebConfig])
      - [pages/api/delete-treasure.ts]            (module [DeleteTreasure])
      - [pages/hide-treasures.tsx]                (module [HideTreasures])
      - [lib/firestore.ts]                        (module [TeamStore])

    JavaScript strings are sequences of UTF-16 code units and are modelled as
    [list N].  Integer valued numbers (scores, counters, lengths) are [N];
    GPS coordinates, the geometry fields of a treasure and the numbers of
    the team store are IEEE doubles and are modelled by primitive floats.  Asynchronous handlers are
    modelled as functions from the outcome of the calls they await (an
    environment record) to their final state and the trace of calls they
    issued.  Console and debug-panel logging is left out, except where a
    handler logs the failure of a step. *)

From Stdlib Require Import ZArith NArith List Ascii String PrimFloat DecimalString.
From Stdlib Require Import FloatAxioms DecimalPos DecimalN.
From stdpp Require Import gmap strings list fin_maps sorting.

Local Open Scope N_scope.

(* ===================================================================== *)
(** ** JavaScript strings and the string primitives the sources use *)
(* ===================================================================== *)

Module Js.

(** The code units of an ASCII literal of the source. *)
Definition lit (s : string) : list N :=
  map N_of_ascii (list_ascii_of_string s).

(** Truthiness of a string: only the empty string is falsy. *)
Definition truthy (s : list N) : bool :=
  match s with [] => false | _ :: _ => true end.

(** [WhiteSpace] and [LineTerminator] of ECMAScript: the characters that
    [String.prototype.trim] strips and that [\s] matches. *)
Definition isWhiteSpace (c : N) : bool :=
  ((9 <=? c) && (c <=? 13))
  || (c =? 32) || (c =? 160) || (c =? 5760)
  || ((8192 <=? c) && (c <=? 8202))
  || (c =? 8232) || (c =? 8233) || (c =? 8239) || (c =? 8287)
  || (c =? 12288) || (c =? 65279).

Definition isDigit (c : N) : bool := (48 <=? c) && (c <=? 57).
Definition isUpper (c : N) : bool := (65 <=? c) && (c <=? 90).
Definition isLower (c : N) : bool := (97 <=? c) && (c <=? 122).

(** The character class [[a-zA-Z0-9]]. *)
Definition isAlnum (c : N) : bool := isLower c || isUpper c || isDigit c.

Definition underscore : N := 95.

Fixpoint trimStart (s : list N) : list N :=
  match s with
  | [] => []
  | c :: r => if isWhiteSpace c then trimStart r else s
  end.

Definition trimEnd (s : list N) : list N := rev (trimStart (rev s)).

(** [s.trim()] *)
Definition trim (s : list N) : list N := trimEnd (trimStart s).

(** [s.replace(/[^a-zA-Z0-9]/g, '_')] *)
Definition replaceNonAlnum (s : list N) : list N :=
  map (fun c => if isAlnum c then c else underscore) s.

(** [s.replace(/\s+/g, '_')]: every maximal run of white space becomes one
    underscore.  [inRun] tells that the previous character was white space. *)
Fixpoint replaceWsRunsFrom (inRun : bool) (s : list N) : list N :=
  match s with
  | [] => []
  | c :: r =>
      if isWhiteSpace c
      then (if inRun then replaceWsRunsFrom true r
            else underscore :: replaceWsRunsFrom true r)
      else c :: replaceWsRunsFrom false r
  end.

Definition replaceWsRuns (s : list N) : list N := replaceWsRunsFrom false s.

(** The longest prefix of characters satisfying [p], and the rest. *)
Fixpoint span (p : N -> bool) (s : list N) : list N * list N :=
  match s with
  | [] => ([], [])
  | c :: r =>
      if p c then let '(a, b) := span p r in (c :: a, b) else ([], s)
  end.

(** [parseInt(d, 10)] on a string of decimal digits. *)
Definition parseInt (d : list N) : N :=
  fold_left (fun acc c => 10 * acc + (c - 48)) d 0.

(** [n.toString()] for a non-negative integer. *)
Definition natToString (n : N) : list N :=
  lit (NilZero.string_of_uint (N.to_uint n)).

(** The leftmost position of [s] at which the anchored matcher [m]
    succeeds, as [String.prototype.match] searches for a regular expression
    without the sticky flag. *)
Fixpoint search {A} (m : list N -> option A) (s : list N) : option A :=
  match m s with
  | Some r => Some r
  | None => match s with [] => None | _ :: r => search m r end
  end.

(** Case-insensitive match of one ASCII lower-case letter (flag [i]
    without flag [u]: no character outside ASCII folds onto an ASCII
    letter). *)
Definition eqIgnoreCase (lower c : N) : bool := (c =? lower) || (c =? lower - 32).

(** A non-empty run of decimal digits at the start of [s]: [(\d+)]. *)
Definition digitsAt (s : list N) : option (list N) :=
  match fst (span isDigit s) with
  | [] => None
  | d => Some d
  end.

(** [/score[:\s]+(\d+)/i] anchored at the start of [s]; the result is
    capture group 1.  A shorter run for [[:\s]+] is never followed by a
    digit, so the greedy run is the only candidate. *)
Definition scoreAt (s : list N) : option (list N) :=
  match s with
  | c1 :: c2 :: c3 :: c4 :: c5 :: r =>
      if eqIgnoreCase 115 c1 && eqIgnoreCase 99 c2 && eqIgnoreCase 111 c3
         && eqIgnoreCase 114 c4 && eqIgnoreCase 101 c5
      then
        match span (fun c => (c =? 58) || isWhiteSpace c) r with
        | ([], _) => None
        | (_ :: _, r') => digitsAt r'
        end
      else None
  | _ => None
  end.

(** [s.match(/score[:\s]+(\d+)/i)], reduced to capture group 1. *)
Definition matchScore (s : list N) : option (list N) := search scoreAt s.

(** [s.match(/(\d+)/)], reduced to capture group 1. *)
Definition matchNumber (s : list N) : option (list N) := search digitsAt s.

(** [a || b] on match results ([null] is [None]). *)
Definition orElse {A} (a b : option A) : option A :=
  match a with Some _ => a | None => b end.

End Js.

Notation "'js' s" := (Js.lit s%string) (at level 9, s at level 0, only parsing).

(** Platform primitives whose full definition lies outside the repository:
    Unicode lower-casing ([String.prototype.toLowerCase]) and the decimal
    rendering of a double ([Number.prototype.toString]). *)
Class Platform := {
  toLowerCase : list N -> list N;
  numberToString : float -> list N
}.

(* ===================================================================== *)
(** ** config.ts *)
(* ===================================================================== *)

Module Config.

Record ServerConfig := {
  baseUrl : list N;
  uploadImageEndpoint : list N;
  uploadWebConfigEndpoint : list N
}.

Record t := {
  server : ServerConfig;
  minValidationScore : N;
  defaultMaxTreasures : N
}.

(** The configuration shipped with the repository. *)
Definition config : t := {|
  server := {|
    baseUrl := js "https://13d6f2ae3427.ngrok-free.app";
    uploadImageEndpoint := js "/upload-treasure-image";
    uploadWebConfigEndpoint := js "/upload-web-config"
  |};
  minValidationScore := 75;
  defaultMaxTreasures := 5
|}.

Definition getServerUrl (c : t) (endpoint : option (list N)) : list N :=
  match endpoint with
  | Some e => if Js.truthy e then baseUrl (server c) ++ e else baseUrl (server c)
  | None => baseUrl (server c)
  end.

Definition getUploadImageUrl (c : t) : list N :=
  getServerUrl c (Some (uploadImageEndpoint (server c))).

Definition getUploadWebConfigUrl (c : t) : list N :=
  getServerUrl c (Some (uploadWebConfigEndpoint (server c))).

End Config.

(* ===================================================================== *)
(** ** The treasure record and the exported configuration document *)
(* ===================================================================== *)

Record Vec3 := { vx : float; vy : float; vz : float }.

(** [interface TreasureData] *)
Record TreasureData := {
  imageName : list N;
  fileName : list N;
  physicalSizeInMeters : float;
  clueIndex : N;
  clueName : list N;
  spawnOffset : Vec3;
  spawnRotation : Vec3;
  clueText : list N;
  latitude : float;
  longitude : float;
  hasPhysicalGame : bool;
  physicalGameInstruction : list N;
  physicalGameSecretCode : list N
}.

(** [interface WebConfig] *)
Record WebConfig := {
  images : list TreasureData;
  lastUpdated : list N;
  totalTreasures : N
}.

(** The three outcomes of an awaited [fetch]: it threw, it answered with a
    status outside 200..299, or it answered [ok] with a body. *)
Inductive Fetched (A : Type) :=
| Threw
| NotOk
| Ok (body : A).
Arguments Threw {A}.
Arguments NotOk {A}.
Arguments Ok {A} body.

Inductive Method := GET | POST | PUT | DELETE.

(* ===================================================================== *)
(** ** pages/api/validate-and-upload-image.ts *)
(* ===================================================================== *)

Module ValidateEndpoint.

(** The multipart fields after [form.parse], each reduced to its first
    value; [image] stands for the uploaded temporary file. *)
Record FormFields := {
  image : option (list N);
  fImageName : option (list N);
  fLatitude : option (list N);
  fLongitude : option (list N)
}.

(** Outcome of [execAsync(command)]: the promise rejects (tool missing,
    non-zero exit, time-out) or resolves with both output streams. *)
Inductive ExecResult :=
| ExecFailed
| ExecDone (stdout stderr : list N).

(** Outcome of the multipart submission to the asset server. *)
Inductive UploadOutcome :=
| UploadThrew
| UploadNotOk
| UploadOkJson (url : option (list N))
| UploadOkText.

Record Env := {
  exec : ExecResult;
  imageReadable : bool;
  upload : UploadOutcome
}.

(** The multipart request sent to the asset server. *)
Record UploadRequest := {
  uFilename : list N;
  uImageName : list N;
  uLatitude : list N;
  uLongitude : list N;
  uValidationScore : list N
}.

(** [interface ValidationResult] *)
Record ValidationResult := {
  success : bool;
  score : option N;
  error : option (list N);
  uploadUrl : option (list N)
}.

Record Run := {
  status : N;
  body : ValidationResult;
  uploads : list UploadRequest
}.

Definition failure (code : N) (msg : list N) : Run :=
  {| status := code;
     body := {| success := false; score := None; error := Some msg; uploadUrl := None |};
     uploads := [] |}.

(** [`${imageName.replace(/[^a-zA-Z0-9]/g, '_')}.png`] *)
Definition imageFileName (imageName : list N) : list N :=
  Js.replaceNonAlnum imageName ++ js ".png".

(** The score extracted from the tool's output; [validationScore] keeps
    its initial value 0 when neither pattern matches. *)
Definition parseScore (stdout stderr : list N) : N :=
  match Js.orElse (Js.matchScore stdout) (Js.matchScore stderr) with
  | Some d => Js.parseInt d
  | None =>
      match Js.orElse (Js.matchNumber stdout) (Js.matchNumber stderr) with
      | Some d => Js.parseInt d
      | None => 0
      end
  end.

(** Step 1: the [try]/[catch] around the validator invocation. *)
Definition validationScore (r : ExecResult) : N :=
  match r with
  | ExecDone stdout stderr => parseScore stdout stderr
  | ExecFailed => 85
  end.

Definition orZero (s : option (list N)) : list N :=
  match s with
  | Some v => if Js.truthy v then v else js "0"
  | None => js "0"
  end.

Definition fallbackUrl (cfg : Config.t) (file : list N) : list N :=
  Config.baseUrl (Config.server cfg) ++ js "/images/" ++ file.

(** Step 2: the upload, attempted only for an acceptable score.  Returns
    [uploadUrl] and the requests issued. *)
Definition uploadStep (cfg : Config.t) (env : Env) (name : list N)
    (lat lon : option (list N)) (s : N) : list N * list UploadRequest :=
  if Config.minValidationScore cfg <=? s then
    if imageReadable env then
      let req := {| uFilename := imageFileName name;
                    uImageName := name;
                    uLatitude := orZero lat;
                    uLongitude := orZero lon;
                    uValidationScore := Js.natToString s |} in
      match upload env with
      | UploadOkJson (Some u) =>
          (if Js.truthy u then u else fallbackUrl cfg (imageFileName name), [req])
      | UploadOkJson None => (fallbackUrl cfg (imageFileName name), [req])
      | UploadOkText => (fallbackUrl cfg (imageFileName name), [req])
      | UploadNotOk => ([], [req])
      | UploadThrew => ([], [req])
      end
    else ([], [])
  else ([], []).

Definition belowThresholdMessage (cfg : Config.t) (s : N) : list N :=
  js "Image quality score (" ++ Js.natToString s
  ++ js ") is below the required threshold of "
  ++ Js.natToString (Config.minValidationScore cfg)
  ++ js ". Please capture an image with more visual features, better contrast, and sharper details.".

(** [export default async function handler(req, res)]; [form] is [None]
    when parsing the request throws. *)
Definition handler (cfg : Config.t) (method : Method)
    (form : option FormFields) (env : Env) : Run :=
  match method with
  | POST =>
      match form with
      | None => failure 500 (js "Failed to process image. Please try again.")
      | Some f =>
          match image f, fImageName f with
          | Some _, Some name =>
              if Js.truthy name then
                let s := validationScore (exec env) in
                let '(url, reqs) := uploadStep cfg env name (fLatitude f) (fLongitude f) s in
                {| status := 200;
                   body := {|
                     success := Config.minValidationScore cfg <=? s;
                     score := Some s;
                     error := if s <? Config.minValidationScore cfg
                              then Some (belowThresholdMessage cfg s) else None;
                     uploadUrl := if Js.truthy url then Some url else None |};
                   uploads := reqs |}
              else failure 400 (js "Missing image or image name")
          | _, _ => failure 400 (js "Missing image or image name")
          end
      end
  | _ => failure 405 (js "Method not allowed")
  end.

End ValidateEndpoint.

(* ===================================================================== *)
(** ** pages/api/update-web-config.ts: the configuration publisher *)
(* ===================================================================== *)

Module UpdateWebConfig.

Record Env := {
  now : list N;                 (* new Date().toISOString() *)
  cwd : list N;                 (* process.cwd() *)
  localWrite : bool;            (* fs.writeFile of Web-config.JSON succeeds *)
  serverPush : Fetched bool;    (* the POST; the body tells if it parses as JSON *)
  publicWrite : bool            (* mkdir and writeFile under public/ succeed *)
}.

(** The [console.error] calls of the three [catch] blocks and of the
    non-2xx branch. *)
Inductive LogEvent :=
| LocalSaveFailed
| ServerUpdateFailed
| ServerUploadThrew
| PublicSaveFailed.

(** [interface UpdateConfigResponse] *)
Record UpdateConfigResponse := {
  success : bool;
  error : option (list N);
  configPath : option (list N);
  treasureCount : option N
}.

Record Run := {
  status : N;
  body : UpdateConfigResponse;
  localFile : option WebConfig;     (* content written to Web-config.JSON *)
  pushed : list WebConfig;          (* bodies posted to the remote endpoint *)
  publicFile : option WebConfig;    (* content written to public/Web-config.JSON *)
  serverUpdateSuccess : bool;
  logs : list LogEvent
}.

Definition reject (code : N) (msg : list N) : Run :=
  {| status := code;
     body := {| success := false; error := Some msg; configPath := None;
                treasureCount := None |};
     localFile := None; pushed := []; publicFile := None;
     serverUpdateSuccess := false; logs := [] |}.

Definition makeWebConfig (now : list N) (treasures : list TreasureData) : WebConfig :=
  {| images := treasures;
     lastUpdated := now;
     totalTreasures := N.of_nat (length treasures) |}.

(** [export default async function handler(req, res)]; [treasures] is
    [None] when [req.body.treasures] is not an array. *)
Definition handler (method : Method) (treasures : option (list TreasureData))
    (env : Env) : Run :=
  match method with
  | POST =>
      match treasures with
      | None => reject 400 (js "Invalid treasures data")
      | Some ts =>
          let webConfig := makeWebConfig (now env) ts in
          let localConfigPath := cwd env ++ js "/Web-config.JSON" in
          (* Step 1: save locally first *)
          let '(file1, log1) :=
            if localWrite env then (Some webConfig, [])
            else (None, [LocalSaveFailed]) in
          (* Step 2: upload to configured server *)
          let '(ok2, log2) :=
            match serverPush env with
            | Ok true => (true, [])
            | Ok false => (false, [ServerUploadThrew])
            | NotOk => (false, [ServerUpdateFailed])
            | Threw => (false, [ServerUploadThrew])
            end in
          (* Step 3: also try to save to public directory *)
          let '(file3, log3) :=
            if publicWrite env then (Some webConfig, [])
            else (None, [PublicSaveFailed]) in
          {| status := 200;
             body := {| success := true; error := None;
                        configPath := Some localConfigPath;
                        treasureCount := Some (N.of_nat (length ts)) |};
             localFile := file1; pushed := [webConfig]; publicFile := file3;
             serverUpdateSuccess := ok2;
             logs := log1 ++ log2 ++ log3 |}
      end
  | _ => reject 405 (js "Method not allowed")
  end.

End UpdateWebConfig.

(* ===================================================================== *)
(** ** pages/api/delete-treasure.ts *)
(* ===================================================================== *)

Module DeleteTreasure.

Record Env := {
  now : list N;
  (* GET {base}/config; the body is [configData.images] *)
  configFetch : Fetched (option (list TreasureData));
  (* POST {base}/delete-image; the body tells if it parses as JSON *)
  deleteImage : Fetched bool;
  (* POST {base}/upload-web-config *)
  configPush : Fetched unit
}.

(** [interface DeleteTreasureResponse] *)
Record DeleteTreasureResponse := {
  success : bool;
  error : option (list N);
  message : option (list N);
  imageDeleted : option bool;
  configUpdated : option bool;
  treasureRemoved : option (list N)
}.

Record Run := {
  status : N;
  body : DeleteTreasureResponse;
  deleteRequests : list (list N);   (* fileName of each delete-image request *)
  pushed : list WebConfig           (* bodies posted to upload-web-config *)
}.

Definition reject (code : N) (msg : list N) : Run :=
  {| status := code;
     body := {| success := false; error := Some msg; message := None;
                imageDeleted := None; configUpdated := None;
                treasureRemoved := None |};
     deleteRequests := []; pushed := [] |}.

(** [currentTreasures.filter(t => t.imageName !== imageName)] *)
Definition removeTreasure (name : list N) (ts : list TreasureData) : list TreasureData :=
  filter (fun t => imageName t <> name) ts.

Definition updatedConfig (now name : list N) (current : list TreasureData) : WebConfig :=
  let updatedTreasures := removeTreasure name current in
  {| images := updatedTreasures;
     lastUpdated := now;
     totalTreasures := N.of_nat (length updatedTreasures) |}.

Definition deletionMessage (imageDeleteSuccess configUpdateSuccess : bool) : list N :=
  js "Treasure deletion: Image "
  ++ (if imageDeleteSuccess then js "deleted" else js "failed")
  ++ js ", Config "
  ++ (if configUpdateSuccess then js "updated" else js "failed").

(** [export default async function handler(req, res)] *)
Definition handler (cfg : Config.t) (method : Method)
    (reqImageName reqFileName : option (list N)) (env : Env) : Run :=
  match method with
  | POST =>
      match reqImageName, reqFileName with
      | Some name, Some file =>
          if Js.truthy name && Js.truthy file then
            let hasServer := Js.truthy (Config.baseUrl (Config.server cfg)) in
            (* first, get current config from server *)
            let currentTreasures :=
              if hasServer then
                match configFetch env with
                | Ok (Some imgs) => imgs
                | _ => []
                end
              else [] in
            (* delete the image file on the server *)
            let imageDeleteSuccess :=
              if hasServer then
                match deleteImage env with Ok true => true | _ => false end
              else false in
            let dels := if hasServer then [file] else [] in
            (* update server config by removing the deleted treasure *)
            let republish :=
              hasServer && negb (Nat.eqb (length currentTreasures) 0) in
            let posted :=
              if republish then [updatedConfig (now env) name currentTreasures] else [] in
            let configUpdateSuccess :=
              if republish then
                match configPush env with Ok _ => true | _ => false end
              else false in
            {| status := 200;
               body := {| success := true; error := None;
                          message := Some (deletionMessage imageDeleteSuccess configUpdateSuccess);
                          imageDeleted := Some imageDeleteSuccess;
                          configUpdated := Some configUpdateSuccess;
                          treasureRemoved := Some name |};
               deleteRequests := dels; pushed := posted |}
          else reject 400 (js "Missing imageName or fileName")
      | _, _ => reject 400 (js "Missing imageName or fileName")
      end
  | _ => reject 405 (js "Method not allowed")
  end.

End DeleteTreasure.

(* ===================================================================== *)
(** ** pages/hide-treasures.tsx: the authoring workflow *)
(* ===================================================================== *)

Module HideTreasures.

(** [type PageStep] *)
Inductive PageStep := Setup | Capture | Crop | Processing | ClueBuilder | Complete.

(** [interface GPSCoordinates] *)
Record GPSCoordinates := { gpsLatitude : float; gpsLongitude : float }.

(** The value given to [setCurrentTreasure]: the fields of [TreasureData]
    known once an image is validated. *)
Record PartialTreasure := {
  pImageName : list N;
  pFileName : list N;
  pPhysicalSizeInMeters : float;
  pClueIndex : N;
  pClueName : list N;
  pSpawnOffset : Vec3;
  pSpawnRotation : Vec3;
  pLatitude : float;
  pLongitude : float
}.

(** The [useState] and [useRef] cells of the component that the workflow
    handlers read or write. *)
Record State := {
  currentStep : PageStep;
  treasureCount : N;
  maxTreasures : N;
  gpsPermission : bool;
  currentLocation : option GPSCoordinates;
  treasures : list TreasureData;
  cameraStream : bool;
  capturedImage : option (list N);
  croppedImage : option (list N);
  nameInput : list N;                     (* [imageName] *)
  isProcessing : bool;
  validationScore : option N;
  capturedImageBackup : option (list N);
  isNamingImage : bool;
  tempImageData : option (list N);
  currentTreasure : option PartialTreasure;
  clueInput : list N;                     (* [clueText] *)
  physicalGameOn : bool;                  (* [hasPhysicalGame] *)
  physicalInstruction : list N;
  secretCode : list N
}.

(** The state of a freshly mounted component. *)
Definition initialState (cfg : Config.t) : State := {|
  currentStep := Setup; treasureCount := 0;
  maxTreasures := Config.defaultMaxTreasures cfg;
  gpsPermission := false; currentLocation := None; treasures := [];
  cameraStream := false; capturedImage := None; croppedImage := None;
  nameInput := []; isProcessing := false; validationScore := None;
  capturedImageBackup := None; isNamingImage := false; tempImageData := None;
  currentTreasure := None; clueInput := []; physicalGameOn := false;
  physicalInstruction := []; secretCode := []
|}.

(** *** State setters *)

Definition setCurrentStep (v : PageStep) (s : State) : State :=
  {| currentStep := v; treasureCount := treasureCount s; maxTreasures := maxTreasures s;
     gpsPermission := gpsPermission s; currentLocation := currentLocation s;
     treasures := treasures s; cameraStream := cameraStream s;
     capturedImage := capturedImage s; croppedImage := croppedImage s;
     nameInput := nameInput s; isProcessing := isProcessing s;
     validationScore := validationScore s; capturedImageBackup := capturedImageBackup s;
     isNamingImage := isNamingImage s; tempImageData := tempImageData s;
     currentTreasure := currentTreasure s; clueInput := clueInput s;
     physicalGameOn := physicalGameOn s; physicalInstruction := physicalInstruction s;
     secretCode := secretCode s |}.

Definition setTreasureCount (v : N) (s : State) : State :=
  {| currentStep := currentStep s; treasureCount := v; maxTreasures := maxTreasures s;
     gpsPermission := gpsPermission s; currentLocation := currentLocation s;
     treasures := treasures s; cameraStream := cameraStream s;
     capturedImage := capturedImage s; croppedImage := croppedImage s;
     nameInput := nameInput s; isProcessing := isProcessing s;
     validationScore := validationScore s; capturedImageBackup := capturedImageBackup s;
     isNamingImage := isNamingImage s; tempImageData := tempImageData s;
     currentTreasure := currentTreasure s; clueInput := clueInput s;
     physicalGameOn := physicalGameOn s; physicalInstruction := physicalInstruction s;
     secretCode := secretCode s |}.

Definition setMaxTreasures (v : N) (s : State) : State :=
  {| currentStep := currentStep s; treasureCount := treasureCount s; maxTreasures := v;
     gpsPermission := gpsPermission s; currentLocation := currentLocation s;
     treasures := treasures s; cameraStream := cameraStream s;
     capturedImage := capturedImage s; croppedImage := croppedImage s;
     nameInput := nameInput s; isProcessing := isProcessing s;
     validationScore := validationScore s; capturedImageBackup := capturedImageBackup s;
     isNamingImage := isNamingImage s; tempImageData := tempImageData s;
     currentTreasure := currentTreasure s; clueInput := clueInput s;
     physicalGameOn := physicalGameOn s; physicalInstruction := physicalInstruction s;
     secretCode := secretCode s |}.

Definition setGpsPermission (v : bool) (s : State) : State :=
  {| currentStep := currentStep s; treasureCount := treasureCount s;
     maxTreasures := maxTreasures s;
     gpsPermission := v; currentLocation := currentLocation s;
     treasures := treasures s; cameraStream := cameraStream s;
     capturedImage := capturedImage s; croppedImage := croppedImage s;
     nameInput := nameInput s; isProcessing := isProcessing s;
     validationScore := validationScore s; capturedImageBackup := capturedImageBackup s;
     isNamingImage := isNamingImage s; tempImageData := tempImageData s;
     currentTreasure := currentTreasure s; clueInput := clueInput s;
     physicalGameOn := physicalGameOn s; physicalInstruction := physicalInstruction s;
     secretCode := secretCode s |}.

Definition setCurrentLocation (v : option GPSCoordinates) (s : State) : State :=
  {| currentStep := currentStep s; treasureCount := treasureCount s;
     maxTreasures := maxTreasures s;
     gpsPermission := gpsPermission s; currentLocation := v;
     treasures := treasures s; cameraStream := cameraStream s;
     capturedImage := capturedImage s; croppedImage := croppedImage s;
     nameInput := nameInput s; isProcessing := isProcessing s;
     validationScore := validationScore s; capturedImageBackup := capturedImageBackup s;
     isNamingImage := isNamingImage s; tempImageData := tempImageData s;
     currentTreasure := currentTreasure s; clueInput := clueInput s;
     physicalGameOn := physicalGameOn s; physicalInstruction := physicalInstruction s;
     secretCode := secretCode s |}.

Definition setTreasures (v : list TreasureData) (s : State) : State :=
  {| currentStep := currentStep s; treasureCount := treasureCount s;
     maxTreasures := maxTreasures s;
     gpsPermission := gpsPermission s; currentLocation := currentLocation s;
     treasures := v; cameraStream := cameraStream s;
     capturedImage := capturedImage s; croppedImage := croppedImage s;
     nameInput := nameInput s; isProcessing := isProcessing s;
     validationScore := validationScore s; capturedImageBackup := capturedImageBackup s;
     isNamingImage := isNamingImage s; tempImageData := tempImageData s;
     currentTreasure := currentTreasure s; clueInput := clueInput s;
     physicalGameOn := physicalGameOn s; physicalInstruction := physicalInstruction s;
     secretCode := secretCode s |}.

Definition setCameraStream (v : bool) (s : State) : State :=
  {| currentStep := currentStep s; treasureCount := treasureCount s;
     maxTreasures := maxTreasures s;
     gpsPermission := gpsPermission s; currentLocation := currentLocation s;
     treasures := treasures s; cameraStream := v;
     capturedImage := capturedImage s; croppedImage := croppedImage s;
     nameInput := nameInput s; isProcessing := isProcessing s;
     validationScore := validationScore s; capturedImageBackup := capturedImageBackup s;
     isNamingImage := isNamingImage s; tempImageData := tempImageData s;
     currentTreasure := currentTreasure s; clueInput := clueInput s;
     physicalGameOn := physicalGameOn s; physicalInstruction := physicalInstruction s;
     secretCode := secretCode s |}.

Definition setCapturedImage (v : option (list N)) (s : State) : State :=
  {| currentStep := currentStep s; treasureCount := treasureCount s;
     maxTreasures := maxTreasures s;
     gpsPermission := gpsPermission s; currentLocation := currentLocation s;
     treasures := treasures s; cameraStream := cameraStream s;
     capturedImage := v; croppedImage := croppedImage s;
     nameInput := nameInput s; isProcessing := isProcessing s;
     validationScore := validationScore s; capturedImageBackup := capturedImageBackup s;
     isNamingImage := isNamingImage s; tempImageData := tempImageData s;
     currentTreasure := currentTreasure s; clueInput := clueInput s;
     physicalGameOn := physicalGameOn s; physicalInstruction := physicalInstruction s;
     secretCode := secretCode s |}.

Definition setCroppedImage (v : option (list N)) (s : State) : State :=
  {| currentStep := currentStep s; treasureCount := treasureCount s;
     maxTreasures := maxTreasures s;
     gpsPermission := gpsPermission s; currentLocation := currentLocation s;
     treasures := treasures s; cameraStream := cameraStream s;
     capturedImage := capturedImage s; croppedImage := v;
     nameInput := nameInput s; isProcessing := isProcessing s;
     validationScore := validationScore s; capturedImageBackup := capturedImageBackup s;
     isNamingImage := isNamingImage s; tempImageData := tempImageData s;
     currentTreasure := currentTreasure s; clueInput := clueInput s;
     physicalGameOn := physicalGameOn s; physicalInstruction := physicalInstruction s;
     secretCode := secretCode s |}.

Definition setImageName (v : list N) (s : State) : State :=
  {| currentStep := currentStep s; treasureCount := treasureCount s;
     maxTreasures := maxTreasures s;
     gpsPermission := gpsPermission s; currentLocation := currentLocation s;
     treasures := treasures s; cameraStream := cameraStream s;
     capturedImage := capturedImage s; croppedImage := croppedImage s;
     nameInput := v; isProcessing := isProcessing s;
     validationScore := validationScore s; capturedImageBackup := capturedImageBackup s;
     isNamingImage := isNamingImage s; tempImageData := tempImageData s;
     currentTreasure := currentTreasure s; clueInput := clueInput s;
     physicalGameOn := physicalGameOn s; physicalInstruction := physicalInstruction s;
     secretCode := secretCode s |}.

Definition setIsProcessing (v : bool) (s : State) : State :=
  {| currentStep := currentStep s; treasureCount := treasureCount s;
     maxTreasures := maxTreasures s;
     gpsPermission := gpsPermission s; currentLocation := currentLocation s;
     treasures := treasures s; cameraStream := cameraStream s;
     capturedImage := capturedImage s; croppedImage := croppedImage s;
     nameInput := nameInput s; isProcessing := v;
     validationScore := validationScore s; capturedImageBackup := capturedImageBackup s;
     isNamingImage := isNamingImage s; tempImageData := tempImageData s;
     currentTreasure := currentTreasure s; clueInput := clueInput s;
     physicalGameOn := physicalGameOn s; physicalInstruction := physicalInstruction s;
     secretCode := secretCode s |}.

Definition setValidationScore (v : option N) (s : State) : State :=
  {| currentStep := currentStep s; treasureCount := treasureCount s;
     maxTreasures := maxTreasures s;
     gpsPermission := gpsPermission s; currentLocation := currentLocation s;
     treasures := treasures s; cameraStream := cameraStream s;
     capturedImage := capturedImage s; croppedImage := croppedImage s;
     nameInput := nameInput s; isProcessing := isProcessing s;
     validationScore := v; capturedImageBackup := capturedImageBackup s;
     isNamingImage := isNamingImage s; tempImageData := tempImageData s;
     currentTreasure := currentTreasure s; clueInput := clueInput s;
     physicalGameOn := physicalGameOn s; physicalInstruction := physicalInstruction s;
     secretCode := secretCode s |}.

Definition setCapturedImageBackup (v : option (list N)) (s : State) : State :=
  {| currentStep := currentStep s; treasureCount := treasureCount s;
     maxTreasures := maxTreasures s;
     gpsPermission := gpsPermission s; currentLocation := currentLocation s;
     treasures := treasures s; cameraStream := cameraStream s;
     capturedImage := capturedImage s; croppedImage := croppedImage s;
     nameInput := nameInput s; isProcessing := isProcessing s;
     validationScore := validationScore s; capturedImageBackup := v;
     isNamingImage := isNamingImage s; tempImageData := tempImageData s;
     currentTreasure := currentTreasure s; clueInput := clueInput s;
     physicalGameOn := physicalGameOn s; physicalInstruction := physicalInstruction s;
     secretCode := secretCode s |}.

Definition setIsNamingImage (v : bool) (s : State) : State :=
  {| currentStep := currentStep s; treasureCount := treasureCount s;
     maxTreasures := maxTreasures s;
     gpsPermission := gpsPermission s; currentLocation := currentLocation s;
     treasures := treasures s; cameraStream := cameraStream s;
     capturedImage := capturedImage s; croppedImage := croppedImage s;
     nameInput := nameInput s; isProcessing := isProcessing s;
     validationScore := validationScore s; capturedImageBackup := capturedImageBackup s;
     isNamingImage := v; tempImageData := tempImageData s;
     currentTreasure := currentTreasure s; clueInput := clueInput s;
     physicalGameOn := physicalGameOn s; physicalInstruction := physicalInstruction s;
     secretCode := secretCode s |}.

Definition setTempImageData (v : option (list N)) (s : State) : State :=
  {| currentStep := currentStep s; treasureCount := treasureCount s;
     maxTreasures := maxTreasures s;
     gpsPermission := gpsPermission s; currentLocation := currentLocation s;
     treasures := treasures s; cameraStream := cameraStream s;
     capturedImage := capturedImage s; croppedImage := croppedImage s;
     nameInput := nameInput s; isProcessing := isProcessing s;
     validationScore := validationScore s; capturedImageBackup := capturedImageBackup s;
     isNamingImage := isNamingImage s; tempImageData := v;
     currentTreasure := currentTreasure s; clueInput := clueInput s;
     physicalGameOn := physicalGameOn s; physicalInstruction := physicalInstruction s;
     secretCode := secretCode s |}.

Definition setCurrentTreasure (v : option PartialTreasure) (s : State) : State :=
  {| currentStep := currentStep s; treasureCount := treasureCount s;
     maxTreasures := maxTreasures s;
     gpsPermission := gpsPermission s; currentLocation := currentLocation s;
     treasures := treasures s; cameraStream := cameraStream s;
     capturedImage := capturedImage s; croppedImage := croppedImage s;
     nameInput := nameInput s; isProcessing := isProcessing s;
     validationScore := validationScore s; capturedImageBackup := capturedImageBackup s;
     isNamingImage := isNamingImage s; tempImageData := tempImageData s;
     currentTreasure := v; clueInput := clueInput s;
     physicalGameOn := physicalGameOn s; physicalInstruction := physicalInstruction s;
     secretCode := secretCode s |}.

Definition setClueText (v : list N) (s : State) : State :=
  {| currentStep := currentStep s; treasureCount := treasureCount s;
     maxTreasures := maxTreasures s;
     gpsPermission := gpsPermission s; currentLocation := currentLocation s;
     treasures := treasures s; cameraStream := cameraStream s;
     capturedImage := capturedImage s; croppedImage := croppedImage s;
     nameInput := nameInput s; isProcessing := isProcessing s;
     validationScore := validationScore s; capturedImageBackup := capturedImageBackup s;
     isNamingImage := isNamingImage s; tempImageData := tempImageData s;
     currentTreasure := currentTreasure s; clueInput := v;
     physicalGameOn := physicalGameOn s; physicalInstruction := physicalInstruction s;
     secretCode := secretCode s |}.

Definition setHasPhysicalGame (v : bool) (s : State) : State :=
  {| currentStep := currentStep s; treasureCount := treasureCount s;
     maxTreasures := maxTreasures s;
     gpsPermission := gpsPermission s; currentLocation := currentLocation s;
     treasures := treasures s; cameraStream := cameraStream s;
     capturedImage := capturedImage s; croppedImage := croppedImage s;
     nameInput := nameInput s; isProcessing := isProcessing s;
     validationScore := validationScore s; capturedImageBackup := capturedImageBackup s;
     isNamingImage := isNamingImage s; tempImageData := tempImageData s;
     currentTreasure := currentTreasure s; clueInput := clueInput s;
     physicalGameOn := v; physicalInstruction := physicalInstruction s;
     secretCode := secretCode s |}.

Definition setPhysicalInstruction (v : list N) (s : State) : State :=
  {| currentStep := currentStep s; treasureCount := treasureCount s;
     maxTreasures := maxTreasures s;
     gpsPermission := gpsPermission s; currentLocation := currentLocation s;
     treasures := treasures s; cameraStream := cameraStream s;
     capturedImage := capturedImage s; croppedImage := croppedImage s;
     nameInput := nameInput s; isProcessing := isProcessing s;
     validationScore := validationScore s; capturedImageBackup := capturedImageBackup s;
     isNamingImage := isNamingImage s; tempImageData := tempImageData s;
     currentTreasure := currentTreasure s; clueInput := clueInput s;
     physicalGameOn := physicalGameOn s; physicalInstruction := v;
     secretCode := secretCode s |}.

Definition setSecretCode (v : list N) (s : State) : State :=
  {| currentStep := currentStep s; treasureCount := treasureCount s;
     maxTreasures := maxTreasures s;
     gpsPermission := gpsPermission s; currentLocation := currentLocation s;
     treasures := treasures s; cameraStream := cameraStream s;
     capturedImage := capturedImage s; croppedImage := croppedImage s;
     nameInput := nameInput s; isProcessing := isProcessing s;
     validationScore := validationScore s; capturedImageBackup := capturedImageBackup s;
     isNamingImage := isNamingImage s; tempImageData := tempImageData s;
     currentTreasure := currentTreasure s; clueInput := clueInput s;
     physicalGameOn := physicalGameOn s; physicalInstruction := physicalInstruction s;
     secretCode := v |}.

(** *** Calls that leave the component *)

(** The multipart body posted to [/api/validate-and-upload-image]. *)
Record ValidatePayload := {
  vImage : list N;
  vFileName : list N;
  vImageName : list N;
  vLatitude : list N;
  vLongitude : list N
}.

Inductive Effect :=
| Alert (msg : list N)
| Confirm (msg : list N)
| PostValidate (payload : ValidatePayload)
| PostUpdateWebConfig (newTreasures : list TreasureData).

(** [a || b] on nullable strings. *)
Definition orString (a b : option (list N)) : option (list N) :=
  match a with
  | Some v => if Js.truthy v then a else b
  | None => b
  end.

Definition isTruthy (a : option (list N)) : bool :=
  match a with Some v => Js.truthy v | None => false end.

(** [x || 0] on a number: [0], [-0] and [NaN] are falsy. *)
Definition orZero (x : float) : float :=
  if (PrimFloat.eqb x 0%float || PrimFloat.is_nan x)%bool then 0%float else x.


(** [requestGPSPermission]: [position] is the one obtained, if any. *)
Definition requestGPSPermission (position : option GPSCoordinates) (st : State) : State :=
  match position with
  | Some loc => setGpsPermission true (setCurrentLocation (Some loc) st)
  | None => setGpsPermission true st
  end.

(** The "Skip GPS & Test Camera" button. *)
Definition skipGps (st : State) : State :=
  setCurrentLocation (Some {| gpsLatitude := 0; gpsLongitude := 0 |})
    (setGpsPermission true st).

(** [startHidingTreasures]; [camera] tells whether one of the capture
    configurations yields a stream with a video track, otherwise it
    carries the message shown. *)
Definition startHidingTreasures (camera : list N + unit) (st : State)
    : State * list Effect :=
  match camera with
  | inr _ => (setCurrentStep Capture (setCameraStream true st), [])
  | inl msg => (st, [Alert msg])
  end.

Record CaptureEnv := {
  refsReady : bool;          (* videoRef.current and canvasRef.current *)
  contextReady : bool;       (* canvas.getContext('2d') *)
  videoWidth : N;
  videoHeight : N;
  frame : list N             (* canvas.toDataURL('image/png') *)
}.

(** [captureImage] *)
Definition captureImage (env : CaptureEnv) (st : State) : State * list Effect :=
  if negb (refsReady env) then
    (st, [Alert (js "Camera or canvas not ready. Please try again.")])
  else if negb (contextReady env) then
    (st, [Alert (js "Canvas error. Please refresh the page and try again.")])
  else if (videoWidth env =? 0) || (videoHeight env =? 0) then
    (st, [Alert (js "Camera not ready. Please wait for the camera to load or try refreshing.")])
  else if negb (Js.truthy (frame env)) || bool_decide (frame env = js "data:,") then
    (st, [Alert (js "Failed to capture image. Please try again.")])
  else
    (setCurrentStep Crop
       (setIsNamingImage true
          (setTempImageData (Some (frame env))
             (setCapturedImageBackup (Some (frame env))
                (setCapturedImage (Some (frame env)) st)))), []).

(** [recaptureImage] *)
Definition recaptureImage (st : State) : State :=
  setCurrentStep Capture
    (setIsNamingImage false
       (setImageName []
          (setTempImageData None
             (setCapturedImageBackup None
                (setCroppedImage None (setCapturedImage None st)))))).

(** [resetForNextTreasure] *)
Definition resetForNextTreasure (st : State) : State :=
  setSecretCode []
    (setPhysicalInstruction []
       (setHasPhysicalGame false
          (setClueText []
             (setCurrentTreasure None
                (setValidationScore None
                   (setIsNamingImage false
                      (setImageName []
                         (setTempImageData None
                            (setCapturedImageBackup None
                               (setCroppedImage None
                                  (setCapturedImage None st))))))))))).

(** [endSession] *)
Definition endSession (st : State) : State :=
  setCurrentStep Complete (if cameraStream st then setCameraStream false st else st).

(** The "Start New Session" button of the completion screen. *)
Definition startNewSession (st : State) : State :=
  resetForNextTreasure (setTreasures [] (setTreasureCount 0 (setCurrentStep Setup st))).

(** [generateSecretCode]; [i] is [Math.floor(Math.random() * codes.length)]. *)
Definition codes : list (list N) :=
  [js "LIFT123"; js "TREAS456"; js "HUNT789"; js "CLUE012";
   js "FIND345"; js "SEEK678"; js "GOLD901"].

Definition generateSecretCode (i : nat) (st : State) : State :=
  setSecretCode (nth i codes [] ++ Js.natToString (treasureCount st)) st.

Section WithPlatform.
Context `{Platform}.

Record ValidateEnv := {
  (* the Blob read back from the data URL; None when that throws *)
  blob : option (list N);
  (* the parsed JSON answer of the route; None when the request or
     the parsing throws *)
  respond : ValidatePayload -> option ValidateEndpoint.ValidationResult
}.

(** [currentLocation?.latitude.toString() || '0'] *)
Definition coordinateField (c : option float) : list N :=
  match c with
  | Some x => if Js.truthy (numberToString x) then numberToString x else js "0"
  | None => js "0"
  end.

(** [currentLocation?.latitude || 0] *)
Definition coordinateOrZero (c : option float) : float :=
  match c with
  | Some x => orZero x
  | None => 0%float
  end.

Definition validatePayload (st : State) (data name : list N) : ValidatePayload :=
  {| vImage := data;
     vFileName := name ++ js ".png";
     vImageName := name;
     vLatitude := coordinateField (gpsLatitude <$> currentLocation st);
     vLongitude := coordinateField (gpsLongitude <$> currentLocation st) |}.

(** The value passed to [setCurrentTreasure]. *)
Definition newTreasure (st : State) (name : list N) : PartialTreasure :=
  {| pImageName := js "clue_" ++ Js.natToString (treasureCount st) ++ js "_"
                   ++ Js.replaceWsRuns (toLowerCase name);
     pFileName := name ++ js ".png";
     pPhysicalSizeInMeters := 0x1.3333333333333p-3%float;   (* 0.15 *)
     pClueIndex := treasureCount st;
     pClueName := name;
     pSpawnOffset := {| vx := 0; vy := 0; vz := 0 |};
     pSpawnRotation := {| vx := 0; vy := 0; vz := 0 |};
     pLatitude := coordinateOrZero (gpsLatitude <$> currentLocation st);
     pLongitude := coordinateOrZero (gpsLongitude <$> currentLocation st) |}.

(** [result.success && result.score && result.score > minValidationScore] *)
Definition accepted (cfg : Config.t) (r : ValidateEndpoint.ValidationResult) : option N :=
  if ValidateEndpoint.success r then
    match ValidateEndpoint.score r with
    | Some s =>
        if negb (s =? 0) && (Config.minValidationScore cfg <? s) then Some s else None
    | None => None
    end
  else None.

Definition validationFailedMessage (r : ValidateEndpoint.ValidationResult) : list N :=
  js "Image validation failed. Score: "
  ++ match ValidateEndpoint.score r with
     | Some s => if s =? 0 then js "Unknown" else Js.natToString s
     | None => js "Unknown"
     end
  ++ js ". Please capture a new image with more visual features.".

(** [validateAndUploadImage(imageData, name)] *)
Definition validateAndUploadImage (cfg : Config.t) (env : ValidateEnv)
    (imageData name : list N) (st : State) : State * list Effect :=
  let st1 := setIsProcessing true st in
  let failed (sent : list Effect) :=
    (setIsProcessing false (setCurrentStep Capture st1),
     sent ++ [Alert (js "Failed to process image. Please try again.")]) in
  match blob env with
  | None => failed []
  | Some b =>
      let payload := validatePayload st b name in
      match respond env payload with
      | None => failed [PostValidate payload]
      | Some result =>
          match accepted cfg result with
          | Some s =>
              (setIsProcessing false
                 (setCurrentStep ClueBuilder
                    (setCurrentTreasure (Some (newTreasure st name))
                       (setValidationScore (Some s) st1))),
               [PostValidate payload])
          | None =>
              (setIsProcessing false (setCurrentStep Capture st1),
               [PostValidate payload; Alert (validationFailedMessage result)])
          end
      end
  end.

(** What the image element and the canvas do with the selected region. *)
Inductive CropOutcome :=
| ImageLoadError
| CropException
| Cropped (data : list N).

Record CropEnv := {
  canvasReady : bool;        (* canvasRef.current *)
  context2d : bool;          (* canvas.getContext('2d') *)
  outcome : CropOutcome
}.

(** [cropImage] together with the [onload] and [onerror] callbacks it
    installs. *)
Definition cropImage (cfg : Config.t) (env : CropEnv) (venv : ValidateEnv)
    (st : State) : State * list Effect :=
  (* validate image name first *)
  if negb (Js.truthy (nameInput st)) || negb (Js.truthy (Js.trim (nameInput st))) then
    (st, [Alert (js "Please enter a name for the treasure marker before cropping.")])
  else
    let imageToUse :=
      orString (capturedImage st) (orString (capturedImageBackup st) (tempImageData st)) in
    if negb (isTruthy imageToUse) || negb (canvasReady env) then
      (st, [Alert (js "Missing image data for cropping. Please capture an image first.")])
    else
      (* restore all image states if any are missing *)
      let st1 := if isTruthy (capturedImage st) then st
                 else setCapturedImage imageToUse st in
      let st2 := if isTruthy (capturedImageBackup st) then st1
                 else setCapturedImageBackup imageToUse st1 in
      let st3 := if isTruthy (tempImageData st) then st2
                 else setTempImageData imageToUse st2 in
      if negb (context2d env) then
        (st3, [Alert (js "Canvas error. Please refresh the page and try again.")])
      else
        match outcome env with
        | ImageLoadError =>
            (st3, [Alert (js "Failed to load image for cropping. Please try again.")])
        | CropException =>
            (st3, [Alert (js "Failed to crop image. Please try again.")])
        | Cropped croppedData =>
            validateAndUploadImage cfg venv croppedData (nameInput st)
              (setCurrentStep Processing (setCroppedImage (Some croppedData) st3))
        end.

(** [saveClueAndContinue]; [continueHiding] is the answer to the
    confirmation dialog. *)
Definition completeTreasure (p : PartialTreasure) (st : State) : TreasureData :=
  {| imageName := pImageName p;
     fileName := pFileName p;
     physicalSizeInMeters := pPhysicalSizeInMeters p;
     clueIndex := pClueIndex p;
     clueName := pClueName p;
     spawnOffset := pSpawnOffset p;
     spawnRotation := pSpawnRotation p;
     clueText := Js.trim (clueInput st);
     latitude := pLatitude p;
     longitude := pLongitude p;
     hasPhysicalGame := physicalGameOn st;
     physicalGameInstruction := if physicalGameOn st then physicalInstruction st else [];
     physicalGameSecretCode := if physicalGameOn st then secretCode st else [] |}.

Definition saveClueAndContinue (continueHiding : bool) (st : State)
    : State * list Effect :=
  match currentTreasure st with
  | Some p =>
      if Js.truthy (Js.trim (clueInput st)) then
        let newTreasures := treasures st ++ [completeTreasure p st] in
        let newCount := treasureCount st + 1 in
        let st1 := setTreasureCount newCount (setTreasures newTreasures st) in
        if maxTreasures st <=? newCount then
          (setCurrentStep Complete st1, [PostUpdateWebConfig newTreasures])
        else if continueHiding then
          (setCurrentStep Capture (resetForNextTreasure st1),
           [PostUpdateWebConfig newTreasures;
            Confirm (js "Treasure saved successfully! Do you want to hide another treasure?")])
        else
          (setCurrentStep Complete st1,
           [PostUpdateWebConfig newTreasures;
            Confirm (js "Treasure saved successfully! Do you want to hide another treasure?")])
      else (st, [Alert (js "Please enter clue text before continuing.")])
  | None => (st, [Alert (js "Please enter clue text before continuing.")])
  end.

(** *** The handlers as a transition system *)

Inductive Action :=
| GpsAnswer (position : option GPSCoordinates)
| SkipGps
| ChangeMaxTreasures (parsed : option N)
| StartHiding (camera : list N + unit)
| CaptureImage (env : CaptureEnv)
| LocationFix (loc : GPSCoordinates)
| TypeImageName (v : list N)
| ShowNaming (v : bool)
| CropImage (env : CropEnv) (venv : ValidateEnv)
| Recapture
| TypeClueText (v : list N)
| TogglePhysicalGame
| TypePhysicalInstruction (v : list N)
| TypeSecretCode (v : list N)
| GenerateSecretCode (i : nat)
| SaveClueAndContinue (continueHiding : bool)
| EndSession
| StartNewSession.

(** [parseInt(e.target.value) || 5] *)
Definition parsedOrFive (parsed : option N) : N :=
  match parsed with
  | Some v => if v =? 0 then 5 else v
  | None => 5
  end.

Definition step (cfg : Config.t) (a : Action) (st : State) : State * list Effect :=
  match a with
  | GpsAnswer position => (requestGPSPermission position st, [])
  | SkipGps => (skipGps st, [])
  | ChangeMaxTreasures parsed => (setMaxTreasures (parsedOrFive parsed) st, [])
  | StartHiding camera => startHidingTreasures camera st
  | CaptureImage env => captureImage env st
  | LocationFix loc => (setCurrentLocation (Some loc) st, [])
  | TypeImageName v => (setImageName v st, [])
  | ShowNaming v => (setIsNamingImage v st, [])
  | CropImage env venv => cropImage cfg env venv st
  | Recapture => (recaptureImage st, [])
  | TypeClueText v => (setClueText v st, [])
  | TogglePhysicalGame => (setHasPhysicalGame (negb (physicalGameOn st)) st, [])
  | TypePhysicalInstruction v => (setPhysicalInstruction v st, [])
  | TypeSecretCode v => (setSecretCode v st, [])
  | GenerateSecretCode i => (generateSecretCode i st, [])
  | SaveClueAndContinue c => saveClueAndContinue c st
  | EndSession => (endSession st, [])
  | StartNewSession => (startNewSession st, [])
  end.

(** A sequence of handler invocations, with the calls issued on the way. *)
Fixpoint run (cfg : Config.t) (acts : list Action) (st : State) : State * list Effect :=
  match acts with
  | [] => (st, [])
  | a :: rest =>
      let '(st1, e1) := step cfg a st in
      let '(st2, e2) := run cfg rest st1 in
      (st2, e1 ++ e2)
  end.

(** The route behind [/api/validate-and-upload-image] as the component
    reaches it: the body of the answer, whatever its status. *)
Definition route (cfg : Config.t) (senv : ValidateEndpoint.Env)
    (p : ValidatePayload) : option ValidateEndpoint.ValidationResult :=
  Some (ValidateEndpoint.body
          (ValidateEndpoint.handler cfg POST
             (Some {| ValidateEndpoint.image := Some (vImage p);
                      ValidateEndpoint.fImageName := Some (vImageName p);
                      ValidateEndpoint.fLatitude := Some (vLatitude p);
                      ValidateEndpoint.fLongitude := Some (vLongitude p) |})
             senv)).

(** The upload requests the route issues for a payload. *)
Definition routeUploads (cfg : Config.t) (senv : ValidateEndpoint.Env)
    (p : ValidatePayload) : list ValidateEndpoint.UploadRequest :=
  ValidateEndpoint.uploads
    (ValidateEndpoint.handler cfg POST
       (Some {| ValidateEndpoint.image := Some (vImage p);
                ValidateEndpoint.fImageName := Some (vImageName p);
                ValidateEndpoint.fLatitude := Some (vLatitude p);
                ValidateEndpoint.fLongitude := Some (vLongitude p) |})
       senv).

End WithPlatform.

End HideTreasures.

(* ===================================================================== *)
(** ** lib/firestore.ts: the team store adapter *)
(* ===================================================================== *)

Module TeamStore.

(** A value read from the realtime database ([snapshot.val()]).  Objects
    and arrays are both keyed collections; a missing key is [undefined]. *)
#[warnings="-register-all"] Inductive jsval :=
| JNull
| JBool (b : bool)
| JNum (x : float)
| JStr (s : list N)
| JObj (m : gmap (list N) jsval).

(** [ToNumber] on strings and on objects, which the repository leaves to
    the language. *)
Class Coercions := {
  stringToNumber : list N -> float;
  objectToNumber : gmap (list N) jsval -> float
}.

(** Truthiness of a property read; [None] is [undefined]. *)
Definition truthy (v : option jsval) : bool :=
  match v with
  | None => false
  | Some JNull => false
  | Some (JBool b) => b
  | Some (JNum x) => negb (PrimFloat.eqb x 0%float || PrimFloat.is_nan x)
  | Some (JStr s) => Js.truthy s
  | Some (JObj _) => true
  end.

(** [v && typeof v === 'object'] *)
Definition asObject (v : option jsval) : option (gmap (list N) jsval) :=
  match v with
  | Some (JObj m) => Some m
  | _ => None
  end.

(** [v || d] *)
Definition orDefault (v : option jsval) (d : jsval) : jsval :=
  match v with
  | Some x => if truthy v then x else d
  | None => d
  end.

Definition potentialSessionFields : list (list N) :=
  [js "currentClueNumber"; js "cluesCompleted"; js "gameStarted"; js "started"; js "status"].

(** The loop over [potentialSessionFields]: [foundFields] and
    [hasSessionData]. *)
Definition collectSessionFields (rawTeamData : gmap (list N) jsval)
    : gmap (list N) jsval * bool :=
  foldl (fun '(foundFields, hasSessionData) field =>
           match rawTeamData !! field with
           | Some v => (<[field := v]> foundFields, true)
           | None => (foundFields, hasSessionData)
           end)
        (∅, false) potentialSessionFields.

(** Default session data for teams that have not started. *)
Definition defaultSession : gmap (list N) jsval :=
  <[js "status" := JStr (js "not_started")]>
    (<[js "started" := JBool false]>
       (<[js "currentClueNumber" := JNum 0]>
          (<[js "cluesCompleted" := JNum 0]> ∅))).

(** The session attached to a team: the nested [session] object, else the
    nested [Session] object, else the session fields found on the team
    itself, else the default. *)
Definition sessionOf (rawTeamData : gmap (list N) jsval) : gmap (list N) jsval :=
  match asObject (rawTeamData !! js "session") with
  | Some s => s
  | None =>
      match asObject (rawTeamData !! js "Session") with
      | Some s => s
      | None =>
          let '(foundFields, hasSessionData) := collectSessionFields rawTeamData in
          if hasSessionData then foundFields else defaultSession
      end
  end.

(** The body of the loop for one valid team node. *)
Definition processTeam (uid : list N) (rawTeamData : gmap (list N) jsval)
    : gmap (list N) jsval :=
  let teamData := <[js "uid" := JStr uid]> rawTeamData in
  let teamData :=
    <[js "physicalScore" := orDefault (teamData !! js "physicalScore") (JNum 0)]> teamData in
  let teamData :=
    <[js "physicalScoreComment" :=
        orDefault (teamData !! js "physicalScoreComment") (JStr [])]> teamData in
  <[js "session" := JObj (sessionOf rawTeamData)]> teamData.

(** [allData[uid] && typeof allData[uid] === 'object' && allData[uid].teamName] *)
Definition teamNode (node : jsval) : option (gmap (list N) jsval) :=
  match node with
  | JObj m => if truthy (m !! js "teamName") then Some m else None
  | _ => None
  end.

(** [teamsArray] before sorting. *)
Definition collectTeams (allData : gmap (list N) jsval) : list (gmap (list N) jsval) :=
  omap (fun '(uid, node) => processTeam uid <$> teamNode node) (map_to_list allData).

Section WithCoercions.
Context `{Coercions}.

(** [ToNumber] of a property read. *)
Definition toNumber (v : option jsval) : float :=
  match v with
  | None => PrimFloat.nan
  | Some JNull => 0%float
  | Some (JBool b) => if b then 1%float else 0%float
  | Some (JNum x) => x
  | Some (JStr s) => stringToNumber s
  | Some (JObj m) => objectToNumber m
  end.

(** [(a, b) => a.teamNumber - b.teamNumber] *)
Definition compareTeams (a b : gmap (list N) jsval) : float :=
  PrimFloat.sub (toNumber (a !! js "teamNumber")) (toNumber (b !! js "teamNumber")).

(** [a] may stay before [b]: the comparator does not return a positive
    number ([NaN] counts as zero). *)
Definition inOrder (a b : gmap (list N) jsval) : Prop :=
  PrimFloat.ltb 0%float (compareTeams a b) = false.

#[local] Instance inOrder_dec a b : Decision (inOrder a b).
Proof. unfold inOrder. apply _. Defined.

(** [teamsArray.sort(...)], a stable sort. *)
Definition sortTeams (ts : list (gmap (list N) jsval)) : list (gmap (list N) jsval) :=
  merge_sort inOrder ts.

(** What both entry points do with the value of a snapshot that exists.
    A root that is not a keyed collection has no team node. *)
Definition teamsOfRoot (root : jsval) : list (gmap (list N) jsval) :=
  match root with
  | JObj allData => sortTeams (collectTeams allData)
  | _ => []
  end.

(** [getAllTeams]; [authenticated] is false when [ensureAuth] throws,
    [snapshot] is [Threw] when [get] throws, [NotOk] when the snapshot
    does not exist. *)
Definition getAllTeams (authenticated : bool) (snapshot : Fetched jsval)
    : list (gmap (list N) jsval) :=
  if authenticated then
    match snapshot with
    | Ok root => teamsOfRoot root
    | NotOk => []
    | Threw => []
    end
  else [].

(** The value [subscribeToTeams] hands to its callback for one event of
    the listener: [Threw] is the error callback, [NotOk] a snapshot that
    does not exist. *)
Definition subscribeToTeams (event : Fetched jsval) : list (gmap (list N) jsval) :=
  match event with
  | Ok root => teamsOfRoot root
  | NotOk => []
  | Threw => []
  end.

End WithCoercions.

End TeamStore.

(* ===================================================================== *)
(** ** pages/hide-treasures.tsx: which control is offered in which state *)
(* ===================================================================== *)

Module WorkflowUi.
Import HideTreasures.

(** [!s.trim()] negated: the test behind the [disabled] attributes. *)
Definition nonBlank (s : list N) : bool := Js.truthy (Js.trim s).

(** The handler behind an action can be triggered in a state: its control
    is rendered for the current step and is not disabled.  The answers of
    the geolocation service arrive at any time. *)
Definition enabled (a : Action) (st : State) : bool :=
  match a, currentStep st with
  | GpsAnswer _, _ => true
  | LocationFix _, _ => true
  | SkipGps, Setup => negb (gpsPermission st)
  | ChangeMaxTreasures _, Setup => true
  | StartHiding _, Setup => gpsPermission st
  | StartHiding _, Capture => negb (cameraStream st)
  | CaptureImage _, Capture => cameraStream st
  | EndSession, Capture => true
  | TypeImageName _, Crop => isNamingImage st
  | ShowNaming false, Crop => isNamingImage st && nonBlank (nameInput st)
  | ShowNaming true, Crop => negb (isNamingImage st)
  | CropImage _ _, Crop => negb (isNamingImage st) && nonBlank (nameInput st)
  | Recapture, Crop => true
  | TypeClueText _, ClueBuilder => true
  | TogglePhysicalGame, ClueBuilder => true
  | TypePhysicalInstruction _, ClueBuilder => physicalGameOn st
  | TypeSecretCode _, ClueBuilder => physicalGameOn st
  | GenerateSecretCode _, ClueBuilder => physicalGameOn st
  | SaveClueAndContinue _, ClueBuilder => nonBlank (clueInput st)
  | EndSession, ClueBuilder => true
  | StartNewSession, Complete => true
  | _, _ => false
  end.

Section WithPlatform.
Context `{Platform}.

(** One event of the page: the handler runs when its control is offered,
    otherwise nothing happens. *)
Definition uiStep (cfg : Config.t) (a : Action) (st : State) : State * list Effect :=
  if enabled a st then step cfg a st else (st, []).

Fixpoint uiRun (cfg : Config.t) (acts : list Action) (st : State) : State * list Effect :=
  match acts with
  | [] => (st, [])
  | a :: rest =>
      let '(st1, e1) := uiStep cfg a st in
      let '(st2, e2) := uiRun cfg rest st1 in
      (st2, e1 ++ e2)
  end.

End WithPlatform.

End WorkflowUi.

(* ===================================================================== *)
(** ** pages/treasure-dashboard.tsx *)
(* ===================================================================== *)

Module TreasureDashboard.

Record State := {
  treasures : list TreasureData;
  loading : bool;
  error : option (list N);
  lastUpdated : list N;
  selectedTreasure : option TreasureData;
  showDeleteConfirm : option (list N)
}.

(** The answer to [GET {base}/config] as [fetchTreasures] reads it. *)
Inductive ConfigResponse :=
| FetchThrew
| FetchStatus (status : N) (statusText : list N)
| FetchOk (images : option (list TreasureData)) (stamp : option (list N)).

Inductive Effect :=
| Alert (msg : list N)
| PostDelete (imageName fileName : list N)
| ScheduleRefresh.

Definition finish (st : State) (ts : list TreasureData) (err : option (list N))
    (stamp : list N) : State :=
  {| treasures := ts; loading := false; error := err; lastUpdated := stamp;
     selectedTreasure := selectedTreasure st; showDeleteConfirm := showDeleteConfirm st |}.

(** [fetchTreasures] *)
Definition fetchTreasures (cfg : Config.t) (r : ConfigResponse) (st : State) : State :=
  if negb (Js.truthy (Config.baseUrl (Config.server cfg))) then
    finish st (treasures st)
      (Some (js "Server not configured. Please check your config settings."))
      (lastUpdated st)
  else
    match r with
    | FetchOk imgs stamp =>
        finish st
          (match imgs with Some l => l | None => [] end)
          None
          (match stamp with
           | Some s => if Js.truthy s then s else js "Unknown"
           | None => js "Unknown"
           end)
    | FetchStatus status statusText =>
        finish st (treasures st)
          (Some (js "Server error: " ++ Js.natToString status ++ js " " ++ statusText))
          (lastUpdated st)
    | FetchThrew =>
        finish st (treasures st)
          (Some (js "Cannot connect to treasure server. Make sure it's running on "
                 ++ Config.baseUrl (Config.server cfg)))
          (lastUpdated st)
    end.

Definition flag (b : option bool) (yes no : list N) : list N :=
  match b with Some true => yes | _ => no end.

Definition deletedMessage (t : TreasureData) (r : DeleteTreasure.DeleteTreasureResponse)
    : list N :=
  js "Treasure " ++ [34] ++ clueName t ++ [34] ++ js " deleted successfully!" ++ [10]
  ++ js "Image: " ++ flag (DeleteTreasure.imageDeleted r) (js "Deleted") (js "Failed") ++ [10]
  ++ js "Config: " ++ flag (DeleteTreasure.configUpdated r) (js "Updated") (js "Failed").

(** [deleteTreasure(treasureToDelete)]; [answer] is the parsed JSON body of
    the route's answer, [None] when the request or the parsing throws. *)
Definition deleteTreasure (answer : option DeleteTreasure.DeleteTreasureResponse)
    (treasureToDelete : TreasureData) (st : State) : State * list Effect :=
  let request := PostDelete (imageName treasureToDelete) (fileName treasureToDelete) in
  match answer with
  | Some result =>
      if DeleteTreasure.success result then
        ({| treasures := filter (fun t => imageName t <> imageName treasureToDelete)
                           (treasures st);
            loading := loading st; error := error st; lastUpdated := lastUpdated st;
            selectedTreasure := None; showDeleteConfirm := None |},
         [request; Alert (deletedMessage treasureToDelete result); ScheduleRefresh])
      else (st, [request; Alert (js "Failed to delete treasure. Please try again.")])
  | None => (st, [request; Alert (js "Failed to delete treasure. Please try again.")])
  end.

(** [getImageUrl(fileName)] *)
Definition getImageUrl (cfg : Config.t) (file : list N) : list N :=
  if Js.truthy (Config.baseUrl (Config.server cfg))
  then Config.baseUrl (Config.server cfg) ++ js "/images/" ++ file
  else js "/images/" ++ file.

(** The route behind [/api/delete-treasure] as the page reaches it. *)
Definition route (cfg : Config.t) (env : DeleteTreasure.Env) (t : TreasureData)
    : DeleteTreasure.Run :=
  DeleteTreasure.handler cfg POST (Some (imageName t)) (Some (fileName t)) env.

End TreasureDashboard.

(* ===================================================================== *)
(** ** lib/firestore.ts: writing the physical score *)
(* ===================================================================== *)

Module TeamStoreWrites.
Import TeamStore.

(** [snapshot.exists()] for the child [key] of an object: the database
    holds no null. *)
Definition child (node : gmap (list N) jsval) (key : list N) : option jsval :=
  match node !! key with
  | Some JNull => None
  | v => v
  end.

(** The children of the team node [uid], none when it is a leaf or absent. *)
Definition teamChildren (db : gmap (list N) jsval) (uid : list N) : gmap (list N) jsval :=
  match child db uid with
  | Some (JObj m) => m
  | _ => ∅
  end.

Inductive UpdateError :=
| AuthenticationRequired
| ReadFailed
| TeamNotFound
| WriteRejected.

(** [updateData] *)
Definition updateData (physicalScore : float) (comment : option (list N))
    : list (list N * jsval) :=
  (js "physicalScore", JNum physicalScore)
  :: match comment with
     | Some c => [(js "physicalScoreComment", JStr c)]
     | None => []
     end.

(** [update(teamRef, updateData)]: the listed children are written, the
    others are kept. *)
Definition applyUpdate (db : gmap (list N) jsval) (uid : list N)
    (data : list (list N * jsval)) : gmap (list N) jsval :=
  <[uid := JObj (foldl (fun m '(k, v) => <[k := v]> m) (teamChildren db uid) data)]> db.

(** [updatePhysicalScore(uid, physicalScore, comment)] for a [uid] that is a
    key of the root: the database after the call and the error thrown, if
    any.  [authenticated] is false when [ensureAuth] throws, [readable] when
    the read of the team throws, [accepted] when the write is rejected. *)
Definition updatePhysicalScore (authenticated readable accepted : bool)
    (db : gmap (list N) jsval) (uid : list N) (physicalScore : float)
    (comment : option (list N)) : gmap (list N) jsval * option UpdateError :=
  if negb authenticated then (db, Some AuthenticationRequired)
  else if negb readable then (db, Some ReadFailed)
  else
    match child db uid with
    | None => (db, Some TeamNotFound)
    | Some _ =>
        if accepted then (applyUpdate db uid (updateData physicalScore comment), None)
        else (db, Some WriteRejected)
    end.

End TeamStoreWrites.

(* ===================================================================== *)
(** ** pages/index.tsx: the volunteer dashboard *)
(* ===================================================================== *)

Module VolunteerDashboard.

(** [parseInt(s, 10)]; [None] is [NaN].  Leading white space is skipped, one
    sign is read, then the longest run of decimal digits. *)
Definition parseInt10 (s : list N) : option Z :=
  let '(negative, digits) :=
    match Js.trimStart s with
    | 45 :: r => (true, r)
    | 43 :: r => (false, r)
    | r => (false, r)
    end in
  match fst (Js.span Js.isDigit digits) with
  | [] => None
  | d => Some (if negative : bool then Z.opp (Z.of_N (Js.parseInt d))
               else Z.of_N (Js.parseInt d))
  end.

(** One row of the physical scoring table, with the fields [addScoreRow]
    gives it. *)
Record PhysicalScoreEntry := {
  id : list N;
  score : float;
  volunteer : list N;
  benchmark : list N;
  isAdded : bool;
  timestamp : N
}.

Record State := {
  editingPhysicalScore : gmap (list N) (list N);
  editingComment : gmap (list N) (list N);
  savingScore : gmap (list N) bool;
  isResetting : bool;
  isStartingHunt : bool;
  huntStatus : bool;
  physicalScoreTable : gmap (list N) (list PhysicalScoreEntry);
  showScoreTable : gmap (list N) bool
}.

(** The alerts whose text starts with a pictograph, by call site. *)
Inductive Notice :=
| IncorrectPassword
| ResetDone
| ResetFailed
| HuntStarted
| HuntEnded
| HuntFailed.

Inductive Effect :=
| Alert (msg : list N)
| Notify (n : Notice)
| Prompt
| ConfirmDialog
| UpdatePhysicalScore (uid : list N) (numericScore : Z) (comment : list N)
| SavePhysicalScoreEntries (teamUid : list N) (entries : list PhysicalScoreEntry)
| ScheduleSave (teamUid rowId : list N) (entries : list PhysicalScoreEntry)
| ResetAllTeams
| PublishVolunteerStart
| PublishVolunteerEnd.

Definition setEditing (score comment : gmap (list N) (list N)) (st : State) : State :=
  {| editingPhysicalScore := score; editingComment := comment;
     savingScore := savingScore st; isResetting := isResetting st;
     isStartingHunt := isStartingHunt st; huntStatus := huntStatus st;
     physicalScoreTable := physicalScoreTable st; showScoreTable := showScoreTable st |}.

Definition setSavingScore (v : gmap (list N) bool) (st : State) : State :=
  {| editingPhysicalScore := editingPhysicalScore st; editingComment := editingComment st;
     savingScore := v; isResetting := isResetting st;
     isStartingHunt := isStartingHunt st; huntStatus := huntStatus st;
     physicalScoreTable := physicalScoreTable st; showScoreTable := showScoreTable st |}.

Definition setPhysicalScoreTable (v : gmap (list N) (list PhysicalScoreEntry))
    (st : State) : State :=
  {| editingPhysicalScore := editingPhysicalScore st; editingComment := editingComment st;
     savingScore := savingScore st; isResetting := isResetting st;
     isStartingHunt := isStartingHunt st; huntStatus := huntStatus st;
     physicalScoreTable := v; showScoreTable := showScoreTable st |}.

(** [cancelEdit] *)
Definition cancelEdit (uid : list N) (st : State) : State :=
  setEditing (delete uid (editingPhysicalScore st)) (delete uid (editingComment st)) st.

(** [savePhysicalScore(uid, teamName)]; [updated] tells whether
    [updatePhysicalScore] resolves. *)
Definition savePhysicalScore (updated : bool) (uid teamName : list N) (st : State)
    : State * list Effect :=
  match editingPhysicalScore st !! uid with
  | None => (st, [])
  | Some scoreValue =>
      let invalid := (st, [Alert (js "Please enter a valid non-negative number")]) in
      match parseInt10 scoreValue with
      | None => invalid
      | Some numericScore =>
          if (numericScore <? 0)%Z then invalid
          else
            let comment :=
              match editingComment st !! uid with
              | Some c => c
              | None => []
              end in
            let call := UpdatePhysicalScore uid numericScore comment in
            if updated then
              (setSavingScore (<[uid := false]> (<[uid := true]> (savingScore st)))
                 (cancelEdit uid st),
               [call; Alert (js "Physical score updated for " ++ teamName ++ js "!")])
            else
              (setSavingScore (<[uid := false]> (<[uid := true]> (savingScore st))) st,
               [call; Alert (js "Failed to save physical score. Please try again.")])
      end
  end.

(** [physicalScoreTable[teamUid] || []] *)
Definition rowsOf (teamUid : list N) (st : State) : list PhysicalScoreEntry :=
  default [] (physicalScoreTable st !! teamUid).

Definition saveEntries (saved : bool) (teamUid : list N)
    (entries : list PhysicalScoreEntry) : list Effect :=
  SavePhysicalScoreEntries teamUid entries
  :: (if saved then [] else [Alert (js "Failed to save score entries. Please try again.")]).




(** [rows.find(r => r.id === rowId)] *)
Definition findRow (rowId : list N) (rows : list PhysicalScoreEntry)
    : option PhysicalScoreEntry :=
  head (filter (fun r => id r = rowId) rows).


Definition markAdded (now : N) (row : PhysicalScoreEntry) : PhysicalScoreEntry :=
  {| id := id row; score := score row; volunteer := volunteer row;
     benchmark := benchmark row; isAdded := true; timestamp := now |}.

(** [addScoreEntry(teamUid, rowId)] *)
Definition addScoreEntry (now : N) (saved : bool) (teamUid rowId : list N) (st : State)
    : State * list Effect :=
  match findRow rowId (rowsOf teamUid st) with
  | None => (st, [])
  | Some row =>
      if negb (Js.truthy (Js.trim (volunteer row))) then
        (st, [Alert (js "Please enter a volunteer name before adding the score.")])
      else if negb (Js.truthy (Js.trim (benchmark row))) then
        (st, [Alert (js "Please enter a benchmark before adding the score.")])
      else
        let updatedEntries :=
          map (fun r => if decide (id r = rowId) then markAdded now r else r)
              (rowsOf teamUid st) in
        (setPhysicalScoreTable (<[teamUid := updatedEntries]> (physicalScoreTable st)) st,
         saveEntries saved teamUid updatedEntries)
  end.

Definition adminPassword : list N := js "ananthJEE2@".

(** [handleResetAll]; [password] is the answer to the prompt ([None] when it
    is dismissed), [finalConfirm] the answer to the confirmation, [done]
    tells whether [resetAllTeams] resolves.  [isResetting] is false again
    when the handler returns. *)
Definition handleResetAll (password : option (list N)) (finalConfirm done : bool)
    : list Effect :=
  match password with
  | None => [Prompt]
  | Some p =>
      if bool_decide (p = adminPassword) then
        if finalConfirm then
          [Prompt; ConfirmDialog; ResetAllTeams; Notify (if done then ResetDone else ResetFailed)]
        else [Prompt; ConfirmDialog]
      else [Prompt; Notify IncorrectPassword]
  end.

(** [handleToggleHunt] *)
Definition handleToggleHunt (password : option (list N)) (done : bool) (st : State)
    : list Effect :=
  match password with
  | None => [Prompt]
  | Some p =>
      if bool_decide (p = adminPassword) then
        if huntStatus st then
          [Prompt; PublishVolunteerEnd; Notify (if done then HuntEnded else HuntFailed)]
        else
          [Prompt; PublishVolunteerStart; Notify (if done then HuntStarted else HuntFailed)]
      else [Prompt; Notify IncorrectPassword]
  end.

End VolunteerDashboard.

(* ===================================================================== *)
(** ** pages/hide-treasures.tsx: the crop region *)
(* ===================================================================== *)

Module CropRegion.

Local Open Scope float_scope.

(** [cropArea] *)
Record Area := { x : float; y : float; width : float; height : float }.

(** [imageDimensions] *)
Record Dimensions := { imageWidth : float; imageHeight : float }.

(** [Math.max(a, b)]: NaN if an argument is NaN; of two zeros the positive. *)
Definition jsMax (a b : float) : float :=
  if is_nan a || is_nan b then nan
  else if a <? b then b
  else if b <? a then a
  else if get_sign a then b else a.

(** [Math.min(a, b)]: NaN if an argument is NaN; of two zeros the negative. *)
Definition jsMin (a b : float) : float :=
  if is_nan a || is_nan b then nan
  else if a <? b then a
  else if b <? a then b
  else if get_sign a then a else b.

(** The update of [handleMouseMove] and [handleTouchMove] on the overlay:
    the region follows the pointer.  [rectWidth], [rectHeight] are the size
    of the displayed image; [startX], [startY], [startCropX], [startCropY]
    were recorded when the drag began. *)
Definition moveCrop (dims : Dimensions) (rectWidth rectHeight : float)
    (startX startY startCropX startCropY clientX clientY : float) (prev : Area) : Area :=
  let deltaX := clientX - startX in
  let deltaY := clientY - startY in
  let scaleX := imageWidth dims / rectWidth in
  let scaleY := imageHeight dims / rectHeight in
  {| x := jsMax 0 (jsMin (imageWidth dims - width prev) (startCropX + deltaX * scaleX));
     y := jsMax 0 (jsMin (imageHeight dims - height prev) (startCropY + deltaY * scaleY));
     width := width prev;
     height := height prev |}.

(** The update of the handlers on the corner handle: the region is resized. *)
Definition resizeCrop (dims : Dimensions) (rectWidth rectHeight : float)
    (startX startY startWidth startHeight clientX clientY : float) (prev : Area) : Area :=
  let deltaX := clientX - startX in
  let deltaY := clientY - startY in
  let scaleX := imageWidth dims / rectWidth in
  let scaleY := imageHeight dims / rectHeight in
  {| x := x prev;
     y := y prev;
     width := jsMax 50 (jsMin (imageWidth dims - x prev) (startWidth + deltaX * scaleX));
     height := jsMax 50 (jsMin (imageHeight dims - y prev) (startHeight + deltaY * scaleY)) |}.

End CropRegion.

(* ===================================================================== *)
(** ** Instances and sample inputs used to run the model *)
(* ===================================================================== *)

(** ASCII lower-casing, enough for labels written in ASCII. *)
Definition asciiLower (s : list N) : list N :=
  map (fun c => if Js.isUpper c then c + 32 else c) s.

(** A platform for running the handlers on ASCII labels when no coordinate
    is printed. *)
Definition asciiPlatform : Platform :=
  {| toLowerCase := asciiLower; numberToString := fun _ => js "NaN" |}.

(** Coercions for a store whose team numbers are numbers. *)
Definition numericCoercions : TeamStore.Coercions :=
  {| TeamStore.stringToNumber := fun _ => PrimFloat.nan;
     TeamStore.objectToNumber := fun _ => PrimFloat.nan |}.

(** The local configuration file as the publisher route leaves it after the
    requests of a trace: each [PostUpdateWebConfig] runs the route, which
    replaces the file when its local write succeeds. *)
Definition deliver (env : UpdateWebConfig.Env) (file : option WebConfig)
    (e : HideTreasures.Effect) : option WebConfig :=
  match e with
  | HideTreasures.PostUpdateWebConfig ts =>
      match UpdateWebConfig.localFile (UpdateWebConfig.handler POST (Some ts) env) with
      | Some c => Some c
      | None => file
      end
  | _ => file
  end.

Definition publishAll (env : UpdateWebConfig.Env) (effs : list HideTreasures.Effect)
    (file : option WebConfig) : option WebConfig :=
  foldl (deliver env) file effs.

(** The invariant of section 3 on the optional physical challenge. *)
Definition physicalFieldsOk (t : TreasureData) : Prop :=
  hasPhysicalGame t = false ->
  physicalGameInstruction t = [] /\ physicalGameSecretCode t = [].





(** A text without any decimal digit. *)
Definition noDigit (s : list N) : Prop := Forall (fun c => Js.isDigit c = false) s.

(** A label made of white space only (possibly empty). *)
Definition blank (s : list N) : Prop := Forall (fun c => Js.isWhiteSpace c = true) s.

(** Sample treasure used in examples. *)
Definition sampleTreasure (name : list N) : TreasureData :=
  {| imageName := name; fileName := name ++ js ".png";
     physicalSizeInMeters := 0x1.3333333333333p-3%float; clueIndex := 0;
     clueName := name;
     spawnOffset := {| vx := 0; vy := 0; vz := 0 |};
     spawnRotation := {| vx := 0; vy := 0; vz := 0 |};
     clueText := js "Find the light"; latitude := 0; longitude := 0;
     hasPhysicalGame := false; physicalGameInstruction := [];
     physicalGameSecretCode := [] |}.

(** A validator run that prints [out], in front of an asset server that
    answers in plain text. *)
Definition validatorPrints (out : list N) : ValidateEndpoint.Env :=
  {| ValidateEndpoint.exec := ValidateEndpoint.ExecDone out [];
     ValidateEndpoint.imageReadable := true;
     ValidateEndpoint.upload := ValidateEndpoint.UploadOkText |}.

Definition sampleImage : list N := js "data:image/png;base64,iVBORw0KGgo=".

(** A publisher whose three writes succeed. *)
Definition healthyPublisher : UpdateWebConfig.Env :=
  {| UpdateWebConfig.now := js "2025-01-25T10:00:00.000Z";
     UpdateWebConfig.cwd := js "/srv/app";
     UpdateWebConfig.localWrite := true;
     UpdateWebConfig.serverPush := Ok true;
     UpdateWebConfig.publicWrite := true |}.

(** A remote store holding two treasures, all of whose calls succeed. *)
Definition twoTreasures : list TreasureData :=
  [sampleTreasure (js "clue_0_lighthouse"); sampleTreasure (js "clue_1_pier")].

Definition healthyRemote : DeleteTreasure.Env :=
  {| DeleteTreasure.now := js "2025-01-25T10:00:00.000Z";
     DeleteTreasure.configFetch := Ok (Some twoTreasures);
     DeleteTreasure.deleteImage := Ok true;
     DeleteTreasure.configPush := Ok tt |}.

(** A state in the crop step whose label is three spaces. *)
Definition blankNameState : HideTreasures.State :=
  HideTreasures.setImageName (js "   ")
    (HideTreasures.setCapturedImage (Some sampleImage)
       (HideTreasures.setCurrentStep HideTreasures.Crop
          (HideTreasures.initialState Config.config))).

(** A store with one team that has not started. *)
Definition oneTeam : gmap (list N) TeamStore.jsval :=
  {[ js "uid1" :=
       TeamStore.JObj (<[js "teamName" := TeamStore.JStr (js "Owls")]>
                         {[ js "teamNumber" := TeamStore.JNum 1 ]}) ]}.

(** A crop that succeeds and a validator that prints a score of 82. *)
Definition goodCrop : HideTreasures.CropEnv :=
  {| HideTreasures.canvasReady := true; HideTreasures.context2d := true;
     HideTreasures.outcome := HideTreasures.Cropped sampleImage |}.

Definition goodValidator : HideTreasures.ValidateEnv :=
  {| HideTreasures.blob := Some sampleImage;
     HideTreasures.respond :=
       @HideTreasures.route Config.config (validatorPrints (js "Image quality score: 82")) |}.

(** The events of a session up to the clue builder of its first treasure. *)
Definition sessionUntilClue : list HideTreasures.Action :=
  [HideTreasures.SkipGps;
   HideTreasures.StartHiding (inr tt);
   HideTreasures.CaptureImage
     {| HideTreasures.refsReady := true; HideTreasures.contextReady := true;
        HideTreasures.videoWidth := 640; HideTreasures.videoHeight := 480;
        HideTreasures.frame := sampleImage |};
   HideTreasures.TypeImageName (js "Lighthouse");
   HideTreasures.ShowNaming false;
   HideTreasures.CropImage goodCrop goodValidator;
   HideTreasures.TypeClueText (js "Find the light")].


(** The state in which the clue of the first treasure is about to be saved. *)
Definition clueReadyState : HideTreasures.State :=
  fst (@WorkflowUi.uiRun asciiPlatform Config.config sessionUntilClue
         (HideTreasures.initialState Config.config)).

(** A state in the crop step with a label and a captured image. *)
Definition namedState : HideTreasures.State :=
  HideTreasures.setImageName (js "Lighthouse")
    (HideTreasures.setCapturedImage (Some sampleImage)
       (HideTreasures.setCurrentStep HideTreasures.Crop
          (HideTreasures.initialState Config.config))).

(** A remote store whose configuration cannot be fetched. *)
Definition unreachableConfig : DeleteTreasure.Env :=
  {| DeleteTreasure.now := js "2025-01-25T10:00:00.000Z";
     DeleteTreasure.configFetch := Threw;
     DeleteTreasure.deleteImage := Ok true;
     DeleteTreasure.configPush := Ok tt |}.

(** The dashboard showing the two treasures of the remote store. *)
Definition dashboardOfTwo : TreasureDashboard.State :=
  {| TreasureDashboard.treasures := twoTreasures;
     TreasureDashboard.loading := false;
     TreasureDashboard.error := None;
     TreasureDashboard.lastUpdated := js "2025-01-25T10:00:00.000Z";
     TreasureDashboard.selectedTreasure := None;
     TreasureDashboard.showDeleteConfirm := Some (js "clue_0_lighthouse") |}.

(** The form a client posts for the sample image. *)
Definition sampleForm : ValidateEndpoint.FormFields :=
  {| ValidateEndpoint.image := Some sampleImage;
     ValidateEndpoint.fImageName := Some (js "Lighthouse");
     ValidateEndpoint.fLatitude := None;
     ValidateEndpoint.fLongitude := None |}.

(* ===================================================================== *)
(** ** Properties of the string primitives *)
(* ===================================================================== *)

Lemma trimStart_blank (s : list N) : blank s -> Js.trimStart s = [].
Proof.
  induction 1 as [|c r Hc _ IH]; simpl; [reflexivity|].
  rewrite Hc. exact IH.
Qed.

Lemma trim_blank (s : list N) : blank s -> Js.trim s = [].
Proof.
  intros Hs. unfold Js.trim. rewrite (trimStart_blank s Hs). reflexivity.
Qed.

Lemma trimStart_nil_blank (s : list N) : Js.trimStart s = [] -> blank s.
Proof.
  induction s as [|c r IH]; simpl; intros Hs; [constructor|].
  destruct (Js.isWhiteSpace c) eqn:Hc; [|discriminate].
  constructor; [exact Hc | exact (IH Hs)].
Qed.

Lemma trimStart_suffix (s : list N) :
  exists p, s = p ++ Js.trimStart s /\ blank p.
Proof.
  induction s as [|c r [p [Hp Hb]]]; simpl.
  - exists []. split; [reflexivity | constructor].
  - destruct (Js.isWhiteSpace c) eqn:Hc.
    + exists (c :: p). split; [simpl; congruence | constructor; assumption].
    + exists []. split; [reflexivity | constructor].
Qed.

Lemma trimStart_head (s : list N) c r :
  Js.trimStart s = c :: r -> Js.isWhiteSpace c = false.
Proof.
  induction s as [|d t IH]; simpl; [discriminate|].
  destruct (Js.isWhiteSpace d) eqn:Hd; [exact IH|].
  intros [= -> _]. exact Hd.
Qed.

(** [trim] leaves nothing exactly on blank strings. *)
Lemma trim_nil_iff (s : list N) : Js.trim s = [] <-> blank s.
Proof.
  split; [|apply trim_blank].
  unfold Js.trim, Js.trimEnd. intros Hs.
  destruct (trimStart_suffix s) as [p [Hp Hb]].
  destruct (Js.trimStart s) as [|c r] eqn:Hts.
  - apply trimStart_nil_blank. exact Hts.
  - exfalso.
    apply (f_equal (@rev N)) in Hs. rewrite rev_involutive in Hs.
    change (rev []) with (@nil N) in Hs.
    destruct (trimStart_suffix (rev (c :: r))) as [q [Hq Hbq]].
    rewrite Hs, app_nil_r in Hq.
    apply (f_equal (@rev N)) in Hq. rewrite rev_involutive in Hq.
    assert (Hin : In c (rev q)) by (rewrite <- Hq; left; reflexivity).
    apply in_rev in Hin.
    unfold blank in Hbq. rewrite List.Forall_forall in Hbq.
    specialize (Hbq c Hin).
    rewrite (trimStart_head s c r Hts) in Hbq. discriminate.
Qed.

Lemma replaceNonAlnum_fixed (s : list N) :
  Js.replaceNonAlnum s = s <->
  Forall (fun c => Js.isAlnum c = true \/ c = Js.underscore) s.
Proof.
  unfold Js.replaceNonAlnum. induction s as [|c r IH]; simpl.
  - split; [constructor | reflexivity].
  - split.
    + intros [= Hc Hr]. constructor; [|apply IH; exact Hr].
      destruct (Js.isAlnum c); [left; reflexivity | right; symmetry; exact Hc].
    + intros Hall. inversion Hall as [|? ? Hc Hr]; subst.
      f_equal; [|apply IH; exact Hr].
      destruct Hc as [-> | ->]; reflexivity.
Qed.

(* ===================================================================== *)
(** ** The authoring workflow *)
(* ===================================================================== *)

Section Workflow.
Import HideTreasures.
Context `{Platform}.

(** The client-side gate, spelled out. *)
Lemma accepted_spec (cfg : Config.t) (r : ValidateEndpoint.ValidationResult) (s : N) :
  accepted cfg r = Some s <->
  ValidateEndpoint.success r = true /\ ValidateEndpoint.score r = Some s
  /\ s <> 0 /\ Config.minValidationScore cfg < s.
Proof.
  unfold accepted.
  destruct (ValidateEndpoint.success r); [|split; [discriminate | intros [? _]; discriminate]].
  destruct (ValidateEndpoint.score r) as [x|];
    [|split; [discriminate | intros (_ & ? & _); discriminate]].
  destruct (N.eqb_spec x 0) as [->|Hx]; simpl.
  - split; [discriminate | intros (_ & [= <-] & Hs & _); congruence].
  - destruct (N.ltb_spec (Config.minValidationScore cfg) x) as [Hlt|Hge].
    + split; [intros [= <-]; auto | intros (_ & [= <-] & _); reflexivity].
    + split; [discriminate | intros (_ & [= <-] & _ & Hlt); lia].
Qed.

(** Every handler other than saving leaves the list of treasures alone. *)
Lemma validateAndUploadImage_treasures cfg venv data name st :
  treasures (fst (validateAndUploadImage cfg venv data name st)) = treasures st
  /\ treasureCount (fst (validateAndUploadImage cfg venv data name st)) = treasureCount st.
Proof.
  unfold validateAndUploadImage.
  destruct (blob venv) as [b|]; [|split; reflexivity].
  destruct (respond venv _) as [r|]; [|split; reflexivity].
  destruct (accepted cfg r); split; reflexivity.
Qed.

Lemma cropImage_treasures cfg env venv st :
  treasures (fst (cropImage cfg env venv st)) = treasures st.
Proof.
  unfold cropImage.
  repeat match goal with
         | |- context [if ?b then _ else _] => destruct b
         | |- context [match outcome ?e with _ => _ end] => destruct (outcome e)
         end;
    try reflexivity;
    rewrite (proj1 (validateAndUploadImage_treasures _ _ _ _ _)); reflexivity.
Qed.

Lemma completeTreasure_ok p st : physicalFieldsOk (completeTreasure p st).
Proof.
  unfold physicalFieldsOk, completeTreasure; simpl.
  intros ->. split; reflexivity.
Qed.

(** What saving does to the list: nothing, or one record appended. *)
Lemma saveClueAndContinue_treasures c st :
  treasures (fst (saveClueAndContinue c st)) = treasures st
  \/ exists p, currentTreasure st = Some p
       /\ treasures (fst (saveClueAndContinue c st)) = treasures st ++ [completeTreasure p st].
Proof.
  unfold saveClueAndContinue.
  destruct (currentTreasure st) as [p|]; [|left; reflexivity].
  destruct (Js.truthy (Js.trim (clueInput st))); [|left; reflexivity].
  right. exists p. split; [reflexivity|].
  destruct (maxTreasures st <=? treasureCount st + 1); [reflexivity|].
  destruct c; reflexivity.
Qed.

Lemma step_preserves_invariant cfg a st :
  Forall physicalFieldsOk (treasures st) ->
  Forall physicalFieldsOk (treasures (fst (step cfg a st))).
Proof.
  intros Hst. destruct a; simpl; try exact Hst.
  - destruct position; exact Hst.
  - destruct camera; exact Hst.
  - unfold captureImage.
    repeat match goal with |- context [if ?b then _ else _] => destruct b end; exact Hst.
  - rewrite cropImage_treasures. exact Hst.
  - destruct (saveClueAndContinue_treasures continueHiding st) as [-> | (p & _ & ->)];
      [exact Hst|].
    apply Forall_app. split; [exact Hst|].
    constructor; [apply completeTreasure_ok | constructor].
  - unfold endSession. destruct (cameraStream st); exact Hst.
  - constructor.
Qed.

Lemma run_preserves_invariant cfg acts : forall st,
  Forall physicalFieldsOk (treasures st) ->
  Forall physicalFieldsOk (treasures (fst (run cfg acts st))).
Proof.
  induction acts as [|a rest IH]; intros st Hst; simpl; [exact Hst|].
  pose proof (step_preserves_invariant cfg a st Hst) as Hstep.
  destruct (step cfg a st) as [st1 e1]. simpl in Hstep.
  specialize (IH st1 Hstep).
  destruct (run cfg rest st1) as [st2 e2]. exact IH.
Qed.

(** The answer of the route is refused by the component whenever the
    validator's score is below the threshold. *)
Lemma route_below_threshold cfg senv p :
  ValidateEndpoint.validationScore (ValidateEndpoint.exec senv)
    < Config.minValidationScore cfg ->
  exists r, route cfg senv p = Some r /\ accepted cfg r = None
            /\ routeUploads cfg senv p = [].
Proof.
  intros Hlt. unfold route, routeUploads, ValidateEndpoint.handler; simpl.
  destruct (Js.truthy (vImageName p)).
  - unfold ValidateEndpoint.uploadStep.
    destruct (N.leb_spec (Config.minValidationScore cfg)
                (ValidateEndpoint.validationScore (ValidateEndpoint.exec senv)))
      as [Hle|_]; [lia|].
    eexists. split; [reflexivity|]. split; [|reflexivity].
    unfold accepted; simpl.
    destruct (N.leb_spec (Config.minValidationScore cfg)
                (ValidateEndpoint.validationScore (ValidateEndpoint.exec senv)))
      as [Hle|_]; [lia | reflexivity].
  - eexists. split; [reflexivity|]. split; reflexivity.
Qed.

(** What the workflow does with the validator's score [s], end to end: it
    reaches the clue builder exactly for scores strictly above the
    threshold, and is back at the capture step otherwise. *)
Lemma workflow_advances_iff_strictly_above cfg senv img data name st :
  Js.truthy name = true ->
  let s := ValidateEndpoint.validationScore (ValidateEndpoint.exec senv) in
  let after := validateAndUploadImage cfg {| blob := Some img; respond := route cfg senv |}
                 data name st in
  (Config.minValidationScore cfg < s -> currentStep (fst after) = ClueBuilder)
  /\ (s <= Config.minValidationScore cfg -> currentStep (fst after) = Capture).
Proof.
  intros Hname s after. subst after.
  unfold validateAndUploadImage; cbn [blob respond].
  unfold route, ValidateEndpoint.handler. cbn [vImageName validatePayload
    ValidateEndpoint.image ValidateEndpoint.fImageName].
  rewrite Hname. fold s.
  destruct (ValidateEndpoint.uploadStep _ _ _ _ _ _) as [url reqs].
  unfold accepted; cbn [ValidateEndpoint.body ValidateEndpoint.success
    ValidateEndpoint.score].
  destruct (N.leb_spec (Config.minValidationScore cfg) s) as [Hle|Hgt];
    destruct (N.ltb_spec (Config.minValidationScore cfg) s) as [Hlt|Hge];
    destruct (N.eqb_spec s 0) as [Hz|Hnz]; simpl;
    split; intros; try reflexivity; lia.
Qed.

End Workflow.

Section WorkflowClaims.
Import HideTreasures.
Context `{Platform}.

(** C1 (boundary case).  With the shipped threshold of 75 and a validator
    that reports exactly 75, the route answers [success = true] with score
    75 and no error message, yet the component refuses the answer: it
    returns to the capture step, creates no treasure and shows the
    "validation failed" alert.  The workflow therefore advances only for
    scores strictly above the threshold. *)
Theorem C1_boundary_score_is_sent_back_to_capture
    (st : State) (img : list N) (readable : bool)
    (up : ValidateEndpoint.UploadOutcome) :
  let senv := {| ValidateEndpoint.exec :=
                   ValidateEndpoint.ExecDone (js "Image quality score: 75") [];
                 ValidateEndpoint.imageReadable := readable;
                 ValidateEndpoint.upload := up |} in
  let venv := {| blob := Some img; respond := route Config.config senv |} in
  let answer := ValidateEndpoint.body
                  (ValidateEndpoint.handler Config.config POST
                     (Some {| ValidateEndpoint.image := Some img;
                              ValidateEndpoint.fImageName := Some (js "Lighthouse");
                              ValidateEndpoint.fLatitude := Some (js "0");
                              ValidateEndpoint.fLongitude := Some (js "0") |}) senv) in
  let after := validateAndUploadImage Config.config venv img (js "Lighthouse") st in
  ValidateEndpoint.validationScore (ValidateEndpoint.exec senv)
    = Config.minValidationScore Config.config
  /\ ValidateEndpoint.success answer = true
  /\ ValidateEndpoint.score answer = Some 75
  /\ ValidateEndpoint.error answer = None
  /\ currentStep (fst after) = Capture
  /\ currentTreasure (fst after) = currentTreasure st
  /\ last (snd after)
     = Some (Alert (js "Image validation failed. Score: 75. Please capture a new image with more visual features.")).
Proof.
  cbv zeta.
  assert (Hs : ValidateEndpoint.validationScore
                 (ValidateEndpoint.ExecDone (js "Image quality score: 75") []) = 75)
    by (vm_compute; reflexivity).
  split; [exact Hs|].
  unfold validateAndUploadImage, route, ValidateEndpoint.handler; simpl.
  unfold ValidateEndpoint.validationScore in Hs. rewrite !Hs.
  repeat match goal with
         | |- context [ValidateEndpoint.uploadStep ?a ?b ?c ?d ?e ?f] =>
             destruct (ValidateEndpoint.uploadStep a b c d e f) as [? ?]; simpl
         end.
  repeat split; reflexivity.
Qed.

(** C4.  When the validator's score is below [minValidationScore], the
    workflow is back at the capture step, the session's list of treasures
    and its counter are unchanged, no treasure is prepared, the asset
    server receives no upload, and the trace contains no publish request,
    so the published configuration file (and with it [totalTreasures]) is
    what it was. *)
Theorem C4_rejection_leaves_state_unchanged
    (cfg : Config.t) (senv : ValidateEndpoint.Env) (b : option (list N))
    (data name : list N) (st : State)
    (penv : UpdateWebConfig.Env) (file : option WebConfig) :
  ValidateEndpoint.validationScore (ValidateEndpoint.exec senv)
    < Config.minValidationScore cfg ->
  let venv := {| blob := b; respond := route cfg senv |} in
  let after := validateAndUploadImage cfg venv data name st in
  currentStep (fst after) = Capture
  /\ treasures (fst after) = treasures st
  /\ treasureCount (fst after) = treasureCount st
  /\ currentTreasure (fst after) = currentTreasure st
  /\ Forall (fun e => forall ts, e <> PostUpdateWebConfig ts) (snd after)
  /\ publishAll penv (snd after) file = file
  /\ totalTreasures <$> publishAll penv (snd after) file = totalTreasures <$> file
  /\ (forall p, routeUploads cfg senv p = []).
Proof.
  intros Hlt venv after. subst after venv.
  assert (Hup : forall p, routeUploads cfg senv p = []).
  { intros p. destruct (route_below_threshold cfg senv p Hlt) as (r & _ & _ & Hu).
    exact Hu. }
  unfold validateAndUploadImage; cbn [blob respond].
  destruct b as [img|].
  - destruct (route_below_threshold cfg senv (validatePayload st img name) Hlt)
      as (r & Hr & Hacc & _).
    rewrite Hr, Hacc; simpl.
    repeat split; try reflexivity; try exact Hup.
    repeat constructor; intros ts; discriminate.
  - repeat split; try reflexivity; try exact Hup.
    repeat constructor; intros ts; discriminate.
Qed.

(** C6.  Every record that saving appends to the session's list satisfies:
    if [hasPhysicalGame] is false then the instruction and the secret code
    are empty; saving appends at most that one record; and the property is
    an invariant of the list under every sequence of workflow handlers. *)
Theorem C6_physical_fields_empty_without_game
    (cfg : Config.t) (acts : list Action) (st : State) (c : bool) :
  Forall physicalFieldsOk (treasures st) ->
  (treasures (fst (saveClueAndContinue c st)) = treasures st
   \/ exists t, treasures (fst (saveClueAndContinue c st)) = treasures st ++ [t]
        /\ hasPhysicalGame t = physicalGameOn st
        /\ (hasPhysicalGame t = false ->
            physicalGameInstruction t = [] /\ physicalGameSecretCode t = [])
        /\ In (PostUpdateWebConfig (treasures st ++ [t])) (snd (saveClueAndContinue c st)))
  /\ Forall physicalFieldsOk (treasures (fst (run cfg acts st))).
Proof.
  intros Hst. split; [|apply run_preserves_invariant; exact Hst].
  unfold saveClueAndContinue.
  destruct (currentTreasure st) as [p|]; [|left; reflexivity].
  destruct (Js.truthy (Js.trim (clueInput st))); [|left; reflexivity].
  right. exists (completeTreasure p st).
  destruct (maxTreasures st <=? treasureCount st + 1); [|destruct c]; simpl;
    (split; [reflexivity|]); (split; [reflexivity|]);
    (split; [intros ->; split; reflexivity | left; reflexivity]).
Qed.

(** C8.  Cropping with an empty or all-white-space label fails: the
    handler only shows the "name required" alert; the state is returned
    as it was (no cropped image, same step) and no request is issued. *)
Theorem C8_crop_with_blank_name_fails
    (cfg : Config.t) (env : CropEnv) (venv : ValidateEnv) (st : State) :
  blank (nameInput st) ->
  cropImage cfg env venv st
  = (st, [Alert (js "Please enter a name for the treasure marker before cropping.")]).
Proof.
  intros Hb. unfold cropImage.
  rewrite (trim_blank _ Hb). simpl.
  rewrite orb_true_r. reflexivity.
Qed.

(** C10.  Without a GPS location the capture is processed all the same:
    the request carries latitude "0" and longitude "0", and when the
    answer is accepted the workflow reaches the clue builder with a
    treasure whose latitude and longitude are 0, which the saved record
    inherits. *)
Theorem C10_missing_location_defaults_to_zero
    (cfg : Config.t) (venv : ValidateEnv) (img data name : list N) (st st' : State)
    (r : ValidateEndpoint.ValidationResult) (s : N) :
  currentLocation st = None ->
  blob venv = Some img ->
  respond venv (validatePayload st img name) = Some r ->
  accepted cfg r = Some s ->
  exists p t,
    validateAndUploadImage cfg venv data name st
    = (setIsProcessing false
         (setCurrentStep ClueBuilder
            (setCurrentTreasure (Some t)
               (setValidationScore (Some s) (setIsProcessing true st)))),
       [PostValidate p])
    /\ vLatitude p = js "0" /\ vLongitude p = js "0"
    /\ pLatitude t = 0%float /\ pLongitude t = 0%float
    /\ latitude (completeTreasure t st') = 0%float
    /\ longitude (completeTreasure t st') = 0%float.
Proof.
  intros Hloc Hblob Hresp Hacc.
  exists (validatePayload st img name), (newTreasure st name).
  unfold validateAndUploadImage. rewrite Hblob, Hresp, Hacc.
  unfold validatePayload, newTreasure; simpl. rewrite Hloc; simpl.
  repeat split; reflexivity.
Qed.

End WorkflowClaims.

Section FileNames.
Import HideTreasures.
Context `{Platform}.

(** C9 (amended).  For every label, each upload the route issues stores the
    image under the label with every character outside [a-zA-Z0-9]
    replaced by an underscore, followed by ".png"; the treasure prepared
    by the workflow, and the record saved from it, carry the unmodified
    label followed by ".png"; and the two names are equal exactly when
    every character of the label is an ASCII letter, a digit or an
    underscore. *)
Theorem C9_stored_name_and_recorded_name
    (cfg : Config.t) (senv : ValidateEndpoint.Env) (img label : list N)
    (st st' : State) :
  Forall (fun u => ValidateEndpoint.uFilename u
                   = map (fun c => if Js.isAlnum c then c else Js.underscore) label
                     ++ js ".png")
         (routeUploads cfg senv (validatePayload st img label))
  /\ pFileName (newTreasure st label) = label ++ js ".png"
  /\ fileName (completeTreasure (newTreasure st label) st') = label ++ js ".png"
  /\ (ValidateEndpoint.imageFileName label
      = fileName (completeTreasure (newTreasure st label) st')
      <-> Forall (fun c => Js.isAlnum c = true \/ c = Js.underscore) label).
Proof.
  split; [|split; [reflexivity | split; [reflexivity|]]].
  - unfold routeUploads, ValidateEndpoint.handler; simpl.
    destruct (Js.truthy label); [|constructor].
    unfold ValidateEndpoint.uploadStep.
    destruct (_ <=? _); [|constructor].
    destruct (ValidateEndpoint.imageReadable senv); [|constructor].
    destruct (ValidateEndpoint.upload senv) as [| |[u|]|]; simpl;
      try destruct (Js.truthy u); repeat constructor.
  - simpl. unfold ValidateEndpoint.imageFileName.
    rewrite <- replaceNonAlnum_fixed.
    split; [apply app_inv_tail | intros ->; reflexivity].
Qed.

End FileNames.

(** C9 (as stated) fails on a label with an underscore: the stored name and
    the recorded name are both "a_b.png", although the label does not
    consist of letters and digits only. *)
Lemma C9_underscore_label_counterexample :
  ValidateEndpoint.imageFileName (js "a_b")
  = fileName (@HideTreasures.completeTreasure
                (@HideTreasures.newTreasure asciiPlatform
                   (HideTreasures.initialState Config.config) (js "a_b"))
                (HideTreasures.initialState Config.config))
  /\ ~ Forall (fun c => Js.isAlnum c = true) (js "a_b").
Proof.
  split; [vm_compute; reflexivity|].
  intros Hall. inversion Hall as [|? ? _ Hrest]; subst.
  inversion Hrest as [|? ? Hu _]; subst.
  vm_compute in Hu. discriminate.
Qed.

(* ===================================================================== *)
(** ** The API routes *)
(* ===================================================================== *)

(** The answer of the publisher does not depend on any of its three writes. *)
Lemma publish_answer_independent_of_writes
    (ts : list TreasureData) (env1 env2 : UpdateWebConfig.Env) :
  UpdateWebConfig.cwd env1 = UpdateWebConfig.cwd env2 ->
  UpdateWebConfig.body (UpdateWebConfig.handler POST (Some ts) env1)
  = UpdateWebConfig.body (UpdateWebConfig.handler POST (Some ts) env2)
  /\ UpdateWebConfig.status (UpdateWebConfig.handler POST (Some ts) env1) = 200.
Proof.
  intros Hcwd. unfold UpdateWebConfig.handler.
  destruct (UpdateWebConfig.localWrite env1), (UpdateWebConfig.localWrite env2),
    (UpdateWebConfig.serverPush env1) as [| |[|]],
    (UpdateWebConfig.serverPush env2) as [| |[|]],
    (UpdateWebConfig.publicWrite env1), (UpdateWebConfig.publicWrite env2);
    simpl; rewrite Hcwd; split; reflexivity.
Qed.

(** A failed remote push or mirror copy is logged and leaves the local
    write in place. *)
Lemma publish_keeps_local_write
    (ts : list TreasureData) (now cwd : list N) (push : Fetched bool) (mirror : bool) :
  let r := UpdateWebConfig.handler POST (Some ts)
             {| UpdateWebConfig.now := now; UpdateWebConfig.cwd := cwd;
                UpdateWebConfig.localWrite := true;
                UpdateWebConfig.serverPush := push;
                UpdateWebConfig.publicWrite := mirror |} in
  UpdateWebConfig.localFile r = Some (UpdateWebConfig.makeWebConfig now ts)
  /\ UpdateWebConfig.success (UpdateWebConfig.body r) = true
  /\ (mirror = false -> In UpdateWebConfig.PublicSaveFailed (UpdateWebConfig.logs r))
  /\ (push <> Ok true -> UpdateWebConfig.serverUpdateSuccess r = false
                         /\ UpdateWebConfig.logs r <> []).
Proof.
  cbv zeta. unfold UpdateWebConfig.handler; simpl.
  destruct push as [| |[|]], mirror; simpl; repeat split;
    try reflexivity; try discriminate; try (intros; congruence);
    try (intros _; auto; fail).
Qed.

(** C2 (failing input).  When the durable local write of step 1 fails, the
    publisher logs the failure, writes no local file, and still answers
    status 200 with [success = true], whatever the other two steps do. *)
Theorem C2_publish_reports_success_without_local_write
    (ts : list TreasureData) (now cwd : list N) (push : Fetched bool) (mirror : bool) :
  let r := UpdateWebConfig.handler POST (Some ts)
             {| UpdateWebConfig.now := now; UpdateWebConfig.cwd := cwd;
                UpdateWebConfig.localWrite := false;
                UpdateWebConfig.serverPush := push;
                UpdateWebConfig.publicWrite := mirror |} in
  UpdateWebConfig.localFile r = None
  /\ In UpdateWebConfig.LocalSaveFailed (UpdateWebConfig.logs r)
  /\ UpdateWebConfig.status r = 200
  /\ UpdateWebConfig.success (UpdateWebConfig.body r) = true
  /\ UpdateWebConfig.error (UpdateWebConfig.body r) = None.
Proof.
  cbv zeta. unfold UpdateWebConfig.handler; simpl.
  destruct push as [| |[|]], mirror; simpl; repeat split; left; reflexivity.
Qed.

(** Output from which no score can be parsed is reported with score 0,
    hence as a failure for every positive threshold. *)
Lemma unparsed_output_is_a_failure
    (cfg : Config.t) (f : ValidateEndpoint.FormFields) (stdout stderr : list N)
    (readable : bool) (up : ValidateEndpoint.UploadOutcome) :
  Js.matchNumber stdout = None -> Js.matchNumber stderr = None ->
  Js.matchScore stdout = None -> Js.matchScore stderr = None ->
  0 < Config.minValidationScore cfg ->
  let r := ValidateEndpoint.handler cfg POST (Some f)
             {| ValidateEndpoint.exec := ValidateEndpoint.ExecDone stdout stderr;
                ValidateEndpoint.imageReadable := readable;
                ValidateEndpoint.upload := up |} in
  ValidateEndpoint.success (ValidateEndpoint.body r) = false
  /\ ValidateEndpoint.uploads r = [].
Proof.
  intros Hn1 Hn2 Hs1 Hs2 Hmin. cbv zeta.
  unfold ValidateEndpoint.handler; simpl.
  destruct (ValidateEndpoint.image f); [|split; reflexivity].
  destruct (ValidateEndpoint.fImageName f) as [name|]; [|split; reflexivity].
  destruct (Js.truthy name); [|split; reflexivity].
  unfold ValidateEndpoint.parseScore, ValidateEndpoint.uploadStep.
  rewrite Hs1, Hs2, Hn1, Hn2; simpl.
  destruct (N.leb_spec (Config.minValidationScore cfg) 0) as [Hle|_]; [lia|].
  split; reflexivity.
Qed.

(** C3 (failing input).  When the validator invocation fails, the route, with
    the shipped threshold of 75, answers [success = true] with the fixed
    score 85 and no error message, and goes on to upload the image; nothing
    in the answer tells the score was not measured. *)
Theorem C3_validator_failure_reported_as_pass
    (img name lat lon : list N) (up : ValidateEndpoint.UploadOutcome) :
  let r := ValidateEndpoint.handler Config.config POST
             (Some {| ValidateEndpoint.image := Some img;
                      ValidateEndpoint.fImageName := Some (js "Lighthouse");
                      ValidateEndpoint.fLatitude := Some lat;
                      ValidateEndpoint.fLongitude := Some lon |})
             {| ValidateEndpoint.exec := ValidateEndpoint.ExecFailed;
                ValidateEndpoint.imageReadable := true;
                ValidateEndpoint.upload := up |} in
  ValidateEndpoint.status r = 200
  /\ ValidateEndpoint.success (ValidateEndpoint.body r) = true
  /\ ValidateEndpoint.score (ValidateEndpoint.body r) = Some 85
  /\ ValidateEndpoint.error (ValidateEndpoint.body r) = None
  /\ length (ValidateEndpoint.uploads r) = 1%nat.
Proof.
  cbv zeta. unfold ValidateEndpoint.handler; simpl.
  unfold ValidateEndpoint.uploadStep; simpl.
  destruct up as [| |[u|]|]; simpl; try destruct (Js.truthy u); simpl;
    repeat split; reflexivity.
Qed.

(** Removing by name: the records kept, and how many. *)
Lemma removeTreasure_length (name : list N) (ts : list TreasureData) :
  (length (DeleteTreasure.removeTreasure name ts)
   + length (filter (fun t => imageName t = name) ts))%nat = length ts.
Proof.
  unfold DeleteTreasure.removeTreasure.
  induction ts as [|t r IH]; [reflexivity|].
  rewrite !filter_cons.
  destruct (decide (imageName t = name)) as [Heq|Hne].
  - rewrite decide_False by (intros Hn; exact (Hn Heq)). simpl. lia.
  - rewrite decide_True by exact Hne. simpl. lia.
Qed.

Lemma removeTreasure_none_left (name : list N) (ts : list TreasureData) :
  Forall (fun t => imageName t <> name) (DeleteTreasure.removeTreasure name ts).
Proof.
  unfold DeleteTreasure.removeTreasure.
  apply List.Forall_forall. intros t Hin.
  apply list_elem_of_In in Hin. apply list_elem_of_filter in Hin. tauto.
Qed.

(** C5.  When the fetched configuration holds N records of which exactly one
    has the targeted [imageName], the delete route posts one configuration:
    the fetched records without that one, in their order; it has N-1 records,
    [totalTreasures] is N-1, and no record in it has the deleted name. *)
Theorem C5_delete_republishes_one_less
    (cfg : Config.t) (env : DeleteTreasure.Env) (name file : list N)
    (imgs : list TreasureData) :
  Js.truthy (Config.baseUrl (Config.server cfg)) = true ->
  Js.truthy name = true -> Js.truthy file = true ->
  DeleteTreasure.configFetch env = Ok (Some imgs) ->
  length (filter (fun t => imageName t = name) imgs) = 1%nat ->
  exists c,
    DeleteTreasure.pushed
      (DeleteTreasure.handler cfg POST (Some name) (Some file) env) = [c]
    /\ images c = filter (fun t => imageName t <> name) imgs
    /\ S (length (images c)) = length imgs
    /\ totalTreasures c = N.of_nat (length imgs) - 1
    /\ totalTreasures c = N.of_nat (length (images c))
    /\ Forall (fun t => imageName t <> name) (images c).
Proof.
  intros Hbase Hname Hfile Hfetch Hone.
  pose proof (removeTreasure_length name imgs) as Hlen.
  exists (DeleteTreasure.updatedConfig (DeleteTreasure.now env) name imgs).
  unfold DeleteTreasure.handler. rewrite Hname, Hfile, Hbase, Hfetch; simpl.
  destruct imgs as [|t r]; [discriminate Hone|].
  simpl. split; [reflexivity|]. split; [reflexivity|].
  split; [simpl in Hlen; lia|].
  split; [simpl in Hlen; lia|].
  split; [reflexivity | apply removeTreasure_none_left].
Qed.

(* ===================================================================== *)
(** ** The team store adapter *)
(* ===================================================================== *)

Section TeamStoreClaims.
Import TeamStore.
Context `{Coercions}.

Local Ltac js_neq := let E := fresh in intros E; vm_compute in E; discriminate E.

Lemma collectSessionFields_none (raw : gmap (list N) jsval) :
  Forall (fun f => raw !! f = None) potentialSessionFields ->
  collectSessionFields raw = (∅, false).
Proof.
  unfold collectSessionFields, potentialSessionFields. intros Hall.
  repeat match goal with
         | Hf : Forall _ (_ :: _) |- _ =>
             let Hx := fresh "Hx" in
             let Hr := fresh "Hr" in
             apply Forall_cons in Hf as [Hx Hr]; cbn beta in Hx
         end.
  cbn [foldl]. rewrite Hx, Hx0, Hx1, Hx2, Hx3. reflexivity.
Qed.

Lemma sessionOf_default (raw : gmap (list N) jsval) :
  asObject (raw !! js "session") = None ->
  asObject (raw !! js "Session") = None ->
  Forall (fun f => raw !! f = None) potentialSessionFields ->
  sessionOf raw = defaultSession.
Proof.
  intros Hs HS Hf. unfold sessionOf.
  rewrite Hs, HS, (collectSessionFields_none raw Hf). reflexivity.
Qed.

Lemma processTeam_uid uid raw : processTeam uid raw !! js "uid" = Some (JStr uid).
Proof.
  unfold processTeam.
  rewrite !lookup_insert_ne by js_neq. apply lookup_insert_eq.
Qed.

Lemma processTeam_session uid raw :
  processTeam uid raw !! js "session" = Some (JObj (sessionOf raw)).
Proof. unfold processTeam. apply lookup_insert_eq. Qed.

Lemma processTeam_other uid raw k :
  k <> js "uid" -> k <> js "physicalScore" -> k <> js "physicalScoreComment" ->
  k <> js "session" ->
  processTeam uid raw !! k = raw !! k.
Proof.
  intros H1 H2 H3 H4. unfold processTeam.
  rewrite !lookup_insert_ne by congruence. reflexivity.
Qed.

Lemma collectTeams_elem (allData : gmap (list N) jsval) uid raw :
  allData !! uid = Some (JObj raw) ->
  truthy (raw !! js "teamName") = true ->
  processTeam uid raw ∈ collectTeams allData.
Proof.
  intros Hnode Hname. unfold collectTeams.
  apply list_elem_of_omap. exists (uid, JObj raw). split.
  - apply elem_of_map_to_list. exact Hnode.
  - simpl. rewrite Hname. reflexivity.
Qed.

Lemma sortTeams_elem t ts : t ∈ sortTeams ts <-> t ∈ ts.
Proof. unfold sortTeams. rewrite merge_sort_Permutation. reflexivity. Qed.

(** C7.  A team node (an object with a [teamName]) that has neither a
    [session] nor a [Session] object and none of the session fields
    [currentClueNumber], [cluesCompleted], [gameStarted], [started],
    [status] is returned by [getAllTeams], and delivered by
    [subscribeToTeams], with its uid and with the default session
    {cluesCompleted: 0, currentClueNumber: 0, started: false,
    status: 'not_started'}; its other fields are those of the node.  Both
    entry points are total: they return a list and have no error result. *)
Theorem C7_team_without_session_gets_default
    (allData : gmap (list N) jsval) (uid : list N) (raw : gmap (list N) jsval) :
  allData !! uid = Some (JObj raw) ->
  truthy (raw !! js "teamName") = true ->
  asObject (raw !! js "session") = None ->
  asObject (raw !! js "Session") = None ->
  Forall (fun f => raw !! f = None) potentialSessionFields ->
  exists team,
    team ∈ getAllTeams true (Ok (JObj allData))
    /\ team ∈ subscribeToTeams (Ok (JObj allData))
    /\ team !! js "uid" = Some (JStr uid)
    /\ team !! js "session"
       = Some (JObj (<[js "status" := JStr (js "not_started")]>
                       (<[js "started" := JBool false]>
                          (<[js "currentClueNumber" := JNum 0]>
                             (<[js "cluesCompleted" := JNum 0]> ∅)))))
    /\ (forall k, k <> js "uid" -> k <> js "physicalScore" ->
                  k <> js "physicalScoreComment" -> k <> js "session" ->
                  team !! k = raw !! k).
Proof.
  intros Hnode Hname Hs HS Hf.
  exists (processTeam uid raw).
  assert (Hin : processTeam uid raw ∈ sortTeams (collectTeams allData)).
  { apply sortTeams_elem. apply collectTeams_elem; assumption. }
  split; [exact Hin|]. split; [exact Hin|].
  split; [apply processTeam_uid|].
  split; [|apply processTeam_other].
  rewrite processTeam_session, (sessionOf_default raw Hs HS Hf). reflexivity.
Qed.

End TeamStoreClaims.

(* ===================================================================== *)
(** ** The theorems at concrete inputs *)
(* ===================================================================== *)

(** The scenario of section 8: the validator returns 40, the threshold is 75. *)
Lemma C4_witness_score_40 :
  ValidateEndpoint.validationScore
    (ValidateEndpoint.exec (validatorPrints (js "Image quality score: 40")))
    < Config.minValidationScore Config.config
  /\ HideTreasures.currentStep
       (fst (@HideTreasures.validateAndUploadImage asciiPlatform Config.config
               {| HideTreasures.blob := Some sampleImage;
                  HideTreasures.respond :=
                    @HideTreasures.route Config.config
                       (validatorPrints (js "Image quality score: 40")) |}
               sampleImage (js "Lighthouse")
               (HideTreasures.initialState Config.config)))
     = HideTreasures.Capture.
Proof.
  assert (Hlt : ValidateEndpoint.validationScore
                  (ValidateEndpoint.exec (validatorPrints (js "Image quality score: 40")))
                < Config.minValidationScore Config.config)
    by (vm_compute; reflexivity).
  split; [exact Hlt|].
  exact (proj1 (@C4_rejection_leaves_state_unchanged asciiPlatform Config.config
                  (validatorPrints (js "Image quality score: 40")) (Some sampleImage)
                  sampleImage (js "Lighthouse") (HideTreasures.initialState Config.config)
                  healthyPublisher None Hlt)).
Defined.

Lemma C5_witness_two_treasures :
  exists c,
    DeleteTreasure.pushed
      (DeleteTreasure.handler Config.config POST (Some (js "clue_0_lighthouse"))
         (Some (js "Lighthouse.png")) healthyRemote) = [c]
    /\ totalTreasures c = 1.
Proof.
  destruct (C5_delete_republishes_one_less Config.config healthyRemote
              (js "clue_0_lighthouse") (js "Lighthouse.png") twoTreasures)
    as (c & Hc & _ & _ & Ht & _).
  - reflexivity.
  - reflexivity.
  - reflexivity.
  - reflexivity.
  - vm_compute. reflexivity.
  - exists c. split; [exact Hc | exact Ht].
Defined.

Lemma C6_witness_fresh_session :
  Forall physicalFieldsOk
    (HideTreasures.treasures
       (fst (@HideTreasures.run asciiPlatform Config.config
               [HideTreasures.TypeImageName (js "Lighthouse");
                HideTreasures.CropImage
                  {| HideTreasures.canvasReady := true; HideTreasures.context2d := true;
                     HideTreasures.outcome := HideTreasures.Cropped sampleImage |}
                  {| HideTreasures.blob := Some sampleImage;
                     HideTreasures.respond :=
                       @HideTreasures.route Config.config
                          (validatorPrints (js "Image quality score: 82")) |};
                HideTreasures.TypeClueText (js "Find the light");
                HideTreasures.SaveClueAndContinue true]
               (HideTreasures.setCapturedImage (Some sampleImage)
                  (HideTreasures.initialState Config.config))))).
Proof.
  refine (proj2 (@C6_physical_fields_empty_without_game asciiPlatform Config.config
                   _ _ true _)).
  constructor.
Defined.

Lemma C7_witness_one_team :
  exists team,
    team ∈ @TeamStore.getAllTeams numericCoercions true (Ok (TeamStore.JObj oneTeam))
    /\ team !! js "uid" = Some (TeamStore.JStr (js "uid1")).
Proof.
  destruct (@C7_team_without_session_gets_default numericCoercions oneTeam (js "uid1")
              (<[js "teamName" := TeamStore.JStr (js "Owls")]>
                 {[ js "teamNumber" := TeamStore.JNum 1 ]}))
    as (team & Hin & _ & Huid & _).
  - vm_compute. reflexivity.
  - vm_compute. reflexivity.
  - vm_compute. reflexivity.
  - vm_compute. reflexivity.
  - repeat constructor.
  - exists team. split; [exact Hin | exact Huid].
Defined.

Lemma C8_witness_three_spaces :
  blank (HideTreasures.nameInput blankNameState)
  /\ @HideTreasures.cropImage asciiPlatform Config.config
       {| HideTreasures.canvasReady := true; HideTreasures.context2d := true;
          HideTreasures.outcome := HideTreasures.Cropped sampleImage |}
       {| HideTreasures.blob := Some sampleImage;
          HideTreasures.respond :=
            @HideTreasures.route Config.config
               (validatorPrints (js "Image quality score: 82")) |}
       blankNameState
     = (blankNameState,
        [HideTreasures.Alert
           (js "Please enter a name for the treasure marker before cropping.")]).
Proof.
  assert (Hb : blank (HideTreasures.nameInput blankNameState))
    by (repeat constructor).
  split; [exact Hb|].
  exact (@C8_crop_with_blank_name_fails asciiPlatform Config.config _ _ blankNameState Hb).
Defined.

Lemma C10_witness_no_location :
  HideTreasures.currentLocation (HideTreasures.initialState Config.config) = None
  /\ HideTreasures.currentStep
       (fst (@HideTreasures.validateAndUploadImage asciiPlatform Config.config
               {| HideTreasures.blob := Some sampleImage;
                  HideTreasures.respond :=
                    @HideTreasures.route Config.config
                       (validatorPrints (js "Image quality score: 82")) |}
               sampleImage (js "Lighthouse")
               (HideTreasures.initialState Config.config)))
     = HideTreasures.ClueBuilder.
Proof.
  split; [reflexivity|].
  destruct (@C10_missing_location_defaults_to_zero asciiPlatform Config.config
              {| HideTreasures.blob := Some sampleImage;
                 HideTreasures.respond :=
                   @HideTreasures.route Config.config
                      (validatorPrints (js "Image quality score: 82")) |}
              sampleImage sampleImage (js "Lighthouse")
              (HideTreasures.initialState Config.config)
              (HideTreasures.initialState Config.config)
              {| ValidateEndpoint.success := true; ValidateEndpoint.score := Some 82;
                 ValidateEndpoint.error := None;
                 ValidateEndpoint.uploadUrl :=
                   Some (js "https://13d6f2ae3427.ngrok-free.app/images/Lighthouse.png") |}
              82)
    as (p & t & Heq & _).
  - reflexivity.
  - reflexivity.
  - vm_compute. reflexivity.
  - vm_compute. reflexivity.
  - rewrite Heq. reflexivity.
Defined.

(* ===================================================================== *)
(** ** Further properties of the API routes *)
(* ===================================================================== *)

Lemma replaceNonAlnum_clean (s : list N) :
  Forall (fun c => Js.isAlnum c = true \/ c = Js.underscore) (Js.replaceNonAlnum s).
Proof.
  unfold Js.replaceNonAlnum. induction s as [|c r IH]; simpl; constructor; [|exact IH].
  destruct (Js.isAlnum c) eqn:Hc; [left; exact Hc | right; reflexivity].
Qed.

(** X1.  The name under which the route stores an image is, before its
    ".png" extension, as long as the label and made only of ASCII letters,
    digits and underscores: it holds no dot, slash or backslash, whatever
    the label; sanitising it again changes nothing. *)
Theorem X1_stored_file_name_is_safe (label : list N) :
  exists stem,
    ValidateEndpoint.imageFileName label = stem ++ js ".png"
    /\ length stem = length label
    /\ Forall (fun c => Js.isAlnum c = true \/ c = Js.underscore) stem
    /\ ~ In 46 stem /\ ~ In 47 stem /\ ~ In 92 stem
    /\ ValidateEndpoint.imageFileName stem = ValidateEndpoint.imageFileName label.
Proof.
  exists (Js.replaceNonAlnum label).
  pose proof (replaceNonAlnum_clean label) as Hclean.
  split; [reflexivity|]. split; [apply length_map|]. split; [exact Hclean|].
  assert (Hnot : forall c, Js.isAlnum c = false -> c <> Js.underscore ->
                           ~ In c (Js.replaceNonAlnum label)).
  { intros c Hc Hu Hin. rewrite List.Forall_forall in Hclean.
    destruct (Hclean c Hin) as [Ha | Ha]; congruence. }
  repeat split; try (apply Hnot; [reflexivity | discriminate]).
  unfold ValidateEndpoint.imageFileName. f_equal.
  apply replaceNonAlnum_fixed. exact Hclean.
Qed.

Lemma search_none {A} (m : list N -> option A) (s : list N) :
  (forall p t, s = p ++ t -> m t = None) -> Js.search m s = None.
Proof.
  induction s as [|c r IH]; intros Hall; simpl.
  - rewrite (Hall [] [] eq_refl). reflexivity.
  - rewrite (Hall [] (c :: r) eq_refl). apply IH.
    intros p t ->. apply (Hall (c :: p) t). reflexivity.
Qed.

Lemma span_split (p : N -> bool) (s : list N) :
  s = fst (Js.span p s) ++ snd (Js.span p s)
  /\ Forall (fun c => p c = true) (fst (Js.span p s)).
Proof.
  induction s as [|c r [IH1 IH2]]; simpl; [split; [reflexivity | constructor]|].
  destruct (p c) eqn:Hc; [|split; [reflexivity | constructor]].
  destruct (Js.span p r) as [a b]; simpl in *.
  split; [congruence | constructor; assumption].
Qed.

Lemma noDigit_suffix (p t : list N) : noDigit (p ++ t) -> noDigit t.
Proof. unfold noDigit. rewrite Forall_app. tauto. Qed.

Lemma digitsAt_noDigit (s : list N) : noDigit s -> Js.digitsAt s = None.
Proof.
  unfold Js.digitsAt. intros Hs.
  destruct s as [|c r]; [reflexivity|].
  inversion Hs as [|? ? Hc _]; subst. simpl. rewrite Hc. reflexivity.
Qed.

Lemma scoreAt_noDigit (s : list N) : noDigit s -> Js.scoreAt s = None.
Proof.
  intros Hs. unfold Js.scoreAt.
  destruct s as [|c1 [|c2 [|c3 [|c4 [|c5 r]]]]]; try reflexivity.
  destruct (_ && _); [|reflexivity].
  pose proof (span_split (fun c => (c =? 58) || Js.isWhiteSpace c) r) as [Hsplit _].
  destruct (Js.span _ r) as [a b]; simpl in Hsplit.
  destruct a as [|a0 a']; [reflexivity|].
  apply digitsAt_noDigit.
  apply (noDigit_suffix ([c1; c2; c3; c4; c5] ++ a0 :: a')).
  rewrite <- app_assoc. simpl. simpl in Hsplit. rewrite <- Hsplit. exact Hs.
Qed.

Lemma parseScore_noDigit (stdout stderr : list N) :
  noDigit stdout -> noDigit stderr ->
  Js.matchScore stdout = None /\ Js.matchScore stderr = None
  /\ Js.matchNumber stdout = None /\ Js.matchNumber stderr = None.
Proof.
  intros H1 H2. unfold Js.matchScore, Js.matchNumber.
  repeat split; apply search_none; intros p t ->;
    (apply scoreAt_noDigit || apply digitsAt_noDigit);
    eapply noDigit_suffix; eassumption.
Qed.

(** X2.  When the validator runs but neither output stream contains a
    decimal digit, the extracted score is 0; for every positive threshold
    the route then answers a failure and uploads nothing. *)
Theorem X2_output_without_digits_is_a_failure
    (cfg : Config.t) (f : ValidateEndpoint.FormFields) (stdout stderr : list N)
    (readable : bool) (up : ValidateEndpoint.UploadOutcome) :
  noDigit stdout -> noDigit stderr ->
  0 < Config.minValidationScore cfg ->
  let r := ValidateEndpoint.handler cfg POST (Some f)
             {| ValidateEndpoint.exec := ValidateEndpoint.ExecDone stdout stderr;
                ValidateEndpoint.imageReadable := readable;
                ValidateEndpoint.upload := up |} in
  ValidateEndpoint.parseScore stdout stderr = 0
  /\ ValidateEndpoint.success (ValidateEndpoint.body r) = false
  /\ ValidateEndpoint.uploadUrl (ValidateEndpoint.body r) = None
  /\ ValidateEndpoint.uploads r = [].
Proof.
  intros H1 H2 Hmin.
  destruct (parseScore_noDigit stdout stderr H1 H2) as (Hs1 & Hs2 & Hn1 & Hn2).
  cbv zeta. split.
  { unfold ValidateEndpoint.parseScore. rewrite Hs1, Hs2, Hn1, Hn2. reflexivity. }
  unfold ValidateEndpoint.handler; simpl.
  destruct (ValidateEndpoint.image f); [|repeat split; reflexivity].
  destruct (ValidateEndpoint.fImageName f) as [name|]; [|repeat split; reflexivity].
  destruct (Js.truthy name); [|repeat split; reflexivity].
  unfold ValidateEndpoint.parseScore, ValidateEndpoint.uploadStep.
  rewrite Hs1, Hs2, Hn1, Hn2; simpl.
  destruct (N.leb_spec (Config.minValidationScore cfg) 0) as [Hle|_]; [lia|].
  repeat split; reflexivity.
Qed.

(** X3.  Whatever the request and the environment, the route issues at most
    one upload, and only in an answer with status 200 and [success = true]
    to a POST; the upload is stored under the sanitised name of the label it
    carries; a failing answer has no [uploadUrl]; and an answer with status
    200 carries an error message exactly when [success] is false. *)
Theorem X3_route_uploads_only_what_it_accepts
    (cfg : Config.t) (method : Method) (form : option ValidateEndpoint.FormFields)
    (env : ValidateEndpoint.Env) :
  let r := ValidateEndpoint.handler cfg method form env in
  (length (ValidateEndpoint.uploads r) <= 1)%nat
  /\ Forall (fun u =>
               method = POST /\ ValidateEndpoint.status r = 200
               /\ ValidateEndpoint.success (ValidateEndpoint.body r) = true
               /\ ValidateEndpoint.uFilename u
                  = ValidateEndpoint.imageFileName (ValidateEndpoint.uImageName u))
            (ValidateEndpoint.uploads r)
  /\ (ValidateEndpoint.success (ValidateEndpoint.body r) = false ->
      ValidateEndpoint.uploadUrl (ValidateEndpoint.body r) = None)
  /\ (ValidateEndpoint.status r = 200 ->
      (ValidateEndpoint.error (ValidateEndpoint.body r) = None
       <-> ValidateEndpoint.success (ValidateEndpoint.body r) = true)).
Proof.
  cbv zeta. unfold ValidateEndpoint.handler.
  destruct method;
    try (simpl; repeat (split || constructor); intros; try discriminate; lia).
  destruct form as [f|];
    [|simpl; repeat (split || constructor); intros; try discriminate; lia].
  destruct (ValidateEndpoint.image f);
    [|simpl; repeat (split || constructor); intros; try discriminate; lia].
  destruct (ValidateEndpoint.fImageName f) as [name|];
    [|simpl; repeat (split || constructor); intros; try discriminate; lia].
  destruct (Js.truthy name);
    [|simpl; repeat (split || constructor); intros; try discriminate; lia].
  unfold ValidateEndpoint.uploadStep.
  set (s := ValidateEndpoint.validationScore (ValidateEndpoint.exec env)).
  destruct (N.leb_spec (Config.minValidationScore cfg) s) as [Hle|Hgt].
  - assert (Hlt : (s <? Config.minValidationScore cfg) = false)
      by (apply N.ltb_ge; exact Hle).
    destruct (ValidateEndpoint.imageReadable env);
      [destruct (ValidateEndpoint.upload env) as [| |[u|]|]; try destruct (Js.truthy u)|];
      simpl; rewrite ?Hlt;
      repeat (split || constructor); intros; try discriminate; try reflexivity.
  - assert (Hlt : (s <? Config.minValidationScore cfg) = true)
      by (apply N.ltb_lt; exact Hgt).
    simpl; rewrite Hlt.
    repeat (split || constructor); intros; try discriminate; try reflexivity.
Qed.

Lemma fallbackUrl_truthy (cfg : Config.t) (file : list N) :
  Js.truthy (ValidateEndpoint.fallbackUrl cfg file) = true.
Proof.
  unfold ValidateEndpoint.fallbackUrl.
  destruct (Config.baseUrl (Config.server cfg)); reflexivity.
Qed.

(** X4.  For an accepted image that could be read, the answer is a success
    with exactly one upload, and its [uploadUrl] is: the url the asset server
    returned when its JSON answer has a non-empty one; the address derived
    from the base url and the stored file name when the server answers in
    plain text or without a url; absent when the upload is refused or cannot
    be sent. *)
Theorem X4_upload_url_of_an_accepted_image
    (cfg : Config.t) (img name : list N) (lat lon : option (list N))
    (env : ValidateEndpoint.Env) :
  Js.truthy name = true ->
  Config.minValidationScore cfg
    <= ValidateEndpoint.validationScore (ValidateEndpoint.exec env) ->
  ValidateEndpoint.imageReadable env = true ->
  let r := ValidateEndpoint.handler cfg POST
             (Some {| ValidateEndpoint.image := Some img;
                      ValidateEndpoint.fImageName := Some name;
                      ValidateEndpoint.fLatitude := lat;
                      ValidateEndpoint.fLongitude := lon |}) env in
  let derived := Config.baseUrl (Config.server cfg) ++ js "/images/"
                 ++ ValidateEndpoint.imageFileName name in
  ValidateEndpoint.success (ValidateEndpoint.body r) = true
  /\ length (ValidateEndpoint.uploads r) = 1%nat
  /\ ValidateEndpoint.uploadUrl (ValidateEndpoint.body r)
     = match ValidateEndpoint.upload env with
       | ValidateEndpoint.UploadOkJson (Some u) => Some (if Js.truthy u then u else derived)
       | ValidateEndpoint.UploadOkJson None => Some derived
       | ValidateEndpoint.UploadOkText => Some derived
       | ValidateEndpoint.UploadNotOk => None
       | ValidateEndpoint.UploadThrew => None
       end.
Proof.
  intros Hname Hle Hread. cbv zeta.
  unfold ValidateEndpoint.handler; cbn [ValidateEndpoint.image ValidateEndpoint.fImageName
    ValidateEndpoint.fLatitude ValidateEndpoint.fLongitude].
  rewrite Hname. unfold ValidateEndpoint.uploadStep. rewrite Hread.
  apply N.leb_le in Hle. rewrite Hle.
  pose proof (fallbackUrl_truthy cfg (ValidateEndpoint.imageFileName name)) as Hd.
  unfold ValidateEndpoint.fallbackUrl in Hd.
  destruct (ValidateEndpoint.upload env) as [| |[u|]|];
    cbn [ValidateEndpoint.body ValidateEndpoint.success ValidateEndpoint.uploads
         ValidateEndpoint.uploadUrl length];
    try (split; [reflexivity|]; split; [reflexivity|]).
  - reflexivity.
  - reflexivity.
  - destruct (Js.truthy u) eqn:Hu.
    + rewrite Hu. reflexivity.
    + unfold ValidateEndpoint.fallbackUrl. rewrite Hd. reflexivity.
  - unfold ValidateEndpoint.fallbackUrl. rewrite Hd. reflexivity.
  - unfold ValidateEndpoint.fallbackUrl. rewrite Hd. reflexivity.
Qed.


(** X6.  When the current configuration cannot be fetched, or holds no
    image, a well-formed delete request still asks the asset server to delete
    the file and answers [success = true], but posts no configuration and
    reports [configUpdated = false]. *)
Theorem X6_delete_without_fetched_config_skips_republish
    (cfg : Config.t) (env : DeleteTreasure.Env) (name file : list N) :
  Js.truthy (Config.baseUrl (Config.server cfg)) = true ->
  Js.truthy name = true -> Js.truthy file = true ->
  (forall t ts, DeleteTreasure.configFetch env <> Ok (Some (t :: ts))) ->
  let r := DeleteTreasure.handler cfg POST (Some name) (Some file) env in
  DeleteTreasure.status r = 200
  /\ DeleteTreasure.success (DeleteTreasure.body r) = true
  /\ DeleteTreasure.deleteRequests r = [file]
  /\ DeleteTreasure.pushed r = []
  /\ DeleteTreasure.configUpdated (DeleteTreasure.body r) = Some false
  /\ DeleteTreasure.treasureRemoved (DeleteTreasure.body r) = Some name.
Proof.
  intros Hbase Hname Hfile Hfetch. cbv zeta.
  unfold DeleteTreasure.handler. rewrite Hname, Hfile, Hbase; simpl.
  destruct (DeleteTreasure.configFetch env) as [| |[[|t ts]|]] eqn:Hf;
    simpl; try (repeat split; reflexivity).
  exfalso. exact (Hfetch t ts eq_refl).
Qed.




(* ===================================================================== *)
(** ** Further properties of the authoring workflow *)
(* ===================================================================== *)







Section SessionInvariants.
Import HideTreasures WorkflowUi.
Context `{Platform}.










End SessionInvariants.

Section SessionTheorems.
Import HideTreasures WorkflowUi.
Context `{Platform}.






Lemma truthy_trim_false (s : list N) : Js.truthy (Js.trim s) = false <-> blank s.
Proof.
  rewrite <- trim_nil_iff. destruct (Js.trim s); simpl; split; congruence.
Qed.

(** X13.  Saving appends a record exactly when a treasure has been prepared
    and the clue text is not blank; otherwise it only shows an alert,
    leaving the state as it was and publishing nothing.  The appended record
    carries the trimmed clue text; the instruction and the secret code of a
    physical game are taken as typed, empty or not; the counter grows by
    one; the whole new list is sent to the publisher; and the workflow is
    complete when the counter reaches the quota, otherwise it follows the
    operator's answer. *)
Theorem X13_save_appends_iff_prepared_and_clue_not_blank
    (c : bool) (st : State) :
  ((currentTreasure st = None \/ blank (clueInput st)) ->
   saveClueAndContinue c st
   = (st, [Alert (js "Please enter clue text before continuing.")]))
  /\ (forall p, currentTreasure st = Some p -> ~ blank (clueInput st) ->
      exists r,
        treasures (fst (saveClueAndContinue c st)) = treasures st ++ [r]
        /\ clueText r = Js.trim (clueInput st)
        /\ clueIndex r = pClueIndex p /\ fileName r = pFileName p
        /\ (physicalGameOn st = true ->
            hasPhysicalGame r = true
            /\ physicalGameInstruction r = physicalInstruction st
            /\ physicalGameSecretCode r = secretCode st)
        /\ treasureCount (fst (saveClueAndContinue c st)) = treasureCount st + 1
        /\ head (snd (saveClueAndContinue c st))
           = Some (PostUpdateWebConfig (treasures st ++ [r]))
        /\ currentStep (fst (saveClueAndContinue c st))
           = if maxTreasures st <=? treasureCount st + 1 then Complete
             else if c then Capture else Complete).
Proof.
  unfold saveClueAndContinue. split.
  - intros [Hnone | Hblank].
    + rewrite Hnone. reflexivity.
    + apply truthy_trim_false in Hblank. rewrite Hblank.
      destruct (currentTreasure st); reflexivity.
  - intros p Hp Hnb. rewrite Hp.
    destruct (Js.truthy (Js.trim (clueInput st))) eqn:Htr;
      [|exfalso; apply Hnb, truthy_trim_false; exact Htr].
    exists (completeTreasure p st).
    destruct (maxTreasures st <=? treasureCount st + 1); [|destruct c]; simpl;
      repeat split; try reflexivity;
      match goal with Hg : physicalGameOn st = true |- _ => rewrite Hg end; reflexivity.
Qed.

(** X14.  After a save that appends a record, when the counter was the
    length of the list, running the publisher on the requests of the save
    leaves a local configuration file whose [images] are the session's list
    and whose [totalTreasures] is the session's counter, provided the local
    write succeeds; when it fails the file stays what it was. *)
Theorem X14_saved_list_is_what_gets_published
    (c : bool) (st : State) (p : PartialTreasure)
    (penv : UpdateWebConfig.Env) (file : option WebConfig) :
  currentTreasure st = Some p -> ~ blank (clueInput st) ->
  treasureCount st = N.of_nat (length (treasures st)) ->
  publishAll penv (snd (saveClueAndContinue c st)) file
  = if UpdateWebConfig.localWrite penv
    then Some {| images := treasures (fst (saveClueAndContinue c st));
                 lastUpdated := UpdateWebConfig.now penv;
                 totalTreasures := treasureCount (fst (saveClueAndContinue c st)) |}
    else file.
Proof.
  intros Hp Hnb Hcount. unfold saveClueAndContinue. rewrite Hp.
  destruct (Js.truthy (Js.trim (clueInput st))) eqn:Htr;
    [|exfalso; apply Hnb, truthy_trim_false; exact Htr].
  assert (Hlen : N.of_nat (length (treasures st ++ [completeTreasure p st]))
                 = treasureCount st + 1)
    by (rewrite length_app; simpl; lia).
  destruct (maxTreasures st <=? treasureCount st + 1); [|destruct c];
    unfold publishAll; simpl; unfold UpdateWebConfig.handler;
    destruct (UpdateWebConfig.localWrite penv),
      (UpdateWebConfig.serverPush penv) as [| |[|]], (UpdateWebConfig.publicWrite penv);
    simpl; unfold UpdateWebConfig.makeWebConfig; rewrite ?Hlen; reflexivity.
Qed.

Lemma validate_keeps_buffers cfg venv data name st :
  capturedImage (fst (validateAndUploadImage cfg venv data name st)) = capturedImage st
  /\ capturedImageBackup (fst (validateAndUploadImage cfg venv data name st))
     = capturedImageBackup st
  /\ tempImageData (fst (validateAndUploadImage cfg venv data name st)) = tempImageData st.
Proof.
  unfold validateAndUploadImage.
  destruct (blob venv) as [b|]; [|cbn; auto].
  destruct (respond venv _) as [r|]; [|cbn; auto].
  destruct (accepted cfg r); cbn; auto.
Qed.

Lemma orString_truthy a b c :
  isTruthy a || isTruthy b || isTruthy c = true ->
  isTruthy (orString a (orString b c)) = true.
Proof.
  unfold isTruthy, orString.
  destruct a as [x|]; [destruct (Js.truthy x) eqn:Hx; [rewrite Hx; reflexivity|]|];
    (destruct b as [y|]; [destruct (Js.truthy y) eqn:Hy; [rewrite Hy; reflexivity|]|]);
    simpl; intros Hc; exact Hc.
Qed.

(** X15.  When the label is not blank and the canvas is present, cropping
    finds the image in whichever of the three buffers still holds one: if at
    least one of them does, the "missing image" alert is not shown and
    afterwards all three buffers hold an image; if none does, the handler
    shows that alert and changes nothing. *)
Theorem X15_crop_recovers_the_image_from_any_buffer
    (cfg : Config.t) (env : CropEnv) (venv : ValidateEnv) (st : State) :
  ~ blank (nameInput st) -> canvasReady env = true ->
  let held := isTruthy (capturedImage st) || isTruthy (capturedImageBackup st)
              || isTruthy (tempImageData st) in
  let missing := Alert (js "Missing image data for cropping. Please capture an image first.") in
  (held = false -> cropImage cfg env venv st = (st, [missing]))
  /\ (held = true ->
      ~ In missing (snd (cropImage cfg env venv st))
      /\ isTruthy (capturedImage (fst (cropImage cfg env venv st))) = true
      /\ isTruthy (capturedImageBackup (fst (cropImage cfg env venv st))) = true
      /\ isTruthy (tempImageData (fst (cropImage cfg env venv st))) = true).
Proof.
  intros Hnb Hcanvas. cbv zeta.
  assert (Htr : Js.truthy (Js.trim (nameInput st)) = true).
  { destruct (Js.truthy (Js.trim (nameInput st))) eqn:E; [reflexivity|].
    exfalso. apply Hnb, truthy_trim_false. exact E. }
  assert (Hname : Js.truthy (nameInput st) = true).
  { destruct (nameInput st); [|reflexivity]. discriminate Htr. }
  unfold cropImage. rewrite Htr, Hname, Hcanvas. cbn [negb orb].
  split.
  - intros Hheld.
    apply orb_false_elim in Hheld as [Hheld H3].
    apply orb_false_elim in Hheld as [H1 H2].
    assert (Hnone : isTruthy (orString (capturedImage st)
                      (orString (capturedImageBackup st) (tempImageData st))) = false).
    { unfold isTruthy, orString in *.
      destruct (capturedImage st) as [x|]; [rewrite H1|];
        (destruct (capturedImageBackup st) as [y|]; [rewrite H2|]); exact H3. }
    rewrite Hnone. reflexivity.
  - intros Hheld. pose proof (orString_truthy _ _ _ Hheld) as Hsome.
    rewrite Hsome. cbn [negb]. cbv zeta.
    set (img := orString (capturedImage st)
                  (orString (capturedImageBackup st) (tempImageData st))) in *.
    set (st1 := if isTruthy (capturedImage st) then st else setCapturedImage img st).
    set (st2 := if isTruthy (capturedImageBackup st) then st1
                else setCapturedImageBackup img st1).
    set (st3 := if isTruthy (tempImageData st) then st2 else setTempImageData img st2).
    assert (Hb : isTruthy (capturedImage st3) = true
                 /\ isTruthy (capturedImageBackup st3) = true
                 /\ isTruthy (tempImageData st3) = true).
    { subst st3 st2 st1.
      destruct (isTruthy (capturedImage st)) eqn:H1,
        (isTruthy (capturedImageBackup st)) eqn:H2,
        (isTruthy (tempImageData st)) eqn:H3;
        cbn; rewrite ?H1, ?H2, ?H3, ?Hsome; auto. }
    clearbody st3. clear st1 st2.
    destruct (context2d env); [destruct (outcome env) as [| |croppedData]|];
      cbn [fst snd orb negb];
      try (split; [intros [Hin | []]; discriminate Hin | exact Hb]).
    destruct (validate_keeps_buffers cfg venv croppedData (nameInput st)
                (setCurrentStep Processing (setCroppedImage (Some croppedData) st3)))
      as (E1 & E2 & E3).
    rewrite E1, E2, E3. split; [|exact Hb].
    unfold validateAndUploadImage.
    destruct (blob venv) as [b|]; [|cbn; intros [Hin | []]; discriminate Hin].
    destruct (respond venv _) as [r|];
      [|cbn; intros [Hin | [Hin | []]]; discriminate Hin].
    destruct (accepted cfg r); cbn;
      intros Hin; repeat (destruct Hin as [Hin | Hin]; try discriminate Hin); exact Hin.
Qed.

(** X16.  Validation always settles: afterwards the page is never left in
    the processing step and [isProcessing] is false.  It reaches the clue
    builder exactly when the image could be read back, the route answered,
    and the answer passes the page's test; in every other case (the image
    cannot be read, the request or its parsing fails, the answer is refused)
    it is back at the capture step and the last thing shown is an alert. *)
Theorem X16_validation_always_settles
    (cfg : Config.t) (venv : ValidateEnv) (data name : list N) (st : State) :
  let after := validateAndUploadImage cfg venv data name st in
  let passes :=
    match blob venv with
    | Some b =>
        match respond venv (validatePayload st b name) with
        | Some r => match accepted cfg r with Some _ => true | None => false end
        | None => false
        end
    | None => false
    end in
  isProcessing (fst after) = false
  /\ currentStep (fst after) = (if passes then ClueBuilder else Capture)
  /\ (passes = false -> exists msg, last (snd after) = Some (Alert msg)).
Proof.
  cbv zeta. unfold validateAndUploadImage.
  destruct (blob venv) as [b|]; [|cbn; repeat split; intros; eexists; reflexivity].
  destruct (respond venv _) as [r|]; [|cbn; repeat split; intros; eexists; reflexivity].
  destruct (accepted cfg r); cbn; repeat split; try discriminate;
    intros; eexists; reflexivity.
Qed.

End SessionTheorems.

(* ===================================================================== *)
(** ** The treasure dashboard *)
(* ===================================================================== *)

(** X17.  When the dashboard shows the list the server holds and the
    operator deletes one of its treasures, the list the dashboard shows
    afterwards is the list of the configuration the delete route posted to
    the server; the selection and the confirmation are cleared and a refresh
    is scheduled. *)
Theorem X17_dashboard_list_matches_republished_config
    (cfg : Config.t) (env : DeleteTreasure.Env) (t : TreasureData)
    (st : TreasureDashboard.State) :
  Js.truthy (Config.baseUrl (Config.server cfg)) = true ->
  Js.truthy (imageName t) = true -> Js.truthy (fileName t) = true ->
  DeleteTreasure.configFetch env = Ok (Some (TreasureDashboard.treasures st)) ->
  In t (TreasureDashboard.treasures st) ->
  let r := TreasureDashboard.route cfg env t in
  let after := TreasureDashboard.deleteTreasure (Some (DeleteTreasure.body r)) t st in
  exists doc,
    DeleteTreasure.pushed r = [doc]
    /\ TreasureDashboard.treasures (fst after) = images doc
    /\ ~ In t (TreasureDashboard.treasures (fst after))
    /\ TreasureDashboard.selectedTreasure (fst after) = None
    /\ TreasureDashboard.showDeleteConfirm (fst after) = None
    /\ last (snd after) = Some TreasureDashboard.ScheduleRefresh.
Proof.
  intros Hbase Hname Hfile Hfetch Hin. cbv zeta.
  exists (DeleteTreasure.updatedConfig (DeleteTreasure.now env) (imageName t)
            (TreasureDashboard.treasures st)).
  unfold TreasureDashboard.route, DeleteTreasure.handler.
  rewrite Hname, Hfile, Hbase, Hfetch.
  destruct (TreasureDashboard.treasures st) as [|t0 rest] eqn:Hts; [destruct Hin|].
  unfold TreasureDashboard.deleteTreasure. cbn. rewrite Hts.
  repeat split; try reflexivity.
  intros Hin'. apply list_elem_of_In, list_elem_of_filter in Hin'.
  destruct Hin' as [Hne _]. exact (Hne eq_refl).
Qed.

(** X18.  The dashboard removes a treasure from its list exactly when the
    route answers [success = true], which for a treasure with a non-empty
    [imageName] and [fileName] it always does, whatever happened to the image
    and to the remote configuration; the alert then reports both outcomes.
    For a treasure with an empty [imageName] or [fileName], or when the
    request fails, the list and the selection stay as they were and the
    failure alert is shown. *)
Theorem X18_dashboard_delete_follows_the_answer
    (cfg : Config.t) (env : DeleteTreasure.Env) (t : TreasureData)
    (st : TreasureDashboard.State) :
  let answer := DeleteTreasure.body (TreasureDashboard.route cfg env t) in
  let failed := TreasureDashboard.Alert (js "Failed to delete treasure. Please try again.") in
  (Js.truthy (imageName t) && Js.truthy (fileName t) = true ->
   TreasureDashboard.treasures
     (fst (TreasureDashboard.deleteTreasure (Some answer) t st))
   = filter (fun x => imageName x <> imageName t) (TreasureDashboard.treasures st)
   /\ In (TreasureDashboard.Alert (TreasureDashboard.deletedMessage t answer))
         (snd (TreasureDashboard.deleteTreasure (Some answer) t st)))
  /\ (Js.truthy (imageName t) && Js.truthy (fileName t) = false ->
      TreasureDashboard.deleteTreasure (Some answer) t st
      = (st, [TreasureDashboard.PostDelete (imageName t) (fileName t); failed]))
  /\ TreasureDashboard.deleteTreasure None t st
     = (st, [TreasureDashboard.PostDelete (imageName t) (fileName t); failed]).
Proof.
  cbv zeta. unfold TreasureDashboard.route, DeleteTreasure.handler.
  split; [|split; [|reflexivity]]; intros Hwf; rewrite Hwf.
  - unfold TreasureDashboard.deleteTreasure. cbn.
    split; [reflexivity | right; left; reflexivity].
  - reflexivity.
Qed.

(** X19.  Refreshing the dashboard always ends with [loading = false].  A
    successful answer replaces the list (by the empty list when the answer
    has no [images]) and clears the error; when no server is configured, the
    server cannot be reached or it answers with an error status, the list
    shown and its time stamp are kept and an error message is set. *)
Theorem X19_failed_refresh_keeps_the_list
    (cfg : Config.t) (r : TreasureDashboard.ConfigResponse)
    (st : TreasureDashboard.State) :
  let after := TreasureDashboard.fetchTreasures cfg r st in
  TreasureDashboard.loading after = false
  /\ TreasureDashboard.selectedTreasure after = TreasureDashboard.selectedTreasure st
  /\ match r with
     | TreasureDashboard.FetchOk imgs stamp =>
         Js.truthy (Config.baseUrl (Config.server cfg)) = true ->
         TreasureDashboard.error after = None
         /\ TreasureDashboard.treasures after = default [] imgs
     | _ =>
         TreasureDashboard.treasures after = TreasureDashboard.treasures st
         /\ TreasureDashboard.lastUpdated after = TreasureDashboard.lastUpdated st
         /\ TreasureDashboard.error after <> None
     end
  /\ (Js.truthy (Config.baseUrl (Config.server cfg)) = false ->
      TreasureDashboard.treasures after = TreasureDashboard.treasures st
      /\ TreasureDashboard.error after
         = Some (js "Server not configured. Please check your config settings.")).
Proof.
  cbv zeta. unfold TreasureDashboard.fetchTreasures.
  destruct (Js.truthy (Config.baseUrl (Config.server cfg))), r as [| |imgs stamp];
    cbn; repeat split; try discriminate; try reflexivity;
    try (destruct imgs; reflexivity).
Qed.

Section DashboardImages.
Import HideTreasures.
Context `{Platform}.

(** X20.  The address at which the dashboard looks for the image of a
    treasure saved by the workflow is the address under which the validation
    route stored it (when the asset server returned no url of its own)
    exactly when the label is made of ASCII letters, digits and underscores;
    for any other label the dashboard asks for a file name the route did not
    use. *)
Theorem X20_dashboard_image_address_matches_iff_label_is_clean
    (cfg : Config.t) (label : list N) (st st' : State) :
  TreasureDashboard.getImageUrl cfg
    (fileName (completeTreasure (newTreasure st label) st'))
  = ValidateEndpoint.fallbackUrl cfg (ValidateEndpoint.imageFileName label)
  <-> Forall (fun c => Js.isAlnum c = true \/ c = Js.underscore) label.
Proof.
  rewrite <- replaceNonAlnum_fixed.
  unfold TreasureDashboard.getImageUrl, ValidateEndpoint.fallbackUrl,
    ValidateEndpoint.imageFileName.
  cbn [fileName completeTreasure pFileName newTreasure].
  destruct (Config.baseUrl (Config.server cfg)) as [|b0 base] eqn:Hb; cbn [Js.truthy].
  - rewrite app_nil_l. split.
    + intros Heq. apply app_inv_head in Heq. apply app_inv_tail in Heq.
      symmetry. exact Heq.
    + intros ->. reflexivity.
  - split.
    + intros Heq. apply app_inv_head in Heq. apply app_inv_head in Heq.
      apply app_inv_tail in Heq. symmetry. exact Heq.
    + intros ->. reflexivity.
Qed.

End DashboardImages.

(* ===================================================================== *)
(** ** Further properties of the team store adapter *)
(* ===================================================================== *)

Section TeamStoreTheorems.
Import TeamStore TeamStoreWrites.
Context `{Coercions}.

Local Ltac js_ne := let E := fresh in intros E; vm_compute in E; discriminate E.

Lemma teamNode_Some node m :
  teamNode node = Some m <-> node = JObj m /\ truthy (m !! js "teamName") = true.
Proof.
  unfold teamNode. destruct node as [| | | |m']; try (split; [discriminate | intros [? _]; discriminate]).
  destruct (truthy (m' !! js "teamName")) eqn:Ht; split.
  - intros [= <-]. auto.
  - intros [[= <-] _]. reflexivity.
  - discriminate.
  - intros [[= <-] Ht']. congruence.
Qed.

(** X21.  The roster returned for a root object consists exactly of the
    processed valid team nodes: an entry of the root is listed if and only if
    it is an object with a truthy [teamName]; leaves, and objects without a
    team name, are skipped.  Every listed team carries its key as [uid], a
    [physicalScore], a [physicalScoreComment] and a [session] object. *)
Theorem X21_roster_is_exactly_the_valid_team_nodes
    (allData : gmap (list N) jsval) (team : gmap (list N) jsval) :
  (team ∈ getAllTeams true (Ok (JObj allData)) <->
   exists uid raw, allData !! uid = Some (JObj raw)
     /\ truthy (raw !! js "teamName") = true
     /\ team = processTeam uid raw)
  /\ (team ∈ getAllTeams true (Ok (JObj allData)) ->
      (exists uid, team !! js "uid" = Some (JStr uid) /\ is_Some (allData !! uid))
      /\ is_Some (team !! js "physicalScore")
      /\ is_Some (team !! js "physicalScoreComment")
      /\ exists s, team !! js "session" = Some (JObj s)).
Proof.
  assert (Hiff : team ∈ getAllTeams true (Ok (JObj allData)) <->
                 exists uid raw, allData !! uid = Some (JObj raw)
                   /\ truthy (raw !! js "teamName") = true
                   /\ team = processTeam uid raw).
  { cbn [getAllTeams teamsOfRoot]. rewrite sortTeams_elem. unfold collectTeams.
    rewrite list_elem_of_omap. split.
    - intros [[uid node] [Hin Hf]]. apply elem_of_map_to_list in Hin.
      cbn in Hf. destruct (teamNode node) as [m|] eqn:Hn; [|discriminate].
      apply teamNode_Some in Hn as [-> Ht]. injection Hf as <-.
      exists uid, m. auto.
    - intros (uid & raw & Hl & Ht & ->). exists (uid, JObj raw). split.
      + apply elem_of_map_to_list. exact Hl.
      + assert (Hn : teamNode (JObj raw) = Some raw) by (apply teamNode_Some; auto).
        change (processTeam uid <$> teamNode (JObj raw) = Some (processTeam uid raw)).
        rewrite Hn. reflexivity. }
  split; [exact Hiff|].
  intros Hin. apply Hiff in Hin as (uid & raw & Hl & _ & ->).
  split; [exists uid; split; [apply processTeam_uid | rewrite Hl; eauto]|].
  unfold processTeam.
  split; [rewrite !lookup_insert_ne by js_ne; rewrite lookup_insert_eq; eauto|].
  split; [rewrite lookup_insert_ne by js_ne; rewrite lookup_insert_eq; eauto|].
  rewrite lookup_insert_eq. eauto.
Qed.

Lemma collect_fold (raw : gmap (list N) jsval) (fields : list (list N)) :
  forall (acc : gmap (list N) jsval) (has : bool),
    let result :=
      foldl (fun '(foundFields, hasSessionData) field =>
               match raw !! field with
               | Some v => (<[field := v]> foundFields, true)
               | None => (foundFields, hasSessionData)
               end) (acc, has) fields in
    (forall k, result.1 !! k
               = if decide (k ∈ fields)
                 then match raw !! k with Some v => Some v | None => acc !! k end
                 else acc !! k)
    /\ (result.2 = true <-> has = true \/ exists f, f ∈ fields /\ raw !! f <> None).
Proof.
  induction fields as [|x l IH]; intros acc has; cbn [foldl].
  - split.
    + intros k. rewrite decide_False by apply not_elem_of_nil. reflexivity.
    + split; [auto | intros [? | (f & Hf & _)]; [assumption | inversion Hf]].
  - destruct (raw !! x) as [v|] eqn:Hx.
    + destruct (IH (<[x := v]> acc) true) as [IH1 IH2]. split.
      * intros k. rewrite IH1.
        destruct (decide (k ∈ l)) as [Hkl|Hkl].
        -- rewrite decide_True by (right; exact Hkl).
           destruct (raw !! k) eqn:Hk; [reflexivity|].
           apply lookup_insert_ne. intros ->. congruence.
        -- destruct (decide (k = x)) as [->|Hkx].
           ++ rewrite decide_True by left. rewrite Hx. apply lookup_insert_eq.
           ++ rewrite decide_False by (intros Hin; inversion Hin; subst; contradiction).
              apply lookup_insert_ne. congruence.
      * rewrite IH2. split; [intros _ | auto].
        right. exists x. split; [left | congruence].
    + destruct (IH acc has) as [IH1 IH2]. split.
      * intros k. rewrite IH1.
        destruct (decide (k ∈ l)) as [Hkl|Hkl].
        -- rewrite decide_True by (right; exact Hkl). reflexivity.
        -- destruct (decide (k = x)) as [->|Hkx].
           ++ rewrite decide_True by left. rewrite Hx. reflexivity.
           ++ rewrite decide_False by (intros Hin; inversion Hin; subst; contradiction).
              reflexivity.
      * rewrite IH2. split; intros [Hh | (f & Hf & Hr)]; auto.
        -- right. exists f. split; [right; exact Hf | exact Hr].
        -- inversion Hf; subst; [contradiction|].
           right. exists f. auto.
Qed.

(** X22.  The session attached to a team is chosen in this order: a nested
    [session] object; else a nested [Session] object; else, when the team
    itself has at least one of the fields [currentClueNumber],
    [cluesCompleted], [gameStarted], [started], [status], an object holding
    exactly the ones it has, with their values; else the default. *)
Theorem X22_session_is_chosen_in_order (raw : gmap (list N) jsval) :
  (forall s, asObject (raw !! js "session") = Some s -> sessionOf raw = s)
  /\ (forall s, asObject (raw !! js "session") = None ->
        asObject (raw !! js "Session") = Some s -> sessionOf raw = s)
  /\ (asObject (raw !! js "session") = None ->
      asObject (raw !! js "Session") = None ->
      ((exists f, f ∈ potentialSessionFields /\ raw !! f <> None) ->
       forall k, sessionOf raw !! k
                 = if decide (k ∈ potentialSessionFields) then raw !! k else None)
      /\ ((forall f, f ∈ potentialSessionFields -> raw !! f = None) ->
          sessionOf raw = defaultSession)).
Proof.
  unfold sessionOf. split; [intros s ->; reflexivity|].
  split; [intros s -> ->; reflexivity|].
  intros -> ->.
  destruct (collect_fold raw potentialSessionFields ∅ false) as [Hk Hhas].
  fold (collectSessionFields raw) in Hk, Hhas.
  destruct (collectSessionFields raw) as [found has]. cbn [fst snd] in Hk, Hhas.
  split.
  - intros Hsome.
    assert (Ht : has = true) by (apply Hhas; right; exact Hsome).
    rewrite Ht. intros k. rewrite Hk.
    destruct (decide (k ∈ potentialSessionFields)); [|apply lookup_empty].
    destruct (raw !! k); [reflexivity | apply lookup_empty].
  - intros Hnone.
    destruct has; [|reflexivity].
    exfalso. destruct (proj1 Hhas eq_refl) as [Hf | (f & Hf & Hr)]; [discriminate|].
    exact (Hr (Hnone f Hf)).
Qed.

Lemma applyUpdate_lookup db uid (s : float) (comment : option (list N)) k :
  foldl (fun m '(k0, v) => <[k0 := v]> m) (teamChildren db uid) (updateData s comment) !! k
  = if decide (k = js "physicalScoreComment") then
      match comment with
      | Some c => Some (JStr c)
      | None => teamChildren db uid !! k
      end
    else if decide (k = js "physicalScore") then Some (JNum s)
    else teamChildren db uid !! k.
Proof.
  unfold updateData. destruct comment as [c|]; cbn [foldl].
  - destruct (decide (k = js "physicalScoreComment")) as [->|Hc].
    + apply lookup_insert_eq.
    + rewrite lookup_insert_ne by congruence.
      destruct (decide (k = js "physicalScore")) as [->|Hs].
      * apply lookup_insert_eq.
      * apply lookup_insert_ne. congruence.
  - destruct (decide (k = js "physicalScoreComment")) as [->|Hc].
    + apply lookup_insert_ne. js_ne.
    + destruct (decide (k = js "physicalScore")) as [->|Hs].
      * apply lookup_insert_eq.
      * apply lookup_insert_ne. congruence.
Qed.

(** X23.  [updatePhysicalScore] either fails and leaves the database as it
    was (the caller is not authenticated, the team cannot be read, the team
    does not exist, or the write is rejected), or succeeds, and then no other
    team is touched and, in the team, only [physicalScore] and, when a
    comment is given, [physicalScoreComment] are written: every other field
    of the team is kept.  [TeamNotFound] is reported exactly when an
    authenticated, readable request names a team that does not exist. *)
Theorem X23_update_writes_two_fields_of_one_team
    (authenticated readable accepted : bool) (db : gmap (list N) jsval)
    (uid : list N) (s : float) (comment : option (list N)) :
  let result := updatePhysicalScore authenticated readable accepted db uid s comment in
  (result.2 <> None -> result.1 = db)
  /\ (result.2 = Some TeamNotFound
      <-> authenticated = true /\ readable = true /\ child db uid = None)
  /\ (result.2 = None ->
      child db uid <> None
      /\ (forall other, other <> uid -> result.1 !! other = db !! other)
      /\ exists m, result.1 !! uid = Some (JObj m)
           /\ m !! js "physicalScore" = Some (JNum s)
           /\ (forall c, comment = Some c ->
                 m !! js "physicalScoreComment" = Some (JStr c))
           /\ (forall k, k <> js "physicalScore" ->
                 (k <> js "physicalScoreComment" \/ comment = None) ->
                 m !! k = teamChildren db uid !! k)).
Proof.
  cbv zeta. unfold updatePhysicalScore.
  destruct authenticated; cbn [negb];
    [|repeat split; try discriminate; try reflexivity; intros (? & _); discriminate].
  destruct readable; cbn [negb];
    [|repeat split; try discriminate; try reflexivity; intros (_ & ? & _); discriminate].
  destruct (child db uid) as [node|] eqn:Hchild;
    [|repeat split; try discriminate; try reflexivity].
  destruct accepted; cbn [fst snd];
    [|repeat split; try discriminate; try reflexivity; intros (_ & _ & ?); discriminate].
  split; [intros Hne; exfalso; exact (Hne eq_refl)|].
  split; [split; [discriminate | intros (_ & _ & ?); discriminate]|].
  intros _. split; [discriminate|].
  unfold applyUpdate. split.
  - intros other Hne. apply lookup_insert_ne. congruence.
  - eexists. split; [apply lookup_insert_eq|].
    split; [rewrite applyUpdate_lookup, decide_False by js_ne;
            rewrite decide_True by reflexivity; reflexivity|].
    split.
    + intros c ->. rewrite applyUpdate_lookup, decide_True by reflexivity. reflexivity.
    + intros k Hs Hc. rewrite applyUpdate_lookup.
      destruct (decide (k = js "physicalScoreComment")) as [->|Hkc].
      * destruct Hc as [Hc | ->]; [contradiction | reflexivity].
      * rewrite decide_False by exact Hs. reflexivity.
Qed.

End TeamStoreTheorems.

Section RosterAfterUpdate.
Import TeamStore TeamStoreWrites.
Context `{Coercions}.

Local Ltac js_ne := let E := fresh in intros E; vm_compute in E; discriminate E.

Lemma sessionOf_ext (raw1 raw2 : gmap (list N) jsval) :
  raw1 !! js "session" = raw2 !! js "session" ->
  raw1 !! js "Session" = raw2 !! js "Session" ->
  Forall (fun f => raw1 !! f = raw2 !! f) potentialSessionFields ->
  sessionOf raw1 = sessionOf raw2.
Proof.
  intros Hs HS Hf. unfold sessionOf. rewrite Hs, HS.
  destruct (collect_fold raw1 potentialSessionFields ∅ false) as [Hk1 Hh1].
  destruct (collect_fold raw2 potentialSessionFields ∅ false) as [Hk2 Hh2].
  fold (collectSessionFields raw1) in Hk1, Hh1.
  fold (collectSessionFields raw2) in Hk2, Hh2.
  destruct (collectSessionFields raw1) as [found1 has1].
  destruct (collectSessionFields raw2) as [found2 has2].
  cbn [fst snd] in *.
  rewrite List.Forall_forall in Hf.
  assert (Hfound : found1 = found2).
  { apply map_eq. intros k. rewrite Hk1, Hk2.
    destruct (decide (k ∈ potentialSessionFields)) as [Hin|]; [|reflexivity].
    rewrite (Hf k) by (apply list_elem_of_In; exact Hin). reflexivity. }
  assert (Hhas : has1 = has2).
  { apply eq_true_iff_eq. rewrite Hh1, Hh2.
    split; (intros [? | (f & Hin & Hne)]; [discriminate|]; right; exists f;
            split; [exact Hin|]);
      [rewrite <- (Hf f) | rewrite (Hf f)]; try exact Hne;
      apply list_elem_of_In; exact Hin. }
  rewrite Hfound, Hhas. reflexivity.
Qed.

(** X24.  After a successful [updatePhysicalScore] on a team of the roster,
    the roster read back from the database lists that team with the new
    comment, with the new score (0 when the score given is 0 or not a
    number), and with the session and the other fields it had; and every
    other team of the roster is listed as before. *)
Theorem X24_updated_score_appears_in_the_roster
    (db : gmap (list N) jsval) (uid : list N) (raw : gmap (list N) jsval)
    (s : float) (c : list N) :
  db !! uid = Some (JObj raw) ->
  truthy (raw !! js "teamName") = true ->
  let after := updatePhysicalScore true true true db uid s (Some c) in
  after.2 = None
  /\ (exists team,
        team ∈ getAllTeams true (Ok (JObj after.1))
        /\ team !! js "uid" = Some (JStr uid)
        /\ team !! js "physicalScore"
           = Some (if truthy (Some (JNum s)) then JNum s else JNum 0%float)
        /\ team !! js "physicalScoreComment" = Some (JStr c)
        /\ team !! js "session" = Some (JObj (sessionOf raw))
        /\ (forall k, k <> js "uid" -> k <> js "physicalScore" ->
              k <> js "physicalScoreComment" -> k <> js "session" ->
              team !! k = raw !! k))
  /\ (forall other raw', other <> uid -> db !! other = Some (JObj raw') ->
        truthy (raw' !! js "teamName") = true ->
        processTeam other raw' ∈ getAllTeams true (Ok (JObj after.1))).
Proof.
  intros Hdb Hname. cbv zeta.
  assert (Hchild : child db uid = Some (JObj raw)) by (unfold child; rewrite Hdb; reflexivity).
  assert (Hkids : teamChildren db uid = raw) by (unfold teamChildren; rewrite Hchild; reflexivity).
  unfold updatePhysicalScore. cbn [negb]. rewrite Hchild. cbn [fst snd].
  unfold applyUpdate.
  set (raw' := foldl _ (teamChildren db uid) (updateData s (Some c))).
  assert (Hlook : forall k, raw' !! k
                  = if decide (k = js "physicalScoreComment") then Some (JStr c)
                    else if decide (k = js "physicalScore") then Some (JNum s)
                    else raw !! k).
  { intros k. subst raw'. rewrite applyUpdate_lookup, Hkids. reflexivity. }
  assert (Hsame : forall k, k <> js "physicalScore" -> k <> js "physicalScoreComment" ->
                            raw' !! k = raw !! k).
  { intros k H1 H2. rewrite Hlook, !decide_False by assumption. reflexivity. }
  clearbody raw'.
  split; [reflexivity|]. split.
  - exists (processTeam uid raw'). split.
    { cbn [getAllTeams teamsOfRoot]. apply sortTeams_elem, (collectTeams_elem _ uid).
      - apply lookup_insert_eq.
      - rewrite Hsame by js_ne. exact Hname. }
    split; [apply processTeam_uid|].
    split.
    { unfold processTeam. rewrite !lookup_insert_ne by js_ne. rewrite lookup_insert_eq.
      rewrite lookup_insert_ne by js_ne.
      rewrite Hlook, decide_False by js_ne. rewrite decide_True by reflexivity.
      unfold orDefault. destruct (truthy (Some (JNum s))); reflexivity. }
    split.
    { unfold processTeam. rewrite lookup_insert_ne by js_ne. rewrite lookup_insert_eq.
      rewrite !lookup_insert_ne by js_ne.
      rewrite Hlook, decide_True by reflexivity.
      unfold orDefault. cbn [truthy]. destruct (Js.truthy c) eqn:Hc; [reflexivity|].
      destruct c; [reflexivity | discriminate Hc]. }
    split.
    { rewrite processTeam_session. do 2 f_equal.
      apply sessionOf_ext; try (apply Hsame; js_ne).
      repeat constructor; apply Hsame; js_ne. }
    intros k H1 H2 H3 H4. rewrite processTeam_other by assumption.
    apply Hsame; assumption.
  - intros other raw0 Hne Hother Hn.
    cbn [getAllTeams teamsOfRoot]. apply sortTeams_elem, (collectTeams_elem _ other).
    + rewrite lookup_insert_ne by congruence. exact Hother.
    + exact Hn.
Qed.

End RosterAfterUpdate.

(* ===================================================================== *)
(** ** The volunteer dashboard *)
(* ===================================================================== *)

Ltac dashboard_close :=
  repeat split; intros; cbn [fst snd] in *;
  repeat match goal with
         | Hx : In _ [] |- _ => destruct Hx
         | Hx : In _ (_ :: _) |- _ => destruct Hx as [Hx | Hx]
         | Hx : VolunteerDashboard.Alert _ = _ |- _ => discriminate Hx
         | Hx : VolunteerDashboard.UpdatePhysicalScore _ _ _
                = VolunteerDashboard.UpdatePhysicalScore _ _ _ |- _ =>
             injection Hx as <- <- <-
         end;
  try discriminate; try reflexivity; try congruence; try contradiction; auto.

(** X25.  [savePhysicalScore] calls [updatePhysicalScore] only with a
    non-negative integer read from the text being edited, for the team being
    edited, and with the edited comment or the empty string.  Without an
    edit in progress it does nothing; when the text does not start with a
    number, or the number is negative, it only shows an alert and keeps the
    edit.  After the call the team is no longer marked as saving; the edit of
    that team is closed exactly when the update succeeded; the edits of other
    teams are never touched. *)
Theorem X25_physical_score_is_validated_before_it_is_saved
    (updated : bool) (uid teamName : list N) (st : VolunteerDashboard.State) :
  let after := VolunteerDashboard.savePhysicalScore updated uid teamName st in
  let text := VolunteerDashboard.editingPhysicalScore st !! uid in
  let parsed := text ≫= VolunteerDashboard.parseInt10 in
  let valid := match parsed with Some n => (0 <=? n)%Z | None => false end in
  (forall u n c, In (VolunteerDashboard.UpdatePhysicalScore u n c) after.2 ->
     u = uid /\ parsed = Some n /\ (0 <= n)%Z
     /\ c = default [] (VolunteerDashboard.editingComment st !! uid))
  /\ (text = None -> after = (st, []))
  /\ (text <> None -> valid = false ->
      after = (st, [VolunteerDashboard.Alert (js "Please enter a valid non-negative number")]))
  /\ (valid = true ->
      (exists n c, head after.2 = Some (VolunteerDashboard.UpdatePhysicalScore uid n c))
      /\ VolunteerDashboard.savingScore after.1 !! uid = Some false
      /\ VolunteerDashboard.editingPhysicalScore after.1 !! uid
         = (if updated then None else text)
      /\ VolunteerDashboard.editingComment after.1 !! uid
         = (if updated then None else VolunteerDashboard.editingComment st !! uid))
  /\ (forall other, other <> uid ->
        VolunteerDashboard.editingPhysicalScore after.1 !! other
        = VolunteerDashboard.editingPhysicalScore st !! other
        /\ VolunteerDashboard.editingComment after.1 !! other
           = VolunteerDashboard.editingComment st !! other).
Proof.
  cbv zeta. unfold VolunteerDashboard.savePhysicalScore.
  assert (Hcomment : match VolunteerDashboard.editingComment st !! uid with
                     | Some c => c | None => [] end
                     = default [] (VolunteerDashboard.editingComment st !! uid))
    by (destruct (VolunteerDashboard.editingComment st !! uid); reflexivity).
  destruct (VolunteerDashboard.editingPhysicalScore st !! uid) as [text|] eqn:Htext;
    cbn [mbind option_bind]; [|dashboard_close].
  destruct (VolunteerDashboard.parseInt10 text) as [n|] eqn:Hparse; [|dashboard_close].
  destruct (Z.ltb_spec n 0) as [Hneg|Hpos].
  - assert (Hv : (0 <=? n)%Z = false) by (apply Z.leb_gt; exact Hneg).
    rewrite Hv. dashboard_close.
  - assert (Hv : (0 <=? n)%Z = true) by (apply Z.leb_le; exact Hpos).
    rewrite Hv. rewrite Hcomment.
    destruct updated; cbn [fst snd]; dashboard_close;
      cbn; rewrite ?lookup_insert_eq, ?lookup_delete_eq, ?lookup_delete_ne by congruence;
      eauto.
Qed.

Lemma lookup_map {A B} (f : A -> B) (l : list A) (i : nat) :
  map f l !! i = f <$> (l !! i).
Proof.
  revert i. induction l as [|x l IH]; intros [|i]; simpl; try reflexivity. apply IH.
Qed.

Lemma rowsOf_set teamUid rows st :
  VolunteerDashboard.rowsOf teamUid
    (VolunteerDashboard.setPhysicalScoreTable
       (<[teamUid := rows]> (VolunteerDashboard.physicalScoreTable st)) st) = rows.
Proof.
  unfold VolunteerDashboard.rowsOf. cbn. rewrite lookup_insert_eq. reflexivity.
Qed.


(** X26.  A row of the scoring table is finalised only when the first row
    with the given id has a volunteer name and a benchmark that are not
    blank; otherwise nothing changes and nothing is saved.  Finalising keeps
    the number and the order of the rows, leaves every row with another id as
    it was, changes only [isAdded] and [timestamp] of the rows with that id,
    saves the resulting rows, and never touches the table of another team. *)
Theorem X26_score_is_finalised_only_with_volunteer_and_benchmark
    (now : N) (saved : bool) (teamUid rowId : list N) (st : VolunteerDashboard.State) :
  let after := VolunteerDashboard.addScoreEntry now saved teamUid rowId st in
  let rows := VolunteerDashboard.rowsOf teamUid st in
  let rows' := VolunteerDashboard.rowsOf teamUid after.1 in
  let ready :=
    match VolunteerDashboard.findRow rowId rows with
    | Some row => Js.truthy (Js.trim (VolunteerDashboard.volunteer row))
                  && Js.truthy (Js.trim (VolunteerDashboard.benchmark row))
    | None => false
    end in
  (ready = false ->
   after.1 = st
   /\ forall t e, ~ In (VolunteerDashboard.SavePhysicalScoreEntries t e) after.2)
  /\ (ready = true ->
      head after.2 = Some (VolunteerDashboard.SavePhysicalScoreEntries teamUid rows')
      /\ length rows' = length rows
      /\ forall i r, rows !! i = Some r ->
           exists r', rows' !! i = Some r'
             /\ VolunteerDashboard.id r' = VolunteerDashboard.id r
             /\ VolunteerDashboard.score r' = VolunteerDashboard.score r
             /\ VolunteerDashboard.volunteer r' = VolunteerDashboard.volunteer r
             /\ VolunteerDashboard.benchmark r' = VolunteerDashboard.benchmark r
             /\ (VolunteerDashboard.id r = rowId ->
                 VolunteerDashboard.isAdded r' = true
                 /\ VolunteerDashboard.timestamp r' = now)
             /\ (VolunteerDashboard.id r <> rowId -> r' = r))
  /\ (forall other, other <> teamUid ->
        VolunteerDashboard.physicalScoreTable after.1 !! other
        = VolunteerDashboard.physicalScoreTable st !! other).
Proof.
  cbv zeta. unfold VolunteerDashboard.addScoreEntry.
  destruct (VolunteerDashboard.findRow rowId (VolunteerDashboard.rowsOf teamUid st))
    as [row|]; [|dashboard_close].
  destruct (Js.truthy (Js.trim (VolunteerDashboard.volunteer row)));
    cbn [negb andb]; [|dashboard_close; intros [Hx|[]]; discriminate Hx].
  destruct (Js.truthy (Js.trim (VolunteerDashboard.benchmark row)));
    cbn [negb andb]; [|dashboard_close; intros [Hx|[]]; discriminate Hx].
  cbn [fst snd]. rewrite rowsOf_set.
  split; [discriminate|]. split.
  - intros _. split; [reflexivity|]. split; [apply length_map|].
    intros i r Hr. rewrite lookup_map, Hr. cbn [fmap option_fmap option_map].
    eexists. split; [reflexivity|].
    destruct (decide (VolunteerDashboard.id r = rowId)) as [Heq|Hne];
      repeat split; try reflexivity; try contradiction; auto.
  - intros other Hne. cbn. apply lookup_insert_ne. congruence.
Qed.


(** X28.  The administrative actions are taken only with the password:
    [resetAllTeams] is called exactly when the password typed is the
    expected one and the final confirmation is accepted; the start or end
    signal of the hunt is published exactly when the password typed is the
    expected one, the end signal when the hunt is running and the start
    signal when it is not; a dismissed prompt does nothing and shows
    nothing, and a wrong password only shows the notice that it is
    incorrect. *)
Theorem X28_admin_actions_need_the_password
    (password : option (list N)) (finalConfirm done : bool)
    (st : VolunteerDashboard.State) :
  let reset := VolunteerDashboard.handleResetAll password finalConfirm done in
  let toggle := VolunteerDashboard.handleToggleHunt password done st in
  (In VolunteerDashboard.ResetAllTeams reset
   <-> password = Some VolunteerDashboard.adminPassword /\ finalConfirm = true)
  /\ (In VolunteerDashboard.PublishVolunteerStart toggle
      <-> password = Some VolunteerDashboard.adminPassword
          /\ VolunteerDashboard.huntStatus st = false)
  /\ (In VolunteerDashboard.PublishVolunteerEnd toggle
      <-> password = Some VolunteerDashboard.adminPassword
          /\ VolunteerDashboard.huntStatus st = true)
  /\ (password = None ->
      reset = [VolunteerDashboard.Prompt] /\ toggle = [VolunteerDashboard.Prompt])
  /\ (forall p, password = Some p -> p <> VolunteerDashboard.adminPassword ->
        reset = [VolunteerDashboard.Prompt;
                 VolunteerDashboard.Notify VolunteerDashboard.IncorrectPassword]
        /\ toggle = [VolunteerDashboard.Prompt;
                     VolunteerDashboard.Notify VolunteerDashboard.IncorrectPassword]).
Proof.
  cbv zeta.
  unfold VolunteerDashboard.handleResetAll, VolunteerDashboard.handleToggleHunt.
  destruct password as [p|].
  - destruct (bool_decide_reflect (p = VolunteerDashboard.adminPassword)) as [->|Hne].
    + destruct finalConfirm, (VolunteerDashboard.huntStatus st), done; cbn [In];
        repeat split; intros;
        repeat match goal with
               | Hx : _ \/ _ |- _ => destruct Hx as [Hx | Hx]
               | Hx : _ /\ _ |- _ => destruct Hx
               | Hx : False |- _ => destruct Hx
               end;
        try discriminate; try reflexivity; try congruence; auto 10.
    + cbn [In]; repeat split; intros;
        repeat match goal with
               | Hx : _ \/ _ |- _ => destruct Hx as [Hx | Hx]
               | Hx : _ /\ _ |- _ => destruct Hx
               | Hx : False |- _ => destruct Hx
               end;
        try discriminate; try reflexivity; try congruence; auto 10.
  - cbn [In]; repeat split; intros;
      repeat match goal with
             | Hx : _ \/ _ |- _ => destruct Hx as [Hx | Hx]
             | Hx : _ /\ _ |- _ => destruct Hx
             | Hx : False |- _ => destruct Hx
             end;
      try discriminate; try reflexivity; try congruence; auto 10.
Qed.

(* ===================================================================== *)
(** ** The crop region: what the drag handlers keep true *)
(* ===================================================================== *)

Lemma SFcompare_antisym (a b : SpecFloat.spec_float) :
  SpecFloat.SFcompare b a = option_map CompOpp (SpecFloat.SFcompare a b).
Proof.
  destruct a as [sa|sa| |sa ma ea], b as [sb|sb| |sb mb eb]; cbn;
    repeat match goal with s : bool |- _ => destruct s end; try reflexivity;
    change (Pos.compare_cont Eq) with Pos.compare;
    rewrite (Z.compare_antisym ea eb);
    destruct (ea ?= eb)%Z; cbn; try reflexivity;
    rewrite (Pos.compare_antisym ma mb);
    destruct (ma ?= mb)%positive; reflexivity.
Qed.

Lemma SFleb_trans (a b c : SpecFloat.spec_float) :
  SpecFloat.SFleb a b = true -> SpecFloat.SFleb b c = true -> SpecFloat.SFleb a c = true.
Proof.
  unfold SpecFloat.SFleb.
  destruct a as [sa|sa| |sa ma ea], b as [sb|sb| |sb mb eb], c as [sc|sc| |sc mc ec];
    cbn; repeat match goal with s : bool |- _ => destruct s end;
    try discriminate; try reflexivity;
    change (Pos.compare_cont Eq) with Pos.compare;
    try (destruct (Z.compare_spec ea eb); try discriminate);
    try (destruct (Z.compare_spec eb ec); try discriminate);
    try (destruct (Z.compare_spec ea ec); try reflexivity);
    subst; try lia;
    try (destruct (Pos.compare_spec ma mb); try discriminate);
    try (destruct (Pos.compare_spec mb mc); try discriminate);
    try (destruct (Pos.compare_spec ma mc); try reflexivity);
    subst; cbn; intros; try reflexivity; try discriminate; try lia.
Qed.

Section FloatOrder.

Local Open Scope float_scope.

Lemma ltb_leb (a b : float) : (a <? b) = true -> (a <=? b) = true.
Proof.
  rewrite FloatAxioms.ltb_spec, FloatAxioms.leb_spec. unfold SpecFloat.SFltb, SpecFloat.SFleb.
  destruct (SpecFloat.SFcompare _ _) as [[]|]; auto.
Qed.

Lemma not_nan_spec (a : float) :
  is_nan a = false -> FloatOps.Prim2SF a <> SpecFloat.S754_nan.
Proof.
  unfold is_nan. rewrite FloatAxioms.eqb_spec. intros Ha Hn. rewrite Hn in Ha. discriminate Ha.
Qed.

Lemma not_ltb_leb (a b : float) :
  is_nan a = false -> is_nan b = false -> (a <? b) = false -> (b <=? a) = true.
Proof.
  intros Ha%not_nan_spec Hb%not_nan_spec. rewrite FloatAxioms.ltb_spec, FloatAxioms.leb_spec.
  unfold SpecFloat.SFltb, SpecFloat.SFleb. rewrite SFcompare_antisym.
  destruct (SpecFloat.SFcompare _ _) as [[]|] eqn:Hc; cbn; try reflexivity;
    try discriminate.
  intros _. destruct (FloatOps.Prim2SF a), (FloatOps.Prim2SF b);
    try discriminate Hc; congruence.
Qed.

Lemma leb_refl (a : float) : is_nan a = false -> (a <=? a) = true.
Proof.
  unfold is_nan. rewrite FloatAxioms.eqb_spec, FloatAxioms.leb_spec.
  unfold SpecFloat.SFeqb, SpecFloat.SFleb.
  destruct (SpecFloat.SFcompare _ _) as [[]|]; cbn; auto.
Qed.

Lemma leb_trans (a b c : float) : (a <=? b) = true -> (b <=? c) = true -> (a <=? c) = true.
Proof. rewrite !FloatAxioms.leb_spec. apply SFleb_trans. Qed.

Lemma leb_antisym (a b : float) : (a <=? b) = true -> (b <=? a) = true -> (a =? b) = true.
Proof.
  rewrite !FloatAxioms.leb_spec, FloatAxioms.eqb_spec. unfold SpecFloat.SFleb, SpecFloat.SFeqb.
  rewrite (SFcompare_antisym (FloatOps.Prim2SF a)).
  destruct (SpecFloat.SFcompare _ _) as [[]|]; cbn; auto.
Qed.

Lemma ltb_not_leb (a b : float) : (a <? b) = true -> (b <=? a) = false.
Proof.
  rewrite FloatAxioms.ltb_spec, FloatAxioms.leb_spec. unfold SpecFloat.SFltb, SpecFloat.SFleb.
  rewrite SFcompare_antisym.
  destruct (SpecFloat.SFcompare _ _) as [[]|]; cbn; auto; discriminate.
Qed.

Lemma leb_not_nan (a b : float) : (a <=? b) = true -> is_nan a = false /\ is_nan b = false.
Proof.
  unfold is_nan. rewrite FloatAxioms.leb_spec, !FloatAxioms.eqb_spec. unfold SpecFloat.SFleb, SpecFloat.SFeqb.
  destruct (FloatOps.Prim2SF a) as [sa|sa| |sa ma ea],
           (FloatOps.Prim2SF b) as [sb|sb| |sb mb eb]; cbn;
    repeat match goal with s : bool |- _ => destruct s end;
    try discriminate; intros _; rewrite ?Z.compare_refl, ?Pos.compare_cont_refl;
    split; reflexivity.
Qed.

(** [Math.min] of two numbers is one of them and is below both. *)
Lemma jsMin_cases (a b : float) :
  (is_nan a || is_nan b = true /\ CropRegion.jsMin a b = nan)
  \/ (is_nan a = false /\ is_nan b = false
      /\ ((CropRegion.jsMin a b = a /\ (a <=? b) = true)
          \/ (CropRegion.jsMin a b = b /\ (b <=? a) = true))).
Proof.
  unfold CropRegion.jsMin.
  destruct (is_nan a) eqn:Ha; [left; split; reflexivity|].
  destruct (is_nan b) eqn:Hb; [left; split; reflexivity|].
  right. split; [reflexivity|]. split; [reflexivity|]. cbn [orb].
  destruct (a <? b) eqn:Hab; [left; split; [reflexivity | apply ltb_leb, Hab]|].
  destruct (b <? a) eqn:Hba; [right; split; [reflexivity | apply ltb_leb, Hba]|].
  destruct (get_sign a);
    [left | right]; (split; [reflexivity | apply not_ltb_leb; assumption]).
Qed.

(** [Math.max] of two numbers is one of them and is above both. *)
Lemma jsMax_cases (a b : float) :
  (is_nan a || is_nan b = true /\ CropRegion.jsMax a b = nan)
  \/ (is_nan a = false /\ is_nan b = false
      /\ ((CropRegion.jsMax a b = a /\ (b <=? a) = true)
          \/ (CropRegion.jsMax a b = b /\ (a <=? b) = true))).
Proof.
  unfold CropRegion.jsMax.
  destruct (is_nan a) eqn:Ha; [left; split; reflexivity|].
  destruct (is_nan b) eqn:Hb; [left; split; reflexivity|].
  right. split; [reflexivity|]. split; [reflexivity|]. cbn [orb].
  destruct (a <? b) eqn:Hab; [right; split; [reflexivity | apply ltb_leb, Hab]|].
  destruct (b <? a) eqn:Hba; [left; split; [reflexivity | apply ltb_leb, Hba]|].
  destruct (get_sign a);
    [right | left]; (split; [reflexivity | apply not_ltb_leb; assumption]).
Qed.

(** The clamp [Math.max(lo, Math.min(limit, wanted))] of the drag handlers. *)
Lemma clamp_spec (lo limit wanted : float) :
  is_nan lo = false ->
  let r := CropRegion.jsMax lo (CropRegion.jsMin limit wanted) in
  is_nan r = is_nan limit || is_nan wanted
  /\ (is_nan r = false ->
      (lo <=? r) = true
      /\ ((lo <=? limit) = true -> (r <=? limit) = true)
      /\ ((lo <=? wanted) = true -> (wanted <=? limit) = true -> (r =? wanted) = true)
      /\ ((limit <? lo) = true -> r = lo)).
Proof.
  intros Hlo r. subst r.
  destruct (jsMin_cases limit wanted) as [[Hn ->] | (Hl & Hw & Hm)].
  { unfold CropRegion.jsMax. rewrite Hlo, Hn. cbn. split; [reflexivity | discriminate]. }
  rewrite Hl, Hw. cbn [orb].
  set (m := CropRegion.jsMin limit wanted) in *.
  assert (Hmn : is_nan m = false) by (destruct Hm as [[-> _] | [-> _]]; assumption).
  assert (Hml : (m <=? limit) = true).
  { destruct Hm as [[-> _] | [-> H]]; [apply leb_refl, Hl | exact H]. }
  assert (Hmw : (m <=? wanted) = true).
  { destruct Hm as [[-> H] | [-> _]]; [exact H | apply leb_refl, Hw]. }
  assert (Hwm : (wanted <=? limit) = true -> (wanted <=? m) = true).
  { intros H. destruct Hm as [[-> _] | [-> _]]; [exact H | apply leb_refl, Hw]. }
  clearbody m. clear Hm.
  destruct (jsMax_cases lo m) as [[Hn _] | (_ & _ & Hr)].
  { rewrite Hlo, Hmn in Hn. discriminate Hn. }
  destruct Hr as [[-> Hle] | [-> Hle]].
  - split; [exact Hlo|]. intros _. repeat split.
    + apply leb_refl, Hlo.
    + auto.
    + intros H1 H2. apply leb_antisym; [exact H1|].
      eapply leb_trans; [apply Hwm, H2 | exact Hle].
  - split; [exact Hmn|]. intros _. repeat split.
    + exact Hle.
    + intros _. exact Hml.
    + intros _ H2. apply leb_antisym; [exact Hmw | apply Hwm, H2].
    + intros Hlt. apply ltb_not_leb in Hlt.
      rewrite (leb_trans _ _ _ Hle Hml) in Hlt. discriminate Hlt.
Qed.

(** X29.  Dragging the crop region keeps its size and clamps its position:
    a coordinate is not a number exactly when the bound (image size minus
    region size) or the position asked for is not a number; otherwise it is
    at least 0, at most the bound when the bound is not negative, and
    numerically equal to the position asked for when that lies between 0 and
    the bound. *)
Theorem X29_dragged_region_is_clamped_to_the_image
    (dims : CropRegion.Dimensions)
    (rectWidth rectHeight startX startY startCropX startCropY clientX clientY : float)
    (prev : CropRegion.Area) :
  let next := CropRegion.moveCrop dims rectWidth rectHeight startX startY
                startCropX startCropY clientX clientY prev in
  let limitX := CropRegion.imageWidth dims - CropRegion.width prev in
  let limitY := CropRegion.imageHeight dims - CropRegion.height prev in
  let wantedX := startCropX + (clientX - startX) * (CropRegion.imageWidth dims / rectWidth) in
  let wantedY := startCropY + (clientY - startY) * (CropRegion.imageHeight dims / rectHeight) in
  (CropRegion.width next = CropRegion.width prev
   /\ CropRegion.height next = CropRegion.height prev)
  /\ (is_nan (CropRegion.x next) = is_nan limitX || is_nan wantedX
      /\ (is_nan (CropRegion.x next) = false ->
          (0 <=? CropRegion.x next) = true
          /\ ((0 <=? limitX) = true -> (CropRegion.x next <=? limitX) = true)
          /\ ((0 <=? wantedX) = true -> (wantedX <=? limitX) = true ->
              (CropRegion.x next =? wantedX) = true)))
  /\ (is_nan (CropRegion.y next) = is_nan limitY || is_nan wantedY
      /\ (is_nan (CropRegion.y next) = false ->
          (0 <=? CropRegion.y next) = true
          /\ ((0 <=? limitY) = true -> (CropRegion.y next <=? limitY) = true)
          /\ ((0 <=? wantedY) = true -> (wantedY <=? limitY) = true ->
              (CropRegion.y next =? wantedY) = true))).
Proof.
  cbv zeta. unfold CropRegion.moveCrop. cbn [CropRegion.x CropRegion.y
    CropRegion.width CropRegion.height].
  split; [split; reflexivity|].
  split.
  - match goal with
    | |- context [CropRegion.jsMax 0 (CropRegion.jsMin ?l ?w)] =>
        destruct (clamp_spec 0 l w eq_refl) as [Hn Hb]
    end.
    split; [exact Hn|]. intros H. destruct (Hb H) as (H1 & H2 & H3 & _). auto.
  - match goal with
    | |- context [CropRegion.jsMax 0 (CropRegion.jsMin ?l ?w)] =>
        destruct (clamp_spec 0 l w eq_refl) as [Hn Hb]
    end.
    split; [exact Hn|]. intros H. destruct (Hb H) as (H1 & H2 & H3 & _). auto.
Qed.

(** X30.  Resizing the crop region keeps its position and never makes a
    side shorter than 50: a side is not a number exactly when the bound
    (image size minus position) or the length asked for is not a number;
    otherwise it is at least 50, at most the bound when the bound is at
    least 50, and numerically equal to the length asked for when that lies
    between 50 and the bound.  When the bound is below 50 the side is exactly
    50, so the region reaches past the edge of the image. *)
Theorem X30_resized_region_keeps_a_minimum_side
    (dims : CropRegion.Dimensions)
    (rectWidth rectHeight startX startY startWidth startHeight clientX clientY : float)
    (prev : CropRegion.Area) :
  let next := CropRegion.resizeCrop dims rectWidth rectHeight startX startY
                startWidth startHeight clientX clientY prev in
  let limitW := CropRegion.imageWidth dims - CropRegion.x prev in
  let limitH := CropRegion.imageHeight dims - CropRegion.y prev in
  let wantedW := startWidth + (clientX - startX) * (CropRegion.imageWidth dims / rectWidth) in
  let wantedH := startHeight + (clientY - startY) * (CropRegion.imageHeight dims / rectHeight) in
  (CropRegion.x next = CropRegion.x prev /\ CropRegion.y next = CropRegion.y prev)
  /\ (is_nan (CropRegion.width next) = is_nan limitW || is_nan wantedW
      /\ (is_nan (CropRegion.width next) = false ->
          (50 <=? CropRegion.width next) = true
          /\ ((50 <=? limitW) = true -> (CropRegion.width next <=? limitW) = true)
          /\ ((50 <=? wantedW) = true -> (wantedW <=? limitW) = true ->
              (CropRegion.width next =? wantedW) = true)
          /\ ((limitW <? 50) = true -> CropRegion.width next = 50)))
  /\ (is_nan (CropRegion.height next) = is_nan limitH || is_nan wantedH
      /\ (is_nan (CropRegion.height next) = false ->
          (50 <=? CropRegion.height next) = true
          /\ ((50 <=? limitH) = true -> (CropRegion.height next <=? limitH) = true)
          /\ ((50 <=? wantedH) = true -> (wantedH <=? limitH) = true ->
              (CropRegion.height next =? wantedH) = true)
          /\ ((limitH <? 50) = true -> CropRegion.height next = 50))).
Proof.
  cbv zeta. unfold CropRegion.resizeCrop. cbn [CropRegion.x CropRegion.y
    CropRegion.width CropRegion.height].
  split; [split; reflexivity|].
  split; apply (clamp_spec 50 _ _ eq_refl).
Qed.

End FloatOrder.

(* ===================================================================== *)
(** ** The properties above on the sample inputs *)
(* ===================================================================== *)

Lemma X2_witness_garbled_output :
  ValidateEndpoint.success
    (ValidateEndpoint.body
       (ValidateEndpoint.handler Config.config POST (Some sampleForm)
          (validatorPrints (js "arcoreimg: unknown option")))) = false.
Proof.
  refine (proj1 (proj2 (X2_output_without_digits_is_a_failure Config.config sampleForm
                          (js "arcoreimg: unknown option") [] true
                          ValidateEndpoint.UploadOkText _ _ _))).
  - repeat constructor.
  - constructor.
  - reflexivity.
Defined.

Lemma X4_witness_score_82 :
  length
    (ValidateEndpoint.uploads
       (ValidateEndpoint.handler Config.config POST (Some sampleForm)
          (validatorPrints (js "Image quality score: 82")))) = 1%nat.
Proof.
  refine (proj1 (proj2 (X4_upload_url_of_an_accepted_image Config.config sampleImage
                          (js "Lighthouse") None None
                          (validatorPrints (js "Image quality score: 82")) _ _ _))).
  - reflexivity.
  - vm_compute. discriminate.
  - reflexivity.
Defined.

Lemma X6_witness_unreachable_config :
  DeleteTreasure.pushed
    (DeleteTreasure.handler Config.config POST (Some (js "clue_0_lighthouse"))
       (Some (js "Lighthouse.png")) unreachableConfig) = [].
Proof.
  refine (proj1 (proj2 (proj2 (proj2
            (X6_delete_without_fetched_config_skips_republish Config.config
               unreachableConfig (js "clue_0_lighthouse") (js "Lighthouse.png") _ _ _ _))))).
  - reflexivity.
  - reflexivity.
  - reflexivity.
  - intros t ts. discriminate.
Defined.





Lemma X14_witness_first_treasure :
  option_map totalTreasures
    (publishAll healthyPublisher
       (snd (HideTreasures.saveClueAndContinue true clueReadyState)) None)
  = Some 1.
Proof.
  assert (Hp : exists p, HideTreasures.currentTreasure clueReadyState = Some p)
    by (vm_compute; eexists; reflexivity).
  destruct Hp as [p Hp].
  rewrite (X14_saved_list_is_what_gets_published true clueReadyState p healthyPublisher
             None Hp).
  - reflexivity.
  - intros Hb. vm_compute in Hb. inversion Hb as [|? ? Hc _]. discriminate Hc.
  - reflexivity.
Defined.

Lemma X15_witness_named_state :
  HideTreasures.isTruthy
    (HideTreasures.tempImageData
       (fst (@HideTreasures.cropImage asciiPlatform Config.config goodCrop goodValidator
               namedState))) = true.
Proof.
  refine (proj2 (proj2 (proj2 (proj2 (@X15_crop_recovers_the_image_from_any_buffer
                                        asciiPlatform Config.config goodCrop goodValidator
                                        namedState _ _)
                                 _)))).
  - intros Hb. vm_compute in Hb. inversion Hb as [|? ? Hc _]. discriminate Hc.
  - reflexivity.
  - reflexivity.
Defined.

Lemma X17_witness_dashboard_of_two :
  exists doc,
    DeleteTreasure.pushed
      (TreasureDashboard.route Config.config healthyRemote
         (sampleTreasure (js "clue_0_lighthouse"))) = [doc]
    /\ TreasureDashboard.treasures
         (fst (TreasureDashboard.deleteTreasure
                 (Some (DeleteTreasure.body
                          (TreasureDashboard.route Config.config healthyRemote
                             (sampleTreasure (js "clue_0_lighthouse")))))
                 (sampleTreasure (js "clue_0_lighthouse")) dashboardOfTwo))
       = images doc.
Proof.
  destruct (X17_dashboard_list_matches_republished_config Config.config healthyRemote
              (sampleTreasure (js "clue_0_lighthouse")) dashboardOfTwo)
    as (doc & Hd & Hl & _).
  - reflexivity.
  - reflexivity.
  - reflexivity.
  - reflexivity.
  - left. reflexivity.
  - exists doc. split; [exact Hd | exact Hl].
Defined.

Lemma X24_witness_one_team :
  snd (TeamStoreWrites.updatePhysicalScore true true true oneTeam (js "uid1")
         7%float (Some (js "relay race"))) = None.
Proof.
  refine (proj1 (@X24_updated_score_appears_in_the_roster numericCoercions oneTeam
                   (js "uid1")
                   (<[js "teamName" := TeamStore.JStr (js "Owls")]>
                      {[ js "teamNumber" := TeamStore.JNum 1 ]})
                   7%float (js "relay race") _ _)).
  - vm_compute. reflexivity.
  - vm_compute. reflexivity.
Defined.
